(** * Bit generators: GJrand, JSF64, PCG32 and DSFMT

    A shallow embedding of the C engines ([src/gjrand], [src/jsf64]) and of
    the Cython classes built on them ([bitgenerators/*.pyx]), and the
    properties of seeding, output splitting, state save/restore and jumps
    that the design document states about them.

    Conventions.  A C [uint64_t] or [uint32_t] is a [Z] together with the
    reduction modulo [2^64] or [2^32] written at every operation that can
    leave the range.  A C array is a list read with [a.[i]] and updated with
    [a.[i <- v]].  A C function that mutates its argument returns the new
    value next to its result. *)

From Stdlib Require Import ZArith Lia Floats Ascii.
From stdpp Require Import base list strings gmap.

Local Open Scope Z_scope.

(** ** C integers *)

Definition to_uint64 (z : Z) : Z := z mod 2 ^ 64.
Definition to_uint32 (z : Z) : Z := z mod 2 ^ 32.

Definition is_uint64 (z : Z) : Prop := 0 <= z < 2 ^ 64.
Definition is_uint32 (z : Z) : Prop := 0 <= z < 2 ^ 32.
Definition is_int (z : Z) : Prop := - 2 ^ 31 <= z < 2 ^ 31.

(** [a + b], [a - b], [a ^ b], [a << n], [a >> n] on [uint64_t]. *)
Definition add64 (a b : Z) : Z := to_uint64 (a + b).
Definition sub64 (a b : Z) : Z := to_uint64 (a - b).
Definition xor64 (a b : Z) : Z := Z.lxor a b.
Definition shl64 (a n : Z) : Z := to_uint64 (Z.shiftl a n).
Definition shr64 (a n : Z) : Z := Z.shiftr a n.

(** Arrays. *)
Notation "a .[ i ]" := (lookup_total i%nat a)
  (at level 1, left associativity, format "a .[ i ]").
Notation "a .[ i <- v ]" := (insert i%nat v a)
  (at level 1, left associativity, format "a .[ i  <-  v ]").

(** [for (i = 0; i < n; i++) body(i)] over a value that the body updates. *)
Definition for_range {A : Type} (n : nat) (body : nat -> A -> A) (a : A) : A :=
  foldl (fun acc i => body i acc) a (seq 0 n).

(** ** src/gjrand/gjrand.h, src/gjrand/gjrand.c *)

Module gjrand.

Record gjrand_state := mk_state {
  s : list Z;          (* uint64_t s[4] *)
  has_uint32 : Z;      (* int *)
  uinteger : Z         (* uint32_t *)
}.

(** [rot] is an [unsigned int], so [-rot] wraps modulo [2^32]. *)
Definition rotl (value rot : Z) : Z :=
  Z.lor (shl64 value rot) (shr64 value (Z.land (to_uint32 (- rot)) 63)).

Definition gjrand_next (s : list Z) : Z * list Z :=
  let s := s.[1 <- add64 s.[1] s.[2]] in
  let s := s.[0 <- rotl s.[0] 32] in
  let s := s.[2 <- xor64 s.[2] s.[1]] in
  let s := s.[3 <- add64 s.[3] 0x55aa96a5] in
  let s := s.[0 <- add64 s.[0] s.[1]] in
  let s := s.[2 <- rotl s.[2] 23] in
  let s := s.[1 <- xor64 s.[1] s.[0]] in
  let s := s.[0 <- add64 s.[0] s.[2]] in
  let s := s.[1 <- rotl s.[1] 19] in
  let s := s.[2 <- add64 s.[2] s.[0]] in
  let s := s.[1 <- add64 s.[1] s.[3]] in
  (s.[0], s).

Definition gjrand_next64 (state : gjrand_state) : Z * gjrand_state :=
  let '(r, w) := gjrand_next (s state) in
  (r, mk_state w (has_uint32 state) (uinteger state)).

Definition gjrand_next32 (state : gjrand_state) : Z * gjrand_state :=
  if negb (has_uint32 state =? 0) then
    (uinteger state, mk_state (s state) 0 (uinteger state))
  else
    let '(next, w) := gjrand_next (s state) in
    (to_uint32 (Z.land next 0xffffffff),
     mk_state w 1 (to_uint32 (shr64 next 32))).

Definition gjrand_set_seed (state : gjrand_state) (seed : list Z)
  : gjrand_state :=
  let w := (s state).[0 <- seed.[0]] in
  let w := w.[1 <- seed.[1]] in
  let w := w.[2 <- 2000001] in
  let w := w.[3 <- 0] in
  let w := for_range 14 (fun _ w => snd (gjrand_next w)) w in
  mk_state w (has_uint32 state) (uinteger state).

(** The three out-parameters are returned; [state_arr] is the caller's
    buffer, overwritten slot by slot. *)
Definition gjrand_get_state (state : gjrand_state) (state_arr : list Z)
  : list Z * Z * Z :=
  let state_arr :=
    for_range 4 (fun i arr => arr.[i <- (s state).[i]]) state_arr in
  (state_arr, has_uint32 state, uinteger state).

Definition gjrand_set_state (state : gjrand_state) (state_arr : list Z)
    (has_uint32 uinteger : Z) : gjrand_state :=
  let w := for_range 4 (fun i w => w.[i <- state_arr.[i]]) (s state) in
  mk_state w has_uint32 uinteger.

End gjrand.

(** ** src/jsf64/jsf64.h, src/jsf64/jsf64.c *)

Module jsf64.

Record jsf64_state := mk_state {
  s : list Z;          (* uint64_t s[4] *)
  has_uint32 : Z;      (* int *)
  uinteger : Z         (* uint32_t *)
}.

Definition rotl (value rot : Z) : Z :=
  Z.lor (shl64 value rot) (shr64 value (Z.land (to_uint32 (- rot)) 63)).

Definition jsf64_next (s : list Z) : Z * list Z :=
  let e := sub64 s.[0] (rotl s.[1] 7) in
  let s := s.[0 <- xor64 s.[1] (rotl s.[2] 13)] in
  let s := s.[1 <- add64 s.[2] (rotl s.[3] 37)] in
  let s := s.[2 <- add64 s.[3] e] in
  let s := s.[3 <- add64 e s.[0]] in
  (s.[3], s).

Definition jsf64_next64 (state : jsf64_state) : Z * jsf64_state :=
  let '(r, w) := jsf64_next (s state) in
  (r, mk_state w (has_uint32 state) (uinteger state)).

Definition jsf64_next32 (state : jsf64_state) : Z * jsf64_state :=
  if negb (has_uint32 state =? 0) then
    (uinteger state, mk_state (s state) 0 (uinteger state))
  else
    let '(next, w) := jsf64_next (s state) in
    (to_uint32 (Z.land next 0xffffffff),
     mk_state w 1 (to_uint32 (shr64 next 32))).

Definition jsf64_set_seed (state : jsf64_state) (seed : list Z)
  : jsf64_state :=
  let w := (s state).[0 <- 0xf1ea5eed] in
  let w := w.[1 <- seed.[0]] in
  let w := w.[2 <- seed.[1]] in
  let w := w.[3 <- seed.[2]] in
  let w := for_range 20 (fun _ w => snd (jsf64_next w)) w in
  mk_state w (has_uint32 state) (uinteger state).

Definition jsf64_get_state (state : jsf64_state) (state_arr : list Z)
  : list Z * Z * Z :=
  let state_arr :=
    for_range 4 (fun i arr => arr.[i <- (s state).[i]]) state_arr in
  (state_arr, has_uint32 state, uinteger state).

Definition jsf64_set_state (state : jsf64_state) (state_arr : list Z)
    (has_uint32 uinteger : Z) : jsf64_state :=
  let w := for_range 4 (fun i w => w.[i <- state_arr.[i]]) (s state) in
  mk_state w has_uint32 uinteger.

End jsf64.

(** ** The Python side: objects, exceptions, methods *)

Definition double := PrimFloat.float.

(** The Python values a state blob is made of.  A NumPy array and a Python
    list are both a [PyList]: the classes only index them. *)
#[warnings="-register-all"]
Inductive pyobj :=
| PyNone
| PyInt (n : Z)
| PyFloat (d : double)
| PyStr (s : string)
| PyList (l : list pyobj)
| PyDict (d : gmap string pyobj).

Inductive exn := TypeError | ValueError | KeyError | IndexError | OverflowError.

Inductive result (A : Type) :=
| Ok (a : A)
| Raise (e : exn).
Arguments Ok {A} a.
Arguments Raise {A} e.

Global Instance result_ret : MRet result := fun A a => Ok a.
Global Instance result_bind : MBind result := fun A B f r =>
  match r with
  | Ok a => f a
  | Raise e => Raise e
  end.

(** A method runs on [self]; it leaves the object it has reached, together
    with the value it returns or the exception it raises. *)
Definition method (Self A : Type) : Type := Self -> Self * result A.

Global Instance method_ret {Self} : MRet (method Self) :=
  fun A a self => (self, Ok a).
Global Instance method_bind {Self} : MBind (method Self) :=
  fun A B f m self =>
    match m self with
    | (self', Ok a) => f a self'
    | (self', Raise e) => (self', Raise e)
    end.

Definition raise {Self A} (e : exn) : method Self A :=
  fun self => (self, Raise e).
Definition lift {Self A} (r : result A) : method Self A :=
  fun self => (self, r).
Definition gets {Self A} (f : Self -> A) : method Self A :=
  fun self => (self, Ok (f self)).
Definition modify {Self} (f : Self -> Self) : method Self unit :=
  fun self => (f self, Ok tt).

(** [for i in l: acc = body(i, acc)], stopping at the first exception. *)
Fixpoint for_each {Self A} (l : list nat) (body : nat -> A -> method Self A)
    (acc : A) : method Self A :=
  match l with
  | [] => mret acc
  | i :: l => acc ← body i acc; for_each l body acc
  end.

(** *** Built-in operations *)

Definition isinstance_dict (value : pyobj) : bool :=
  match value with
  | PyDict _ => true
  | _ => false
  end.

(** [value.get(key, default)] on a dict. *)
Definition dict_get (value : pyobj) (key : string) (dflt : pyobj) : pyobj :=
  match value with
  | PyDict d => default dflt (d !! key)
  | _ => dflt
  end.

(** [value != name] for a string [name]. *)
Definition ne_str (value : pyobj) (name : string) : bool :=
  match value with
  | PyStr s => negb (String.eqb s name)
  | _ => true
  end.

(** [value[key]] for a string key. *)
Definition getitem (value : pyobj) (key : string) : result pyobj :=
  match value with
  | PyDict d =>
      match d !! key with
      | Some v => Ok v
      | None => Raise KeyError
      end
  | _ => Raise TypeError
  end.

(** [value[i]] for a non-negative C index. *)
Definition getitem_int (value : pyobj) (i : nat) : result pyobj :=
  match value with
  | PyList l =>
      match l !! i with
      | Some v => Ok v
      | None => Raise IndexError
      end
  | PyStr s =>
      match String.get i s with
      | Some c => Ok (PyStr (String c EmptyString))
      | None => Raise IndexError
      end
  | PyDict _ => Raise KeyError
  | _ => Raise TypeError
  end.

(** [int(d)] for a float: the value cut towards zero; a NaN raises
    [ValueError] and an infinity [OverflowError]. *)
Definition py_int_of_float (d : double) : result Z :=
  match Prim2SF d with
  | S754_zero _ => Ok 0
  | S754_finite s m e =>
      let n := if 0 <=? e then Z.pos m * 2 ^ e else Z.pos m / 2 ^ (- e) in
      Ok (if s then - n else n)
  | S754_infinity _ => Raise OverflowError
  | S754_nan => Raise ValueError
  end.

(** Conversion of a Python object to a C integer of the range
    [lo <= n < hi], as Cython generates it for an assignment to a C
    variable or field and for a typed argument: a Python int in the range
    is taken, one outside raises [OverflowError]; a float goes through its
    [__int__] first, that is, it is cut towards zero; the other objects
    here have no [__int__] and raise [TypeError]. *)
Definition as_c_integer (lo hi : Z) (value : pyobj) : result Z :=
  match value with
  | PyInt n => if decide (lo <= n < hi) then Ok n else Raise OverflowError
  | PyFloat d =>
      n ← py_int_of_float d;
      if decide (lo <= n < hi) then Ok n else Raise OverflowError
  | _ => Raise TypeError
  end.

Definition as_uint64 : pyobj -> result Z := as_c_integer 0 (2 ^ 64).
Definition as_uint32 : pyobj -> result Z := as_c_integer 0 (2 ^ 32).
Definition as_int : pyobj -> result Z := as_c_integer (- 2 ^ 31) (2 ^ 31).
Definition as_npy_intp : pyobj -> result Z :=
  as_c_integer (- 2 ^ 63) (2 ^ 63).

(** Conversion to a C [double]: a float is taken as it is, an int is rounded
    to the nearest double and raises [OverflowError] when it has none. *)
Definition as_double (value : pyobj) : result double :=
  match value with
  | PyFloat d => Ok d
  | PyInt n =>
      let d := SF2Prim (binary_normalize 53 1024 n 0 false) in
      if PrimFloat.is_infinity d then Raise OverflowError else Ok d
  | _ => Raise TypeError
  end.

(** *** NumPy *)

(** [np.empty(n, dtype=np.uint64)]: the contents are unspecified; every use
    below overwrites all of them. *)
Definition np_empty (n : nat) : list Z := replicate n 0.

(** [np.empty(n, dtype=np.double)], likewise. *)
Definition np_empty_double (n : nat) : list double := replicate n 0%float.

(** [int(s)] for a string, in base 10: white space around the literal is
    dropped, a sign may come first, and single underscores may stand
    between digits. *)
Definition is_space (c : Ascii.ascii) : bool :=
  let n := Ascii.nat_of_ascii c in
  ((9 <=? n) && (n <=? 13) || (28 <=? n) && (n <=? 32))%nat.

Definition is_digit (c : Ascii.ascii) : bool :=
  let n := Ascii.nat_of_ascii c in ((48 <=? n) && (n <=? 57))%nat.

Fixpoint lstrip (s : string) : string :=
  match s with
  | String c s' => if is_space c then lstrip s' else s
  | EmptyString => EmptyString
  end.

Fixpoint rstrip (s : string) : string :=
  match s with
  | String c s' =>
      match rstrip s' with
      | EmptyString => if is_space c then EmptyString
                       else String c EmptyString
      | r => String c r
      end
  | EmptyString => EmptyString
  end.

(** The digits after the sign; [after_digit] tells whether the character
    before was a digit, which an underscore and the end both need. *)
Fixpoint py_digits (acc : Z) (after_digit : bool) (s : string) : option Z :=
  match s with
  | EmptyString => if after_digit then Some acc else None
  | String c s' =>
      if is_digit c then
        py_digits (10 * acc + (Z.of_nat (Ascii.nat_of_ascii c) - 48)) true s'
      else if Ascii.eqb c "_"%char then
        if after_digit then py_digits acc false s' else None
      else None
  end.

Definition py_int_of_str (s : string) : result Z :=
  let parsed :=
    match rstrip (lstrip s) with
    | String "-"%char s' => Z.opp <$> py_digits 0 false s'
    | String "+"%char s' => py_digits 0 false s'
    | s' => py_digits 0 false s'
    end in
  match parsed with
  | Some n => Ok n
  | None => Raise ValueError
  end.

(** [PyNumber_Long] followed by the conversion to [unsigned long] and,
    when that fails, to [long]: a negative value within 64 bits wraps
    around, anything wider raises [OverflowError]. *)
Definition np_wrap_uint64 (n : Z) : result Z :=
  if decide (0 <= n < 2 ^ 64) then Ok n
  else if decide (- 2 ^ 63 <= n < 0) then Ok (n + 2 ^ 64)
  else Raise OverflowError.

(** One element stored into a [uint64] array.  A Python int must be within
    64 bits ([OverflowError] otherwise).  A float and a string go through
    [int()], which cuts the float towards zero and parses the string
    ([ValueError] when it is no literal), and are then converted with
    wrap-around.  A sequence where a number is expected raises
    [ValueError], [None] and a dict raise [TypeError]. *)
Definition np_uint64_item (v : pyobj) : result Z :=
  match v with
  | PyInt n => if decide (0 <= n < 2 ^ 64) then Ok n else Raise OverflowError
  | PyFloat d => n ← py_int_of_float d; np_wrap_uint64 n
  | PyStr s => n ← py_int_of_str s; np_wrap_uint64 n
  | PyList _ => Raise ValueError
  | PyNone | PyDict _ => Raise TypeError
  end.

Fixpoint as_uint64_seq (l : list pyobj) : result (list Z) :=
  match l with
  | [] => Ok []
  | v :: l => x ← np_uint64_item v; xs ← as_uint64_seq l; Ok (x :: xs)
  end.

(** [dst[:] = value] for a one-dimensional [uint64] array [dst]: a
    sequence is converted element by element, in order, and must then have
    the length of [dst] or the length 1, which is broadcast ([ValueError]
    otherwise); any other object is converted as one element and
    broadcast. *)
Definition np_assign_uint64 (dst : list Z) (value : pyobj) : result (list Z) :=
  match value with
  | PyList l =>
      xs ← as_uint64_seq l;
      if decide (length xs = length dst) then Ok xs
      else if decide (length xs = 1%nat) then Ok (replicate (length dst) xs.[0])
      else Raise ValueError
  | _ => x ← np_uint64_item value; Ok (replicate (length dst) x)
  end.

(** [uint64_to_double] of [numpy/random/common.pxd]:
    [(rnd >> 11) * (1.0 / 9007199254740992.0)]. *)
Definition uint64_to_double (rnd : Z) : double :=
  PrimFloat.mul (PrimFloat.of_uint63 (Uint63.of_Z (shr64 rnd 11)))
                (PrimFloat.div 1 9007199254740992).

(** ** src/common.h *)

(** [bitgen_t]: the four function slots.  The [state] pointer of the C
    struct always points at the [rng_state] of the object that owns the
    table, so the slots take that state as their argument. *)
Record bitgen_t (St : Type) := mk_bitgen {
  next_uint64 : St -> Z * St;
  next_uint32 : St -> Z * St;
  next_double : St -> double * St;
  next_raw : St -> Z * St
}.
Arguments mk_bitgen {St} _ _ _ _.
Arguments next_uint64 {St} _ _.
Arguments next_uint32 {St} _ _.
Arguments next_double {St} _ _.
Arguments next_raw {St} _ _.

(** What a consumer may ask of a table, and what it gets. *)
Inductive draw := Uint64 | Uint32 | Double | Raw.

Inductive drawn :=
| DrawnInt (z : Z)
| DrawnDouble (d : double).

Definition draw1 {St} (bg : bitgen_t St) (op : draw) (st : St) : drawn * St :=
  match op with
  | Uint64 => let '(r, st) := next_uint64 bg st in (DrawnInt r, st)
  | Uint32 => let '(r, st) := next_uint32 bg st in (DrawnInt r, st)
  | Double => let '(r, st) := next_double bg st in (DrawnDouble r, st)
  | Raw => let '(r, st) := next_raw bg st in (DrawnInt r, st)
  end.

Fixpoint draws {St} (bg : bitgen_t St) (ops : list draw) (st : St)
    : list drawn * St :=
  match ops with
  | [] => ([], st)
  | op :: ops =>
      let '(r, st) := draw1 bg op st in
      let '(rs, st) := draws bg ops st in
      (r :: rs, st)
  end.

(** A method of [self] that runs a method of another object held in a local
    variable: the local object as the call left it is handed back with the
    value; an exception of the call propagates. *)
Definition call {Self Other A} (m : method Other A) (o : Other)
    : method Self (Other * A) :=
  fun self =>
    match m o with
    | (o', Ok a) => (self, Ok (o', a))
    | (_, Raise e) => (self, Raise e)
    end.

(** The table of an object whose [__init__] has not run yet: the slots are
    null pointers and are never called. *)
Definition null_bitgen {St} : bitgen_t St :=
  mk_bitgen (fun st => (0, st)) (fun st => (0, st))
            (fun st => (0%float, st)) (fun st => (0, st)).

(** ** bitgenerators/gjrand.pyx *)

Module GJrand.
Import gjrand.

Definition gjrand_uint64 (st : gjrand_state) : Z * gjrand_state :=
  gjrand_next64 st.

Definition gjrand_uint32 (st : gjrand_state) : Z * gjrand_state :=
  gjrand_next32 st.

Definition gjrand_double (st : gjrand_state) : double * gjrand_state :=
  let '(r, st) := gjrand_next64 st in (uint64_to_double r, st).

Record t := mk {
  rng_state : gjrand_state;
  _bitgen : bitgen_t gjrand_state
}.

Definition __name__ : string := "GJrand".

(** The object before [__init__] has run: zeroed memory. *)
Definition __new__ : t := mk (mk_state [0; 0; 0; 0] 0 0) null_bitgen.

Definition _reset_state_variables (self : t) : t :=
  mk (mk_state (s (rng_state self)) 0 0) (_bitgen self).

(** [val] is what [self._seed_seq.generate_state(2, np.uint64)] gave. *)
Definition __init__ (val : list Z) (self : t) : t :=
  let self :=
    mk (rng_state self)
       (mk_bitgen gjrand_uint64 gjrand_uint32 gjrand_double gjrand_uint64) in
  let self := mk (gjrand_set_seed (rng_state self) val) (_bitgen self) in
  _reset_state_variables self.

(** The property [state], read. *)
Definition state : method t pyobj := fun self =>
  let state_vec := np_empty 4 in
  let '(state_vec, has_uint32, uinteger) :=
    gjrand_get_state (rng_state self) state_vec in
  (self,
   Ok (PyDict (<["bit_generator" := PyStr __name__]>
              (<["state" := PyDict {["state" := PyList (PyInt <$> state_vec)]}]>
              (<["has_uint32" := PyInt has_uint32]>
              (<["uinteger" := PyInt uinteger]> ∅)))))).

(** The property [state], assigned. *)
Definition state_setter (value : pyobj) : method t unit :=
  if negb (isinstance_dict value) then raise TypeError else
  let bitgen := dict_get value "bit_generator" (PyStr EmptyString) in
  if ne_str bitgen __name__ then raise ValueError else
  let state_vec := np_empty 4 in
  state_vec ← lift (st ← getitem value "state";
                    v ← getitem st "state";
                    np_assign_uint64 state_vec v);
  has_uint32 ← lift (v ← getitem value "has_uint32"; as_int v);
  uinteger ← lift (v ← getitem value "uinteger"; as_uint32 v);
  modify (fun self =>
    mk (gjrand_set_state (rng_state self) state_vec has_uint32 uinteger)
       (_bitgen self)).

End GJrand.

(** ** bitgenerators/jsf64.pyx *)

Module JSF64.
Import jsf64.

Definition jsf64_uint64 (st : jsf64_state) : Z * jsf64_state :=
  jsf64_next64 st.

Definition jsf64_uint32 (st : jsf64_state) : Z * jsf64_state :=
  jsf64_next32 st.

Definition jsf64_double (st : jsf64_state) : double * jsf64_state :=
  let '(r, st) := jsf64_next64 st in (uint64_to_double r, st).

Record t := mk {
  rng_state : jsf64_state;
  _bitgen : bitgen_t jsf64_state
}.

Definition __name__ : string := "JSF64".

(** The object before [__init__] has run: zeroed memory. *)
Definition __new__ : t := mk (mk_state [0; 0; 0; 0] 0 0) null_bitgen.

Definition _reset_state_variables (self : t) : t :=
  mk (mk_state (s (rng_state self)) 0 0) (_bitgen self).

(** [val] is what [self._seed_seq.generate_state(3, np.uint64)] gave. *)
Definition __init__ (val : list Z) (self : t) : t :=
  let self :=
    mk (rng_state self)
       (mk_bitgen jsf64_uint64 jsf64_uint32 jsf64_double jsf64_uint64) in
  let self := mk (jsf64_set_seed (rng_state self) val) (_bitgen self) in
  _reset_state_variables self.

(** The property [state], read. *)
Definition state : method t pyobj := fun self =>
  let state_vec := np_empty 4 in
  let '(state_vec, has_uint32, uinteger) :=
    jsf64_get_state (rng_state self) state_vec in
  (self,
   Ok (PyDict (<["bit_generator" := PyStr __name__]>
              (<["state" := PyDict {["state" := PyList (PyInt <$> state_vec)]}]>
              (<["has_uint32" := PyInt has_uint32]>
              (<["uinteger" := PyInt uinteger]> ∅)))))).

(** The property [state], assigned. *)
Definition state_setter (value : pyobj) : method t unit :=
  if negb (isinstance_dict value) then raise TypeError else
  let bitgen := dict_get value "bit_generator" (PyStr EmptyString) in
  if ne_str bitgen __name__ then raise ValueError else
  let state_vec := np_empty 4 in
  state_vec ← lift (st ← getitem value "state";
                    v ← getitem st "state";
                    np_assign_uint64 state_vec v);
  has_uint32 ← lift (v ← getitem value "has_uint32"; as_int v);
  uinteger ← lift (v ← getitem value "uinteger"; as_uint32 v);
  modify (fun self =>
    mk (jsf64_set_state (rng_state self) state_vec has_uint32 uinteger)
       (_bitgen self)).

End JSF64.

(** ** src/pcg32/pcg32.h, as bitgenerators/pcg32.pyx declares it *)

Module pcg32.

Record pcg_state_setseq_64 := mk_random {
  state : Z;           (* uint64_t *)
  inc : Z              (* uint64_t *)
}.

Definition pcg32_random_t := pcg_state_setseq_64.

(** [pcg_state] is a pointer; the record holds what it points to. *)
Record pcg32_state := mk_state {
  pcg_state : pcg32_random_t
}.

(** The functions of the header.  Their bodies are not part of the Cython
    module; what the module relies on is their declared types, of which the
    [uint32_t] result of [pcg32_next32] is stated. *)
Class extern := {
  pcg32_next64 : pcg32_state -> Z * pcg32_state;
  pcg32_next32 : pcg32_state -> Z * pcg32_state;
  pcg32_next_double : pcg32_state -> double * pcg32_state;
  pcg32_jump : pcg32_state -> pcg32_state;
  pcg32_advance_state : pcg32_state -> Z -> pcg32_state;
  pcg32_set_seed : pcg32_state -> Z -> Z -> pcg32_state;
  pcg32_next32_uint32 : forall st, is_uint32 (fst (pcg32_next32 st))
}.

End pcg32.

(** Modelled from the spec: [wrap_int] of the package's [common] module,
    which is not among the sources; the design document describes the step
    count of [advance] as reduced modulo [2^64]. *)
Definition wrap_int (val bits : Z) : Z := val mod 2 ^ bits.

(** ** bitgenerators/pcg32.pyx *)

Module PCG32.
Section with_pcg32_h.
Context `{pcg32.extern}.

Definition pcg32_uint64 (st : pcg32.pcg32_state) : Z * pcg32.pcg32_state :=
  pcg32.pcg32_next64 st.

Definition pcg32_uint32 (st : pcg32.pcg32_state) : Z * pcg32.pcg32_state :=
  pcg32.pcg32_next32 st.

Definition pcg32_double (st : pcg32.pcg32_state)
    : double * pcg32.pcg32_state :=
  pcg32.pcg32_next_double st.

Definition pcg32_raw (st : pcg32.pcg32_state) : Z * pcg32.pcg32_state :=
  let '(r, st) := pcg32.pcg32_next32 st in (to_uint64 r, st).

Record t := mk {
  rng_state : pcg32.pcg32_state;
  _bitgen : bitgen_t pcg32.pcg32_state
}.

Definition __name__ : string := "PCG32".

(** [val] is what [self._seed_seq.generate_state(2, np.uint64)] gave. *)
Definition __init__ (val : list Z) (self : t) : t :=
  let self :=
    mk (rng_state self)
       (mk_bitgen pcg32_uint64 pcg32_uint32 pcg32_double pcg32_raw) in
  mk (pcg32.pcg32_set_seed (rng_state self) val.[0] val.[1]) (_bitgen self).

(** The object before [__init__] has run: zeroed memory. *)
Definition __new__ : t :=
  mk (pcg32.mk_state (pcg32.mk_random 0 0)) null_bitgen.

Definition state : method t pyobj := fun self =>
  let st := pcg32.pcg_state (rng_state self) in
  (self,
   Ok (PyDict (<["bit_generator" := PyStr __name__]>
              {["state" := PyDict (<["state" := PyInt (pcg32.state st)]>
                                   {["inc" := PyInt (pcg32.inc st)]})]}))).

Definition set_state_field (x : Z) (self : t) : t :=
  let st := pcg32.pcg_state (rng_state self) in
  mk (pcg32.mk_state (pcg32.mk_random x (pcg32.inc st))) (_bitgen self).

Definition set_inc_field (x : Z) (self : t) : t :=
  let st := pcg32.pcg_state (rng_state self) in
  mk (pcg32.mk_state (pcg32.mk_random (pcg32.state st) x)) (_bitgen self).

Definition state_setter (value : pyobj) : method t unit :=
  if negb (isinstance_dict value) then raise TypeError else
  let bitgen := dict_get value "bit_generator" (PyStr EmptyString) in
  if ne_str bitgen __name__ then raise ValueError else
  x ← lift (st ← getitem value "state"; v ← getitem st "state"; as_uint64 v);
  _ ← modify (set_state_field x);
  x ← lift (st ← getitem value "state"; v ← getitem st "inc"; as_uint64 v);
  modify (set_inc_field x).

Definition advance (delta : Z) : method t unit :=
  let delta := wrap_int delta 64 in
  delta ← lift (as_uint64 (PyInt delta));
  modify (fun self =>
    mk (pcg32.pcg32_advance_state (rng_state self) delta) (_bitgen self)).

Definition jump_inplace (jumps : Z) : method t unit :=
  let step := 0x9e3779b97f4a7c16 in
  advance (step * jumps).

(** [val] is what the seed sequence of the new object gave to its
    [__init__]. *)
Definition jumped (val : list Z) (jumps : Z) : method t t :=
  let bit_generator := __init__ val __new__ in
  value ← state;
  '(bit_generator, _) ← call (state_setter value) bit_generator;
  '(bit_generator, _) ← call (jump_inplace jumps) bit_generator;
  mret bit_generator.

End with_pcg32_h.
End PCG32.

(** ** src/dsfmt/dSFMT.h, as bitgenerators/dsfmt.pyx declares it *)

Module dSFMT.

(** [union W128_T]: the two 64-bit words [u]; the views [u32] and [d] of the
    same sixteen bytes are not used by the Cython module. *)
Record w128_t := mk_w128 {
  u : list Z           (* uint64_t u[2] *)
}.

Record dsfmt_t := mk_dsfmt {
  status : list w128_t;   (* w128_t status[DSFMT_N + 1] *)
  idx : Z                 (* int *)
}.

(** [state] and [buffered_uniforms] are pointers; the record holds what they
    point to. *)
Record dsfmt_state := mk_state {
  state : dsfmt_t;
  has_uint32 : Z;                   (* int *)
  uinteger : Z;                     (* uint32_t *)
  buffered_uniforms : list double;
  buffer_loc : Z                    (* int *)
}.

Global Instance w128_t_inhabited : Inhabited w128_t := populate (mk_w128 []).
Global Instance double_inhabited : Inhabited double := populate 0%float.

(** The functions of the header; their bodies are not part of the Cython
    module. *)
Class extern := {
  dsfmt_next_double : dsfmt_state -> double * dsfmt_state;
  dsfmt_next64 : dsfmt_state -> Z * dsfmt_state;
  dsfmt_next32 : dsfmt_state -> Z * dsfmt_state;
  dsfmt_next_raw : dsfmt_state -> Z * dsfmt_state;
  dsfmt_init_gen_rand : dsfmt_t -> Z -> dsfmt_t;
  dsfmt_init_by_array : dsfmt_t -> list Z -> Z -> dsfmt_t;
  dsfmt_jump : dsfmt_state -> dsfmt_state
}.

End dSFMT.

(** ** bitgenerators/dsfmt.pyx *)

Module DSFMT.

Definition DSFMT_MEXP : Z := 19937.
Definition DSFMT_N : nat := 191.
Definition DSFMT_N_PLUS_1 : nat := 192.
Definition DSFMT_N64 : nat := DSFMT_N * 2.

Section with_dSFMT_h.
Context `{dSFMT.extern}.

Definition dsfmt_uint64 (st : dSFMT.dsfmt_state) : Z * dSFMT.dsfmt_state :=
  dSFMT.dsfmt_next64 st.

Definition dsfmt_uint32 (st : dSFMT.dsfmt_state) : Z * dSFMT.dsfmt_state :=
  dSFMT.dsfmt_next32 st.

Definition dsfmt_double (st : dSFMT.dsfmt_state)
    : double * dSFMT.dsfmt_state :=
  dSFMT.dsfmt_next_double st.

Definition dsfmt_raw (st : dSFMT.dsfmt_state) : Z * dSFMT.dsfmt_state :=
  dSFMT.dsfmt_next_raw st.

Record t := mk {
  rng_state : dSFMT.dsfmt_state;
  _bitgen : bitgen_t dSFMT.dsfmt_state
}.

Definition __name__ : string := "DSFMT".

(** Assignments to one field of [self.rng_state]. *)
Definition set_status_u (i j : nat) (x : Z) (self : t) : t :=
  let st := rng_state self in
  let d := dSFMT.state st in
  let w := (dSFMT.status d).[i] in
  let w := dSFMT.mk_w128 (dSFMT.u w).[j <- x] in
  mk (dSFMT.mk_state (dSFMT.mk_dsfmt (dSFMT.status d).[i <- w] (dSFMT.idx d))
        (dSFMT.has_uint32 st) (dSFMT.uinteger st)
        (dSFMT.buffered_uniforms st) (dSFMT.buffer_loc st))
     (_bitgen self).

Definition set_idx (x : Z) (self : t) : t :=
  let st := rng_state self in
  let d := dSFMT.state st in
  mk (dSFMT.mk_state (dSFMT.mk_dsfmt (dSFMT.status d) x)
        (dSFMT.has_uint32 st) (dSFMT.uinteger st)
        (dSFMT.buffered_uniforms st) (dSFMT.buffer_loc st))
     (_bitgen self).

Definition set_buffered_uniform (i : nat) (x : double) (self : t) : t :=
  let st := rng_state self in
  mk (dSFMT.mk_state (dSFMT.state st)
        (dSFMT.has_uint32 st) (dSFMT.uinteger st)
        (dSFMT.buffered_uniforms st).[i <- x] (dSFMT.buffer_loc st))
     (_bitgen self).

Definition set_buffer_loc (x : Z) (self : t) : t :=
  let st := rng_state self in
  mk (dSFMT.mk_state (dSFMT.state st)
        (dSFMT.has_uint32 st) (dSFMT.uinteger st)
        (dSFMT.buffered_uniforms st) x)
     (_bitgen self).

Definition _reset_state_variables (self : t) : t :=
  set_buffer_loc (Z.of_nat DSFMT_N64) self.

(** The object before [__init__] has run: zeroed memory, null pointers. *)
Definition __new__ : t :=
  mk (dSFMT.mk_state (dSFMT.mk_dsfmt [] 0) 0 0 [] 0) null_bitgen.

(** [mem] is the content of the block [PyArray_malloc_aligned] returned,
    [val] what [self._seed_seq.generate_state(DSFMT_N * 4, np.uint32)]
    gave. *)
Definition __init__ (mem : dSFMT.dsfmt_t) (val : list Z) (self : t) : t :=
  let st := rng_state self in
  let self :=
    mk (dSFMT.mk_state mem (dSFMT.has_uint32 st) (dSFMT.uinteger st)
          (replicate DSFMT_N64 0%float) (Z.of_nat DSFMT_N64))
       (mk_bitgen dsfmt_uint64 dsfmt_uint32 dsfmt_double dsfmt_raw) in
  let st := rng_state self in
  let self :=
    mk (dSFMT.mk_state
          (dSFMT.dsfmt_init_by_array (dSFMT.state st) val
             (Z.of_nat (length val)))
          (dSFMT.has_uint32 st) (dSFMT.uinteger st)
          (dSFMT.buffered_uniforms st) (dSFMT.buffer_loc st))
       (_bitgen self) in
  _reset_state_variables self.

(** [iter] is a Python object; the loop over [range(iter)] with the C
    index [i] converts it to the type of [i] first. *)
Definition jump_inplace (iter : pyobj) : method t unit :=
  iter ← lift (as_npy_intp iter);
  modify (fun self =>
    let self :=
      for_range (Z.to_nat iter)
        (fun _ self => mk (dSFMT.dsfmt_jump (rng_state self)) (_bitgen self))
        self in
    _reset_state_variables self).

Definition state : method t pyobj := fun self =>
  let st := rng_state self in
  let loc := 0%nat in
  let state := np_empty (2 * DSFMT_N_PLUS_1) in
  let '(state, loc) :=
    for_range DSFMT_N_PLUS_1 (fun i =>
      for_range 2 (fun j '(state, loc) =>
        (state.[loc <- (dSFMT.u (dSFMT.status (dSFMT.state st)).[i]).[j]],
         S loc)))
      (state, loc) in
  let buffered_uniforms := np_empty_double DSFMT_N64 in
  let buffered_uniforms :=
    for_range DSFMT_N64 (fun i b => b.[i <- (dSFMT.buffered_uniforms st).[i]])
      buffered_uniforms in
  (self,
   Ok (PyDict (<["bit_generator" := PyStr __name__]>
              (<["state" := PyDict (<["state" := PyList (PyInt <$> state)]>
                                    {["idx" := PyInt (dSFMT.idx (dSFMT.state st))]})]>
              (<["buffer_loc" := PyInt (dSFMT.buffer_loc st)]>
              {["buffered_uniforms" := PyList (PyFloat <$> buffered_uniforms)]}))))).

Definition state_setter (value : pyobj) : method t unit :=
  let loc := 0%nat in
  if negb (isinstance_dict value) then raise TypeError else
  let bitgen := dict_get value "bit_generator" (PyStr EmptyString) in
  if ne_str bitgen __name__ then raise ValueError else
  state ← lift (st ← getitem value "state"; getitem st "state");
  _ ← for_each (seq 0 DSFMT_N_PLUS_1) (fun i =>
        for_each (seq 0 2) (fun j loc =>
          x ← lift (v ← getitem_int state loc; as_uint64 v);
          _ ← modify (set_status_u i j x);
          mret (S loc)))
        loc;
  x ← lift (st ← getitem value "state"; v ← getitem st "idx"; as_int v);
  _ ← modify (set_idx x);
  buffered_uniforms ← lift (getitem value "buffered_uniforms");
  _ ← for_each (seq 0 DSFMT_N64) (fun i (_ : unit) =>
        x ← lift (v ← getitem_int buffered_uniforms i; as_double v);
        modify (set_buffered_uniform i x))
        tt;
  x ← lift (v ← getitem value "buffer_loc"; as_int v);
  modify (set_buffer_loc x).

(** [mem] and [val] are what the [__init__] of the new object works on.
    The argument [jumps] is declared [np.npy_intp]: it is converted when
    the call is entered, before the body runs, and handed on as a Python
    int. *)
Definition jumped (mem : dSFMT.dsfmt_t) (val : list Z) (jumps : pyobj)
    : method t t :=
  jumps ← lift (as_npy_intp jumps);
  let bit_generator := __init__ mem val __new__ in
  value ← state;
  '(bit_generator, _) ← call (state_setter value) bit_generator;
  '(bit_generator, _) ← call (jump_inplace (PyInt jumps)) bit_generator;
  mret bit_generator.

End with_dSFMT_h.
End DSFMT.

(** ** Definitions used to state the properties *)

(** The C types of the fields, as predicates on the values that model
    them. *)
Definition words_wf (w : list Z) : Prop :=
  length w = 4%nat /\ Forall is_uint64 w.

Definition gjrand_wf (st : gjrand.gjrand_state) : Prop :=
  words_wf (gjrand.s st) /\ is_int (gjrand.has_uint32 st)
  /\ is_uint32 (gjrand.uinteger st).

Definition jsf64_wf (st : jsf64.jsf64_state) : Prop :=
  words_wf (jsf64.s st) /\ is_int (jsf64.has_uint32 st)
  /\ is_uint32 (jsf64.uinteger st).

Definition pcg32_wf (st : pcg32.pcg32_state) : Prop :=
  is_uint64 (pcg32.state (pcg32.pcg_state st))
  /\ is_uint64 (pcg32.inc (pcg32.pcg_state st)).

Definition w128_wf (w : dSFMT.w128_t) : Prop :=
  length (dSFMT.u w) = 2%nat /\ Forall is_uint64 (dSFMT.u w).

Definition dsfmt_wf (st : dSFMT.dsfmt_state) : Prop :=
  length (dSFMT.status (dSFMT.state st)) = DSFMT.DSFMT_N_PLUS_1
  /\ Forall w128_wf (dSFMT.status (dSFMT.state st))
  /\ is_int (dSFMT.idx (dSFMT.state st))
  /\ length (dSFMT.buffered_uniforms st) = DSFMT.DSFMT_N64
  /\ is_int (dSFMT.buffer_loc st).

Global Instance is_uint64_dec z : Decision (is_uint64 z) :=
  ltac:(unfold is_uint64; apply _).
Global Instance is_uint32_dec z : Decision (is_uint32 z) :=
  ltac:(unfold is_uint32; apply _).
Global Instance is_int_dec z : Decision (is_int z) :=
  ltac:(unfold is_int; apply _).
Global Instance words_wf_dec w : Decision (words_wf w) :=
  ltac:(unfold words_wf; apply _).
Global Instance gjrand_wf_dec st : Decision (gjrand_wf st) :=
  ltac:(unfold gjrand_wf; apply _).
Global Instance jsf64_wf_dec st : Decision (jsf64_wf st) :=
  ltac:(unfold jsf64_wf; apply _).
Global Instance pcg32_wf_dec st : Decision (pcg32_wf st) :=
  ltac:(unfold pcg32_wf; apply _).
Global Instance w128_wf_dec w : Decision (w128_wf w) :=
  ltac:(unfold w128_wf; apply _).
Global Instance dsfmt_wf_dec st : Decision (dsfmt_wf st) :=
  ltac:(unfold dsfmt_wf; apply _).

(** One transition, the output dropped. *)
Definition gjrand_step (w : list Z) : list Z := snd (gjrand.gjrand_next w).
Definition jsf64_step (w : list Z) : list Z := snd (jsf64.jsf64_next w).

(** [n] calls of a draw function in a row: the values drawn and the state
    reached. *)
Fixpoint repeat_draw {St} (f : St -> Z * St) (n : nat) (st : St)
    : list Z * St :=
  match n with
  | O => ([], st)
  | S n =>
      let '(r, st) := f st in
      let '(rs, st) := repeat_draw f n st in
      (r :: rs, st)
  end.

(** The two halves of a 64-bit value. *)
Definition low32 (x : Z) : Z := x mod 2 ^ 32.
Definition high32 (x : Z) : Z := x / 2 ^ 32.

(** The output splitter in the words of the design document, over any
    64-bit transition [T]: the splitter holds at most one half-word
    ([Some half]) next to the words of the engine. *)
Definition splitter_spec (T : list Z -> Z * list Z) (c : option Z * list Z)
    : Z * (option Z * list Z) :=
  match c with
  | (Some half, w) => (half, (None, w))
  | (None, w) => let '(x, w) := T w in (low32 x, (Some (high32 x), w))
  end.

Definition gjrand_cache (st : gjrand.gjrand_state) : option Z * list Z :=
  (if gjrand.has_uint32 st =? 0 then None else Some (gjrand.uinteger st),
   gjrand.s st).

Definition jsf64_cache (st : jsf64.jsf64_state) : option Z * list Z :=
  (if jsf64.has_uint32 st =? 0 then None else Some (jsf64.uinteger st),
   jsf64.s st).

(** How many transitions [n] 32-bit requests cost, from a cache that is
    empty or not. *)
Definition transitions (cached : bool) (n : nat) : nat :=
  Nat.div2 (if cached then n else S n).

(** *** State blobs *)

(** The blob the [state] property of GJrand and JSF64 builds. *)
Definition words_blob (name : string) (w : list Z) (has_uint32 uinteger : Z)
    : pyobj :=
  PyDict (<["bit_generator" := PyStr name]>
         (<["state" := PyDict {["state" := PyList (PyInt <$> w)]}]>
         (<["has_uint32" := PyInt has_uint32]>
         (<["uinteger" := PyInt uinteger]> ∅)))).

(** The blob the [state] property of PCG32 builds. *)
Definition PCG32_blob (state inc : Z) : pyobj :=
  PyDict (<["bit_generator" := PyStr PCG32.__name__]>
         {["state" := PyDict (<["state" := PyInt state]>
                              {["inc" := PyInt inc]})]}).

(** The blob the [state] property of DSFMT builds, from its four parts. *)
Definition DSFMT_blob (words : list Z) (idx loc : Z) (buffered : list double)
    : pyobj :=
  PyDict (<["bit_generator" := PyStr DSFMT.__name__]>
         (<["state" := PyDict (<["state" := PyList (PyInt <$> words)]>
                               {["idx" := PyInt idx]})]>
         (<["buffer_loc" := PyInt loc]>
         {["buffered_uniforms" := PyList (PyFloat <$> buffered)]}))).

(** The 384 words and the 382 doubles the [state] property reads out. *)
Definition DSFMT_words (st : dSFMT.dsfmt_state) : list Z :=
  (fun k => (dSFMT.u (dSFMT.status (dSFMT.state st)).[k / 2]).[k mod 2])
    <$> seq 0 (2 * DSFMT.DSFMT_N_PLUS_1).

Definition DSFMT_doubles (st : dSFMT.dsfmt_state) : list double :=
  (fun i => (dSFMT.buffered_uniforms st).[i]) <$> seq 0 DSFMT.DSFMT_N64.

(** What the assignments of the DSFMT setter leave when none of its
    conversions raises. *)
Definition DSFMT_restore (words : list Z) (idx loc : Z)
    (buffered : list double) (self : DSFMT.t) : DSFMT.t :=
  let self :=
    for_range DSFMT.DSFMT_N_PLUS_1 (fun i self =>
      DSFMT.set_status_u i 1 words.[2 * i + 1]
        (DSFMT.set_status_u i 0 words.[2 * i] self)) self in
  let self := DSFMT.set_idx idx self in
  let self :=
    for_range DSFMT.DSFMT_N64 (fun i self =>
      DSFMT.set_buffered_uniform i buffered.[i] self) self in
  DSFMT.set_buffer_loc loc self.

(** A blob is readable by the DSFMT setter when the arrays are long enough
    and every value fits its C type. *)
Definition DSFMT_blob_ok (words : list Z) (idx loc : Z)
    (buffered : list double) : Prop :=
  (2 * DSFMT.DSFMT_N_PLUS_1 <= length words)%nat
  /\ Forall is_uint64 words
  /\ is_int idx /\ is_int loc
  /\ (DSFMT.DSFMT_N64 <= length buffered)%nat.

(** Save and restore on one object. *)
Definition GJrand_roundtrip : method GJrand.t unit :=
  value ← GJrand.state; GJrand.state_setter value.

Definition JSF64_roundtrip : method JSF64.t unit :=
  value ← JSF64.state; JSF64.state_setter value.

Definition PCG32_roundtrip : method PCG32.t unit :=
  value ← PCG32.state; PCG32.state_setter value.

Definition DSFMT_roundtrip : method DSFMT.t unit :=
  value ← DSFMT.state; DSFMT.state_setter value.

(** *** Stand-ins for the two headers *)

(** Modelled from the spec: the functions of [src/pcg32/pcg32.h], whose
    bodies are not among the sources, after section 4.2 of the design
    document: a 64-bit LCG step, the output permutation of the state before
    the step (xorshift, then a rotation by the top five bits), 64 bits from
    two steps, the closed-form advance by squaring, and seeding with the
    increment forced odd.  The multiplier, which the document does not give,
    is that of the PCG reference generator.  The theorems on PCG32 hold for
    every implementation of the header; this one instantiates them at
    concrete inputs. *)
Module pcg32_model.

Definition PCG_DEFAULT_MULTIPLIER_64 : Z := 6364136223846793005.

Definition step (rng : pcg32.pcg32_random_t) : pcg32.pcg32_random_t :=
  pcg32.mk_random
    (to_uint64 (pcg32.state rng * PCG_DEFAULT_MULTIPLIER_64 + pcg32.inc rng))
    (pcg32.inc rng).

Definition output (oldstate : Z) : Z :=
  let xorshifted := to_uint32 (shr64 (xor64 (shr64 oldstate 18) oldstate) 27) in
  let rot := shr64 oldstate 59 in
  to_uint32 (Z.lor (Z.shiftr xorshifted rot)
               (Z.shiftl xorshifted (Z.land (to_uint32 (- rot)) 31))).

Definition next32 (st : pcg32.pcg32_state) : Z * pcg32.pcg32_state :=
  (output (pcg32.state (pcg32.pcg_state st)),
   pcg32.mk_state (step (pcg32.pcg_state st))).

Definition next64 (st : pcg32.pcg32_state) : Z * pcg32.pcg32_state :=
  let '(hi, st) := next32 st in
  let '(lo, st) := next32 st in
  (Z.lor (Z.shiftl hi 32) lo, st).

Definition next_double (st : pcg32.pcg32_state)
    : double * pcg32.pcg32_state :=
  let '(r, st) := next64 st in (uint64_to_double r, st).

(** The composition of [delta] steps as one affine map [(mult, plus)], one
    bit of [delta] per round. *)
Fixpoint advance_lcg (rounds : nat) (delta cur_mult cur_plus acc_mult acc_plus : Z)
    : Z * Z :=
  match rounds with
  | O => (acc_mult, acc_plus)
  | S rounds =>
      let acc_mult' :=
        if Z.odd delta then to_uint64 (acc_mult * cur_mult) else acc_mult in
      let acc_plus' :=
        if Z.odd delta then to_uint64 (acc_plus * cur_mult + cur_plus)
        else acc_plus in
      advance_lcg rounds (delta / 2)
        (to_uint64 (cur_mult * cur_mult))
        (to_uint64 ((cur_mult + 1) * cur_plus))
        acc_mult' acc_plus'
  end.

Definition advance_state (st : pcg32.pcg32_state) (delta : Z)
    : pcg32.pcg32_state :=
  let rng := pcg32.pcg_state st in
  let '(mult, plus) :=
    advance_lcg 64 delta PCG_DEFAULT_MULTIPLIER_64 (pcg32.inc rng) 1 0 in
  pcg32.mk_state
    (pcg32.mk_random (to_uint64 (mult * pcg32.state rng + plus))
       (pcg32.inc rng)).

Definition jump (st : pcg32.pcg32_state) : pcg32.pcg32_state :=
  advance_state st 0x9e3779b97f4a7c16.

Definition set_seed (st : pcg32.pcg32_state) (seed inc : Z)
    : pcg32.pcg32_state :=
  pcg32.mk_state (step (pcg32.mk_random seed (Z.lor inc 1))).

Definition header : pcg32.extern := {|
  pcg32.pcg32_next64 := next64;
  pcg32.pcg32_next32 := next32;
  pcg32.pcg32_next_double := next_double;
  pcg32.pcg32_jump := jump;
  pcg32.pcg32_advance_state := advance_state;
  pcg32.pcg32_set_seed := set_seed;
  pcg32.pcg32_next32_uint32 := fun st =>
    Z.mod_pos_bound _ (2 ^ 32) eq_refl
|}.

End pcg32_model.

(** Modelled from the spec: the draw path of [src/dsfmt/dSFMT.h], whose
    bodies are not among the sources, after sections 3 and 4.5 of the
    design document: draws take the double under the cursor [buffer_loc];
    at [buffer_loc = 382] the cache is empty and the draw first refills all
    382 slots from the status array and resets the cursor to 0; 32-bit and
    64-bit values are cut out of the doubles drawn; a jump acts on the
    status array.  The recurrence, the jump polynomial, the seeding and the
    bit pattern of a double are parameters. *)
Module dSFMT_model.
Section over_the_recurrence.
Context (fill : dSFMT.dsfmt_t -> dSFMT.dsfmt_t * list double).
Context (jump : dSFMT.dsfmt_t -> dSFMT.dsfmt_t).
Context (init_gen_rand : Z -> dSFMT.dsfmt_t).
Context (init_by_array : list Z -> dSFMT.dsfmt_t).
Context (bits : double -> Z).

Definition next_buffer (st : dSFMT.dsfmt_state) : double * dSFMT.dsfmt_state :=
  if dSFMT.buffer_loc st <? Z.of_nat DSFMT.DSFMT_N64 then
    ((dSFMT.buffered_uniforms st).[Z.to_nat (dSFMT.buffer_loc st)],
     dSFMT.mk_state (dSFMT.state st) (dSFMT.has_uint32 st)
       (dSFMT.uinteger st) (dSFMT.buffered_uniforms st)
       (dSFMT.buffer_loc st + 1))
  else
    let '(d, buffered) := fill (dSFMT.state st) in
    (buffered.[0],
     dSFMT.mk_state d (dSFMT.has_uint32 st) (dSFMT.uinteger st) buffered 1).

Definition next32 (st : dSFMT.dsfmt_state) : Z * dSFMT.dsfmt_state :=
  let '(d, st) := next_buffer st in (to_uint32 (shr64 (bits d) 16), st).

Definition next64 (st : dSFMT.dsfmt_state) : Z * dSFMT.dsfmt_state :=
  let '(hi, st) := next32 st in
  let '(lo, st) := next32 st in
  (Z.lor (Z.shiftl hi 32) lo, st).

Definition next_raw (st : dSFMT.dsfmt_state) : Z * dSFMT.dsfmt_state :=
  let '(d, st) := next_buffer st in (bits d, st).

Definition jump_state (st : dSFMT.dsfmt_state) : dSFMT.dsfmt_state :=
  dSFMT.mk_state (jump (dSFMT.state st)) (dSFMT.has_uint32 st)
    (dSFMT.uinteger st) (dSFMT.buffered_uniforms st) (dSFMT.buffer_loc st).

Definition header : dSFMT.extern := {|
  dSFMT.dsfmt_next_double := next_buffer;
  dSFMT.dsfmt_next64 := next64;
  dSFMT.dsfmt_next32 := next32;
  dSFMT.dsfmt_next_raw := next_raw;
  dSFMT.dsfmt_init_gen_rand := fun _ seed => init_gen_rand seed;
  dSFMT.dsfmt_init_by_array := fun _ init_key _ => init_by_array init_key;
  dSFMT.dsfmt_jump := jump_state
|}.

End over_the_recurrence.

(** A status array of the right shape, all zero. *)
Definition zero_status : dSFMT.dsfmt_t :=
  dSFMT.mk_dsfmt (replicate DSFMT.DSFMT_N_PLUS_1 (dSFMT.mk_w128 [0; 0])) 0.

(** The smallest inhabitant: a recurrence that stands still.  It only
    serves to try the theorems, which hold for every implementation of the
    header, at concrete inputs. *)
Definition still : dSFMT.extern :=
  header (fun d => (d, replicate DSFMT.DSFMT_N64 0.5%float)) (fun d => d)
    (fun _ => zero_status) (fun _ => zero_status) (fun _ => 0).

End dSFMT_model.

(** *** Concrete objects *)

Definition DSFMT_sample : DSFMT.t :=
  DSFMT.mk
    (dSFMT.mk_state dSFMT_model.zero_status 0 0
       (replicate DSFMT.DSFMT_N64 0.25%float) 5)
    null_bitgen.

(** The blob of [DSFMT_sample] with the index 100000 in place of 0. *)
Definition DSFMT_blob_bad_idx : pyobj :=
  DSFMT_blob (DSFMT_words (DSFMT.rng_state DSFMT_sample)) 100000 5
    (DSFMT_doubles (DSFMT.rng_state DSFMT_sample)).

(** The same blob with an empty array of doubles and the index 7. *)
Definition DSFMT_blob_short : pyobj :=
  DSFMT_blob (DSFMT_words (DSFMT.rng_state DSFMT_sample)) 7 5 [].

(** A PCG32 blob with the LCG value 7 and no increment. *)
Definition PCG32_blob_no_inc : pyobj :=
  PyDict (<["bit_generator" := PyStr PCG32.__name__]>
          {["state" := PyDict {["state" := PyInt 7]}]}).

(** *** Definitions for the further properties *)

(** The transitions run backwards.  They are not in the sources; they state
    that a transition loses nothing of the four words. *)
Definition rotr (value rot : Z) : Z := gjrand.rotl value ((- rot) mod 64).

Definition gjrand_unstep (w : list Z) : list Z :=
  let d := sub64 w.[3] 0x55aa96a5 in
  let b3 := sub64 w.[1] w.[3] in
  let c2 := sub64 w.[2] w.[0] in
  let b2 := rotr b3 19 in
  let a2 := sub64 w.[0] c2 in
  let b1 := xor64 b2 a2 in
  let c1 := rotr c2 23 in
  let a1 := sub64 a2 b1 in
  let c := xor64 c1 b1 in
  let b := sub64 b1 c in
  let a := rotr a1 32 in
  [a; b; c; d].

Definition jsf64_unstep (w : list Z) : list Z :=
  let e := sub64 w.[3] w.[0] in
  let d := sub64 w.[2] e in
  let c := sub64 w.[1] (jsf64.rotl d 37) in
  let b := xor64 w.[0] (jsf64.rotl c 13) in
  let a := add64 e (jsf64.rotl b 7) in
  [a; b; c; d].

(** The C type of the value a slot returns. *)
Definition drawn_in_range (op : draw) (r : drawn) : Prop :=
  match op, r with
  | Uint32, DrawnInt z => is_uint32 z
  | Uint64, DrawnInt z => is_uint64 z
  | Raw, DrawnInt z => is_uint64 z
  | Double, DrawnDouble _ => True
  | _, _ => False
  end.

(** A method keeps [P] when the object it leaves, whether it returns or
    raises, satisfies [P] if the object it started on did. *)
Definition keeps {Self A} (P : Self -> Prop) (m : method Self A) : Prop :=
  forall self, P self -> P (fst (m self)).

(** The assignment the DSFMT setter makes for the word at position [k] of
    the array it reads: [status[k / 2].u[k % 2] = words[k]]. *)
Definition DSFMT_store_word (words : list Z) (k : nat) (self : DSFMT.t)
    : DSFMT.t :=
  DSFMT.set_status_u (k / 2) (k mod 2) words.[k] self.

(** The range of [np.npy_intp] on the 64-bit platforms. *)
Definition is_npy_intp (z : Z) : Prop := - 2 ^ 63 <= z < 2 ^ 63.

Global Instance is_npy_intp_dec z : Decision (is_npy_intp z) :=
  ltac:(unfold is_npy_intp; apply _).

(** [self] with another cache of doubles and another cursor into it. *)
Definition DSFMT_with_cache (cache : list double) (cursor : Z)
    (self : DSFMT.t) : DSFMT.t :=
  let st := DSFMT.rng_state self in
  DSFMT.mk
    (dSFMT.mk_state (dSFMT.state st) (dSFMT.has_uint32 st)
       (dSFMT.uinteger st) cache cursor)
    (DSFMT._bitgen self).

(** What a setter of the shape of [GJrand.state] and [JSF64.state] does
    with a dict that carries its tag and is malformed further on: a missing
    entry, a state array of 64-bit integers whose length is neither 4 nor 1,
    a flag outside a C [int] or a cached half outside 32 bits.  Each is
    refused with the exception named and the object as it was. *)
Definition rejects_malformed_words {Self} (name : string)
    (setter : pyobj -> method Self unit) : Prop :=
  forall (d inner : gmap string pyobj) (self : Self),
    d !! "bit_generator" = Some (PyStr name) ->
    (d !! "state" = None -> setter (PyDict d) self = (self, Raise KeyError))
    /\ (d !! "state" = Some (PyDict inner) ->
        (inner !! "state" = None ->
         setter (PyDict d) self = (self, Raise KeyError))
        /\ (forall ws,
            inner !! "state" = Some (PyList (PyInt <$> ws)) ->
            Forall is_uint64 ws ->
            (length ws <> 4%nat -> length ws <> 1%nat ->
             setter (PyDict d) self = (self, Raise ValueError))
            /\ (length ws = 4%nat ->
                (d !! "has_uint32" = None ->
                 setter (PyDict d) self = (self, Raise KeyError))
                /\ (forall h,
                    d !! "has_uint32" = Some (PyInt h) ->
                    (~ is_int h ->
                     setter (PyDict d) self = (self, Raise OverflowError))
                    /\ (is_int h ->
                        (d !! "uinteger" = None ->
                         setter (PyDict d) self = (self, Raise KeyError))
                        /\ (forall u,
                            d !! "uinteger" = Some (PyInt u) ->
                            ~ is_uint32 u ->
                            setter (PyDict d) self =
                            (self, Raise OverflowError))))))).

(** The shape of the arrays of a DSFMT object: 192 blocks of two words and
    382 buffered doubles. *)
Definition DSFMT_shaped (st : dSFMT.dsfmt_state) : Prop :=
  length (dSFMT.status (dSFMT.state st)) = DSFMT.DSFMT_N_PLUS_1
  /\ Forall (fun w => length (dSFMT.u w) = 2%nat) (dSFMT.status (dSFMT.state st))
  /\ length (dSFMT.buffered_uniforms st) = DSFMT.DSFMT_N64.

Global Instance DSFMT_shaped_dec st : Decision (DSFMT_shaped st) :=
  ltac:(unfold DSFMT_shaped; apply _).

(** ** Properties of the C integers *)

Lemma to_uint64_range z : is_uint64 (to_uint64 z).
Proof. unfold is_uint64, to_uint64. apply Z.mod_pos_bound. lia. Qed.

Lemma to_uint32_range z : is_uint32 (to_uint32 z).
Proof. unfold is_uint32, to_uint32. apply Z.mod_pos_bound. lia. Qed.

Lemma to_uint64_id z : is_uint64 z -> to_uint64 z = z.
Proof. intros Hz. apply Z.mod_small, Hz. Qed.

Lemma to_uint32_id z : is_uint32 z -> to_uint32 z = z.
Proof. intros Hz. apply Z.mod_small, Hz. Qed.

Lemma below_pow2_bits n z :
  0 <= n -> 0 <= z ->
  (z < 2 ^ n <-> forall k, n <= k -> Z.testbit z k = false).
Proof.
  intros Hn Hz. split.
  - intros Hlt k Hk. destruct (Z.eq_dec z 0) as [->|Hne].
    + apply Z.bits_0.
    + apply Z.bits_above_log2; [lia|].
      assert (Z.log2 z < n) by (apply Z.log2_lt_pow2; lia). lia.
  - intros Hbits. destruct (Z.eq_dec z 0) as [->|Hne].
    + apply Z.pow_pos_nonneg; lia.
    + apply Z.log2_lt_pow2; [lia|].
      destruct (Z_lt_le_dec (Z.log2 z) n) as [|Hge]; [assumption|].
      specialize (Hbits (Z.log2 z) Hge).
      rewrite Z.bit_log2 in Hbits by lia. discriminate.
Qed.

Lemma lor_uint64 a b : is_uint64 a -> is_uint64 b -> is_uint64 (Z.lor a b).
Proof.
  unfold is_uint64. intros [Ha0 Ha] [Hb0 Hb].
  assert (H0 : 0 <= Z.lor a b) by (apply Z.lor_nonneg; lia).
  split; [exact H0|].
  apply (below_pow2_bits 64); [lia|exact H0|].
  intros k Hk. rewrite Z.lor_spec.
  rewrite (proj1 (below_pow2_bits 64 a ltac:(lia) Ha0) Ha k Hk).
  rewrite (proj1 (below_pow2_bits 64 b ltac:(lia) Hb0) Hb k Hk).
  reflexivity.
Qed.

Lemma lxor_uint64 a b : is_uint64 a -> is_uint64 b -> is_uint64 (xor64 a b).
Proof.
  unfold is_uint64, xor64. intros [Ha0 Ha] [Hb0 Hb].
  assert (H0 : 0 <= Z.lxor a b) by (apply Z.lxor_nonneg; lia).
  split; [exact H0|].
  apply (below_pow2_bits 64); [lia|exact H0|].
  intros k Hk. rewrite Z.lxor_spec.
  rewrite (proj1 (below_pow2_bits 64 a ltac:(lia) Ha0) Ha k Hk).
  rewrite (proj1 (below_pow2_bits 64 b ltac:(lia) Hb0) Hb k Hk).
  reflexivity.
Qed.

Lemma shr_uint64 a n : 0 <= n -> is_uint64 a -> is_uint64 (shr64 a n).
Proof.
  unfold is_uint64, shr64. intros Hn [Ha0 Ha].
  rewrite Z.shiftr_div_pow2 by lia.
  assert (0 < 2 ^ n) by (apply Z.pow_pos_nonneg; lia).
  split.
  - apply Z.div_pos; lia.
  - apply Z.le_lt_trans with a; [|lia].
    apply Z.div_le_upper_bound; nia.
Qed.

Lemma low32_land x : to_uint32 (Z.land x 0xffffffff) = low32 x.
Proof.
  unfold to_uint32, low32. change 0xffffffff with (Z.ones 32).
  rewrite Z.land_ones by lia. apply Z.mod_mod. lia.
Qed.

Lemma high32_shr x : is_uint64 x -> to_uint32 (shr64 x 32) = high32 x.
Proof.
  unfold is_uint64, to_uint32, shr64, high32. intros Hx.
  rewrite Z.shiftr_div_pow2 by lia. apply Z.mod_small.
  split.
  - apply Z.div_pos; lia.
  - apply Z.div_lt_upper_bound; lia.
Qed.

Lemma low32_high32 x : x = low32 x + 2 ^ 32 * high32 x.
Proof. unfold low32, high32. rewrite Z.add_comm. apply Z.div_mod. lia. Qed.

(** ** The transitions *)

Lemma four_words (w : list Z) :
  length w = 4%nat -> exists a b c d, w = [a; b; c; d].
Proof.
  destruct w as [|a [|b [|c [|d [|e w]]]]]; simpl; try discriminate.
  intros _. by exists a, b, c, d.
Qed.

Lemma rotl_gjrand_uint64 v r : is_uint64 v -> is_uint64 (gjrand.rotl v r).
Proof.
  intros Hv. unfold gjrand.rotl. apply lor_uint64.
  - apply to_uint64_range.
  - apply shr_uint64; [|exact Hv]. apply Z.land_nonneg. right. lia.
Qed.

Lemma rotl_jsf64_uint64 v r : is_uint64 v -> is_uint64 (jsf64.rotl v r).
Proof.
  intros Hv. unfold jsf64.rotl. apply lor_uint64.
  - apply to_uint64_range.
  - apply shr_uint64; [|exact Hv]. apply Z.land_nonneg. right. lia.
Qed.

(** The eleven statements of [gjrand_next], run on four words. *)
Lemma gjrand_next_words a b c d :
  gjrand.gjrand_next [a; b; c; d] =
  let b1 := add64 b c in
  let a1 := gjrand.rotl a 32 in
  let c1 := xor64 c b1 in
  let d1 := add64 d 0x55aa96a5 in
  let a2 := add64 a1 b1 in
  let c2 := gjrand.rotl c1 23 in
  let b2 := xor64 b1 a2 in
  let a3 := add64 a2 c2 in
  let b3 := gjrand.rotl b2 19 in
  let c3 := add64 c2 a3 in
  let b4 := add64 b3 d1 in
  (a3, [a3; b4; c3; d1]).
Proof. reflexivity. Qed.

(** The five statements of [jsf64_next], run on four words. *)
Lemma jsf64_next_words a b c d :
  jsf64.jsf64_next [a; b; c; d] =
  let e := sub64 a (jsf64.rotl b 7) in
  let a1 := xor64 b (jsf64.rotl c 13) in
  let b1 := add64 c (jsf64.rotl d 37) in
  let c1 := add64 d e in
  let d1 := add64 e a1 in
  (d1, [a1; b1; c1; d1]).
Proof. reflexivity. Qed.

Lemma gjrand_next_length w :
  length (snd (gjrand.gjrand_next w)) = length w.
Proof. unfold gjrand.gjrand_next. simpl. by rewrite !length_insert. Qed.

Lemma jsf64_next_length w :
  length (snd (jsf64.jsf64_next w)) = length w.
Proof. unfold jsf64.jsf64_next. simpl. by rewrite !length_insert. Qed.

Lemma gjrand_next_uint64 w :
  length w = 4%nat -> is_uint64 (fst (gjrand.gjrand_next w)).
Proof.
  intros (a & b & c & d & ->)%four_words.
  rewrite gjrand_next_words. simpl. apply to_uint64_range.
Qed.

Lemma jsf64_next_uint64 w :
  length w = 4%nat -> is_uint64 (fst (jsf64.jsf64_next w)).
Proof.
  intros (a & b & c & d & ->)%four_words.
  rewrite jsf64_next_words. simpl. apply to_uint64_range.
Qed.

Lemma gjrand_step_wf w : length w = 4%nat -> words_wf (gjrand_step w).
Proof.
  intros (a & b & c & d & ->)%four_words. unfold gjrand_step.
  rewrite gjrand_next_words. split; [reflexivity|].
  simpl. repeat constructor; apply to_uint64_range.
Qed.

Lemma jsf64_step_wf w : words_wf w -> words_wf (jsf64_step w).
Proof.
  intros [(a & b & c & d & ->)%four_words Hw]. unfold jsf64_step.
  rewrite jsf64_next_words. split; [reflexivity|].
  inversion Hw as [|? ? Ha Hw1]; subst.
  inversion Hw1 as [|? ? Hb Hw2]; subst.
  inversion Hw2 as [|? ? Hc Hw3]; subst.
  inversion Hw3 as [|? ? Hd _]; subst.
  simpl. repeat apply Forall_cons_2; try apply Forall_nil_2;
    try apply to_uint64_range.
  apply lxor_uint64; [exact Hb|]. by apply rotl_jsf64_uint64.
Qed.

(** [for_range] with a body that ignores the index is iteration. *)
Lemma for_range_iter {A} (f : A -> A) n (a : A) :
  for_range n (fun _ x => f x) a = Nat.iter n f a.
Proof.
  unfold for_range. generalize 0%nat. revert a.
  induction n as [|n IH]; intros a k; simpl; [reflexivity|].
  rewrite IH. symmetry. apply (Nat.iter_succ_r n f a).
Qed.

Lemma iter_gjrand_step_length n w :
  length (Nat.iter n gjrand_step w) = length w.
Proof.
  induction n as [|n IH]; simpl; [reflexivity|].
  unfold gjrand_step at 1. by rewrite gjrand_next_length.
Qed.

Lemma iter_jsf64_step_length n w :
  length (Nat.iter n jsf64_step w) = length w.
Proof.
  induction n as [|n IH]; simpl; [reflexivity|].
  unfold jsf64_step at 1. by rewrite jsf64_next_length.
Qed.

(** The fourth word of GJrand is a counter: every transition adds the same
    constant to it and nothing else writes it. *)
Lemma gjrand_counter n a b c d :
  is_uint64 d ->
  exists a' b' c',
    Nat.iter n gjrand_step [a; b; c; d] =
    [a'; b'; c'; to_uint64 (d + Z.of_nat n * 0x55aa96a5)].
Proof.
  intros Hd. induction n as [|n (a' & b' & c' & IH)].
  - exists a, b, c. simpl. rewrite Z.add_0_r. by rewrite to_uint64_id.
  - rewrite Nat.iter_succ, IH. unfold gjrand_step.
    rewrite gjrand_next_words. cbv zeta. simpl snd.
    do 3 eexists. do 3 f_equal.
    unfold add64, to_uint64. rewrite Zplus_mod_idemp_l.
    replace (Z.of_nat (S n)) with (Z.of_nat n + 1) by lia.
    by rewrite Z.mul_add_distr_r, Z.mul_1_l, Z.add_assoc.
Qed.

Lemma store_four_words (w : list Z) x0 x1 x2 x3 :
  length w = 4%nat ->
  w.[0 <- x0].[1 <- x1].[2 <- x2].[3 <- x3] = [x0; x1; x2; x3].
Proof. intros (a & b & c & d & ->)%four_words. reflexivity. Qed.

Lemma gjrand_set_seed_words st seed :
  length (gjrand.s st) = 4%nat ->
  gjrand.gjrand_set_seed st seed =
  gjrand.mk_state
    (Nat.iter 14 gjrand_step [seed.[0]; seed.[1]; 2000001; 0])
    (gjrand.has_uint32 st) (gjrand.uinteger st).
Proof.
  intros Hlen. unfold gjrand.gjrand_set_seed.
  rewrite (store_four_words _ _ _ _ _ Hlen).
  by rewrite (for_range_iter (fun w => snd (gjrand.gjrand_next w))).
Qed.

Lemma jsf64_set_seed_words st seed :
  length (jsf64.s st) = 4%nat ->
  jsf64.jsf64_set_seed st seed =
  jsf64.mk_state
    (Nat.iter 20 jsf64_step [0xf1ea5eed; seed.[0]; seed.[1]; seed.[2]])
    (jsf64.has_uint32 st) (jsf64.uinteger st).
Proof.
  intros Hlen. unfold jsf64.jsf64_set_seed.
  rewrite (store_four_words _ _ _ _ _ Hlen).
  by rewrite (for_range_iter (fun w => snd (jsf64.jsf64_next w))).
Qed.

Lemma GJrand_init_state val :
  GJrand.rng_state (GJrand.__init__ val GJrand.__new__) =
  gjrand.mk_state
    (Nat.iter 14 gjrand_step [val.[0]; val.[1]; 2000001; 0]) 0 0.
Proof.
  unfold GJrand.__init__, GJrand._reset_state_variables, GJrand.__new__.
  cbn [GJrand.rng_state GJrand._bitgen].
  rewrite gjrand_set_seed_words; reflexivity.
Qed.

Lemma JSF64_init_state val :
  JSF64.rng_state (JSF64.__init__ val JSF64.__new__) =
  jsf64.mk_state
    (Nat.iter 20 jsf64_step [0xf1ea5eed; val.[0]; val.[1]; val.[2]]) 0 0.
Proof.
  unfold JSF64.__init__, JSF64._reset_state_variables, JSF64.__new__.
  cbn [JSF64.rng_state JSF64._bitgen].
  rewrite jsf64_set_seed_words; reflexivity.
Qed.

(** Two requests from an empty cache. *)
Lemma gjrand_next32_twice w u :
  length w = 4%nat ->
  let st := gjrand.mk_state w 0 u in
  let x := fst (gjrand.gjrand_next64 st) in
  let r1 := gjrand.gjrand_next32 st in
  let r2 := gjrand.gjrand_next32 (snd r1) in
  fst r1 = low32 x /\ fst r2 = high32 x
  /\ gjrand.s (snd r2) = gjrand.s (snd (gjrand.gjrand_next64 st))
  /\ gjrand.has_uint32 (snd r2) = 0.
Proof.
  intros Hlen st x r1 r2. subst st x r1 r2.
  pose proof (gjrand_next_uint64 _ Hlen) as Hx.
  unfold gjrand.gjrand_next32, gjrand.gjrand_next64.
  cbn [gjrand.has_uint32 gjrand.s gjrand.uinteger].
  change (negb (0 =? 0)) with false. cbv iota.
  destruct (gjrand.gjrand_next w) as [x w'].
  cbn [fst snd gjrand.has_uint32 gjrand.s gjrand.uinteger] in *.
  change (negb (1 =? 0)) with true. cbv iota.
  cbn [fst snd gjrand.s gjrand.has_uint32].
  rewrite low32_land, high32_shr by exact Hx.
  repeat split.
Qed.

Lemma jsf64_next32_twice w u :
  length w = 4%nat ->
  let st := jsf64.mk_state w 0 u in
  let x := fst (jsf64.jsf64_next64 st) in
  let r1 := jsf64.jsf64_next32 st in
  let r2 := jsf64.jsf64_next32 (snd r1) in
  fst r1 = low32 x /\ fst r2 = high32 x
  /\ jsf64.s (snd r2) = jsf64.s (snd (jsf64.jsf64_next64 st))
  /\ jsf64.has_uint32 (snd r2) = 0.
Proof.
  intros Hlen st x r1 r2. subst st x r1 r2.
  pose proof (jsf64_next_uint64 _ Hlen) as Hx.
  unfold jsf64.jsf64_next32, jsf64.jsf64_next64.
  cbn [jsf64.has_uint32 jsf64.s jsf64.uinteger].
  change (negb (0 =? 0)) with false. cbv iota.
  destruct (jsf64.jsf64_next w) as [x w'].
  cbn [fst snd jsf64.has_uint32 jsf64.s jsf64.uinteger] in *.
  change (negb (1 =? 0)) with true. cbv iota.
  cbn [fst snd jsf64.s jsf64.has_uint32].
  rewrite low32_land, high32_shr by exact Hx.
  repeat split.
Qed.

Lemma iter_jsf64_step_wf n w :
  words_wf w -> words_wf (Nat.iter n jsf64_step w).
Proof.
  intros Hw. induction n as [|n IH]; [exact Hw|].
  rewrite Nat.iter_succ. by apply jsf64_step_wf.
Qed.

(** A freshly seeded object is well typed. *)
Lemma GJrand_init_wf val :
  gjrand_wf (GJrand.rng_state (GJrand.__init__ val GJrand.__new__)).
Proof.
  rewrite GJrand_init_state. unfold gjrand_wf.
  cbn [gjrand.s gjrand.has_uint32 gjrand.uinteger].
  split; [|unfold is_int, is_uint32; lia].
  change 14%nat with (S 13). rewrite Nat.iter_succ.
  apply gjrand_step_wf, iter_gjrand_step_length.
Qed.

Lemma JSF64_init_wf val :
  length val = 3%nat -> Forall is_uint64 val ->
  jsf64_wf (JSF64.rng_state (JSF64.__init__ val JSF64.__new__)).
Proof.
  intros Hlen Hval. rewrite JSF64_init_state. unfold jsf64_wf.
  cbn [jsf64.s jsf64.has_uint32 jsf64.uinteger].
  split; [|unfold is_int, is_uint32; lia].
  apply iter_jsf64_step_wf. split; [reflexivity|].
  destruct val as [|a [|b [|c [|d val]]]]; try discriminate Hlen.
  cbn [lookup_total list_lookup_total].
  apply Forall_cons_2; [unfold is_uint64; lia|exact Hval].
Qed.

(** ** Seeding *)

(** C6.  GJrand seeding: [s[0]] and [s[1]] take the two entropy words,
    [s[2]] and [s[3]] the constants 2000001 and 0, and fourteen transitions
    follow whose outputs are dropped.  A transition rotates by 32, 23 and 19,
    adds the odd constant 0x55aa96a5 to [s[3]] and returns the new [s[0]];
    after seeding [s[3]] has counted the fourteen transitions, and the first
    value drawn is the output of the fifteenth. *)
Theorem gjrand_seeding (st : gjrand.gjrand_state) (seed : list Z) :
  length (gjrand.s st) = 4%nat ->
  let w0 := [seed.[0]; seed.[1]; 2000001; 0] in
  gjrand.gjrand_set_seed st seed =
    gjrand.mk_state (Nat.iter 14 gjrand_step w0)
      (gjrand.has_uint32 st) (gjrand.uinteger st)
  /\ (gjrand.s (gjrand.gjrand_set_seed st seed)).[3] = 14 * 0x55aa96a5
  /\ Z.odd 0x55aa96a5 = true
  /\ (forall a b c d,
        gjrand.gjrand_next [a; b; c; d] =
        let b1 := add64 b c in
        let a1 := gjrand.rotl a 32 in
        let c1 := xor64 c b1 in
        let d1 := add64 d 0x55aa96a5 in
        let a2 := add64 a1 b1 in
        let c2 := gjrand.rotl c1 23 in
        let b2 := xor64 b1 a2 in
        let a3 := add64 a2 c2 in
        let b3 := gjrand.rotl b2 19 in
        let c3 := add64 c2 a3 in
        let b4 := add64 b3 d1 in
        (a3, [a3; b4; c3; d1]))
  /\ fst (gjrand.gjrand_next64 (gjrand.gjrand_set_seed st seed)) =
     fst (gjrand.gjrand_next (Nat.iter 14 gjrand_step w0))
  /\ GJrand.rng_state (GJrand.__init__ seed GJrand.__new__) =
     gjrand.mk_state (Nat.iter 14 gjrand_step w0) 0 0.
Proof.
  intros Hlen w0. subst w0.
  pose proof (gjrand_set_seed_words st seed Hlen) as Hseed.
  split; [exact Hseed|]. split.
  { rewrite Hseed. cbn [gjrand.s].
    destruct (gjrand_counter 14 seed.[0] seed.[1] 2000001 0) as (a & b & c & ->).
    - unfold is_uint64. lia.
    - reflexivity. }
  split; [reflexivity|]. split; [exact gjrand_next_words|]. split.
  { rewrite Hseed. unfold gjrand.gjrand_next64. cbn [gjrand.s].
    by destruct (gjrand.gjrand_next _). }
  apply GJrand_init_state.
Qed.

Lemma gjrand_seeding_witness :
  (gjrand.s (gjrand.gjrand_set_seed (gjrand.mk_state [0; 0; 0; 0] 0 0) [1; 2])).[3]
  = 14 * 0x55aa96a5.
Proof.
  exact (proj1 (proj2 (gjrand_seeding (gjrand.mk_state [0; 0; 0; 0] 0 0)
                         [1; 2] eq_refl))).
Defined.

(** C7.  JSF64 seeding: [s[0]] takes the constant 0xf1ea5eed, [s[1]],
    [s[2]], [s[3]] the three entropy words, and twenty transitions follow
    whose outputs are dropped.  A transition rotates by 7, 13 and 37 and
    returns the new [s[3]]; the first value drawn is the output of the
    twenty-first. *)
Theorem jsf64_seeding (st : jsf64.jsf64_state) (seed : list Z) :
  length (jsf64.s st) = 4%nat ->
  let w0 := [0xf1ea5eed; seed.[0]; seed.[1]; seed.[2]] in
  jsf64.jsf64_set_seed st seed =
    jsf64.mk_state (Nat.iter 20 jsf64_step w0)
      (jsf64.has_uint32 st) (jsf64.uinteger st)
  /\ (forall a b c d,
        jsf64.jsf64_next [a; b; c; d] =
        let e := sub64 a (jsf64.rotl b 7) in
        let a1 := xor64 b (jsf64.rotl c 13) in
        let b1 := add64 c (jsf64.rotl d 37) in
        let c1 := add64 d e in
        let d1 := add64 e a1 in
        (d1, [a1; b1; c1; d1]))
  /\ fst (jsf64.jsf64_next64 (jsf64.jsf64_set_seed st seed)) =
     fst (jsf64.jsf64_next (Nat.iter 20 jsf64_step w0))
  /\ JSF64.rng_state (JSF64.__init__ seed JSF64.__new__) =
     jsf64.mk_state (Nat.iter 20 jsf64_step w0) 0 0.
Proof.
  intros Hlen w0. subst w0.
  pose proof (jsf64_set_seed_words st seed Hlen) as Hseed.
  split; [exact Hseed|]. split; [exact jsf64_next_words|]. split.
  { rewrite Hseed. unfold jsf64.jsf64_next64. cbn [jsf64.s].
    by destruct (jsf64.jsf64_next _). }
  apply JSF64_init_state.
Qed.

Lemma jsf64_seeding_witness :
  JSF64.rng_state (JSF64.__init__ [1; 2; 3] JSF64.__new__) =
  jsf64.mk_state
    (Nat.iter 20 jsf64_step [0xf1ea5eed; 1; 2; 3]) 0 0.
Proof.
  exact (proj2 (proj2 (proj2 (jsf64_seeding (jsf64.mk_state [0; 0; 0; 0] 0 0)
                                [1; 2; 3] eq_refl)))).
Defined.

(** ** The output splitter *)

Section splitter.
Context {St : Type} (next32 : St -> Z * St) (cache : St -> option Z * list Z).
Context (T : list Z -> Z * list Z).

Hypothesis T_length : forall w, length (snd (T w)) = length w.
Hypothesis next32_refines : forall st,
  length (snd (cache st)) = 4%nat ->
  fst (next32 st) = fst (splitter_spec T (cache st))
  /\ cache (snd (next32 st)) = snd (splitter_spec T (cache st)).

Lemma splitter_spec_length c :
  length (snd (snd (splitter_spec T c))) = length (snd c).
Proof.
  destruct c as [[half|] w]; simpl; [reflexivity|].
  specialize (T_length w). by destruct (T w).
Qed.

(** Any number of requests in a row is simulated by the splitter of the
    design document. *)
Lemma repeat_draw_refines n : forall st,
  length (snd (cache st)) = 4%nat ->
  fst (repeat_draw next32 n st) = fst (repeat_draw (splitter_spec T) n (cache st))
  /\ cache (snd (repeat_draw next32 n st)) =
     snd (repeat_draw (splitter_spec T) n (cache st)).
Proof.
  induction n as [|n IH]; intros st Hlen; simpl; [done|].
  destruct (next32_refines st Hlen) as [Hout Hnext].
  destruct (next32 st) as [r st1]. simpl in Hout, Hnext.
  destruct (splitter_spec T (cache st)) as [r' c1] eqn:Hspec.
  simpl in Hout, Hnext. subst r' c1.
  assert (Hlen1 : length (snd (cache st1)) = 4%nat).
  { rewrite <- Hlen. pose proof (splitter_spec_length (cache st)) as Hl.
    rewrite Hspec in Hl. exact Hl. }
  destruct (IH st1 Hlen1) as [Houts Hfinal].
  destruct (repeat_draw next32 n st1) as [rs st2].
  destruct (repeat_draw (splitter_spec T) n (cache st1)) as [rs' c2].
  simpl in *. by subst.
Qed.

(** What [n] requests in a row do to the splitter: the transition has run
    [transitions] times, and a half-word is left over exactly when the
    parity of [n] flips the cache. *)
Lemma splitter_spec_count n : forall c w,
  snd (snd (repeat_draw (splitter_spec T) n (c, w))) =
    Nat.iter (transitions (bool_decide (is_Some c)) n) (fun w => snd (T w)) w
  /\ bool_decide (is_Some (fst (snd (repeat_draw (splitter_spec T) n (c, w)))))
     = xorb (bool_decide (is_Some c)) (Nat.odd n).
Proof.
  induction n as [|n IH]; intros c w.
  - simpl. split; by destruct (bool_decide _).
  - destruct c as [half|].
    + change (bool_decide (is_Some (Some half))) with true.
      cbn [repeat_draw splitter_spec].
      destruct (IH None w) as [Hw Hc].
      change (bool_decide (is_Some (@None Z))) with false in Hw, Hc.
      destruct (repeat_draw (splitter_spec T) n (None, w)) as [rs c2].
      cbn [snd fst] in *. split; [exact Hw|].
      rewrite Hc. rewrite Nat.odd_succ, <- Nat.negb_odd.
      by destruct (Nat.odd n).
    + change (bool_decide (is_Some (@None Z))) with false.
      cbn [repeat_draw splitter_spec].
      destruct (T w) as [x w1] eqn:HT.
      destruct (IH (Some (high32 x)) w1) as [Hw Hc].
      change (bool_decide (is_Some (Some (high32 x)))) with true in Hw, Hc.
      destruct (repeat_draw (splitter_spec T) n (Some (high32 x), w1))
        as [rs c2].
      cbn [snd fst] in *. split.
      * rewrite Hw. unfold transitions.
        change (Nat.div2 (S (S n))) with (S (Nat.div2 n)).
        rewrite Nat.iter_succ_r, HT. reflexivity.
      * rewrite Hc. rewrite Nat.odd_succ, <- Nat.negb_odd.
        by destruct (Nat.odd n).
Qed.

End splitter.

Lemma gjrand_next32_refines st :
  length (gjrand.s st) = 4%nat ->
  fst (gjrand.gjrand_next32 st) =
    fst (splitter_spec gjrand.gjrand_next (gjrand_cache st))
  /\ gjrand_cache (snd (gjrand.gjrand_next32 st)) =
     snd (splitter_spec gjrand.gjrand_next (gjrand_cache st)).
Proof.
  intros Hlen. unfold gjrand.gjrand_next32, gjrand_cache, splitter_spec.
  destruct (gjrand.has_uint32 st =? 0) eqn:Hflag; cbn [negb]; [|done].
  pose proof (gjrand_next_uint64 _ Hlen) as Hx.
  destruct (gjrand.gjrand_next (gjrand.s st)) as [x w]. cbn [fst snd] in *.
  cbn [gjrand.has_uint32 gjrand.uinteger gjrand.s].
  change (1 =? 0) with false. cbv iota.
  by rewrite low32_land, high32_shr.
Qed.

Lemma jsf64_next32_refines st :
  length (jsf64.s st) = 4%nat ->
  fst (jsf64.jsf64_next32 st) =
    fst (splitter_spec jsf64.jsf64_next (jsf64_cache st))
  /\ jsf64_cache (snd (jsf64.jsf64_next32 st)) =
     snd (splitter_spec jsf64.jsf64_next (jsf64_cache st)).
Proof.
  intros Hlen. unfold jsf64.jsf64_next32, jsf64_cache, splitter_spec.
  destruct (jsf64.has_uint32 st =? 0) eqn:Hflag; cbn [negb]; [|done].
  pose proof (jsf64_next_uint64 _ Hlen) as Hx.
  destruct (jsf64.jsf64_next (jsf64.s st)) as [x w]. cbn [fst snd] in *.
  cbn [jsf64.has_uint32 jsf64.uinteger jsf64.s].
  change (1 =? 0) with false. cbv iota.
  by rewrite low32_land, high32_shr.
Qed.

Lemma cache_flag (h u : Z) :
  bool_decide (is_Some (if h =? 0 then None else Some u)) = negb (h =? 0).
Proof. by destruct (h =? 0). Qed.

Lemma gjrand_requests n st :
  length (gjrand.s st) = 4%nat ->
  let st' := snd (repeat_draw gjrand.gjrand_next32 n st) in
  gjrand.s st' =
    Nat.iter (transitions (negb (gjrand.has_uint32 st =? 0)) n) gjrand_step
      (gjrand.s st)
  /\ negb (gjrand.has_uint32 st' =? 0) =
     xorb (negb (gjrand.has_uint32 st =? 0)) (Nat.odd n).
Proof.
  intros Hlen st'.
  destruct (repeat_draw_refines gjrand.gjrand_next32 gjrand_cache
              gjrand.gjrand_next gjrand_next_length gjrand_next32_refines
              n st Hlen) as [_ Hsim].
  fold st' in Hsim.
  destruct (splitter_spec_count gjrand.gjrand_next n
              (fst (gjrand_cache st)) (snd (gjrand_cache st))) as [Hw Hc].
  rewrite <- surjective_pairing, <- Hsim in Hw, Hc.
  unfold gjrand_cache in Hw, Hc. cbn [fst snd] in Hw, Hc.
  rewrite !cache_flag in Hc. rewrite cache_flag in Hw. by split.
Qed.

Lemma jsf64_requests n st :
  length (jsf64.s st) = 4%nat ->
  let st' := snd (repeat_draw jsf64.jsf64_next32 n st) in
  jsf64.s st' =
    Nat.iter (transitions (negb (jsf64.has_uint32 st =? 0)) n) jsf64_step
      (jsf64.s st)
  /\ negb (jsf64.has_uint32 st' =? 0) =
     xorb (negb (jsf64.has_uint32 st =? 0)) (Nat.odd n).
Proof.
  intros Hlen st'.
  destruct (repeat_draw_refines jsf64.jsf64_next32 jsf64_cache
              jsf64.jsf64_next jsf64_next_length jsf64_next32_refines
              n st Hlen) as [_ Hsim].
  fold st' in Hsim.
  destruct (splitter_spec_count jsf64.jsf64_next n
              (fst (jsf64_cache st)) (snd (jsf64_cache st))) as [Hw Hc].
  rewrite <- surjective_pairing, <- Hsim in Hw, Hc.
  unfold jsf64_cache in Hw, Hc. cbn [fst snd] in Hw, Hc.
  rewrite !cache_flag in Hc. rewrite cache_flag in Hw. by split.
Qed.

(** C4.  [gjrand_next32] and [jsf64_next32] are the output splitter of the
    design document: a request served from the cache returns the cached
    half-word, empties the cache and leaves the words alone; a request on
    an empty cache runs the transition once, returns the low 32 bits and
    caches the high 32 bits.  The cache holds at most one half-word, [n]
    requests in a row cost [transitions] transitions, and the cache is
    occupied after them exactly when the parity of [n] flips it. *)
Theorem next32_is_output_splitter :
  (forall st, length (gjrand.s st) = 4%nat ->
     fst (gjrand.gjrand_next32 st) =
       fst (splitter_spec gjrand.gjrand_next (gjrand_cache st))
     /\ gjrand_cache (snd (gjrand.gjrand_next32 st)) =
        snd (splitter_spec gjrand.gjrand_next (gjrand_cache st))
     /\ forall n,
        let st' := snd (repeat_draw gjrand.gjrand_next32 n st) in
        gjrand.s st' =
          Nat.iter (transitions (negb (gjrand.has_uint32 st =? 0)) n)
            gjrand_step (gjrand.s st)
        /\ negb (gjrand.has_uint32 st' =? 0) =
           xorb (negb (gjrand.has_uint32 st =? 0)) (Nat.odd n))
  /\ (forall st, length (jsf64.s st) = 4%nat ->
     fst (jsf64.jsf64_next32 st) =
       fst (splitter_spec jsf64.jsf64_next (jsf64_cache st))
     /\ jsf64_cache (snd (jsf64.jsf64_next32 st)) =
        snd (splitter_spec jsf64.jsf64_next (jsf64_cache st))
     /\ forall n,
        let st' := snd (repeat_draw jsf64.jsf64_next32 n st) in
        jsf64.s st' =
          Nat.iter (transitions (negb (jsf64.has_uint32 st =? 0)) n)
            jsf64_step (jsf64.s st)
        /\ negb (jsf64.has_uint32 st' =? 0) =
           xorb (negb (jsf64.has_uint32 st =? 0)) (Nat.odd n)).
Proof.
  split; intros st Hlen.
  - destruct (gjrand_next32_refines st Hlen) as [Hout Hnext].
    repeat split; try assumption; by apply gjrand_requests.
  - destruct (jsf64_next32_refines st Hlen) as [Hout Hnext].
    repeat split; try assumption; by apply jsf64_requests.
Qed.

Lemma next32_is_output_splitter_witness :
  gjrand.s (snd (repeat_draw gjrand.gjrand_next32 3
                   (gjrand.mk_state [1; 2; 3; 4] 0 0))) =
    Nat.iter 2 gjrand_step [1; 2; 3; 4]
  /\ jsf64.s (snd (repeat_draw jsf64.jsf64_next32 3
                     (jsf64.mk_state [1; 2; 3; 4] 7 9))) =
     Nat.iter 1 jsf64_step [1; 2; 3; 4].
Proof.
  split.
  - exact (proj1 (proj2 (proj2 (proj1 next32_is_output_splitter
             (gjrand.mk_state [1; 2; 3; 4] 0 0) eq_refl)) 3%nat)).
  - exact (proj1 (proj2 (proj2 (proj2 next32_is_output_splitter
             (jsf64.mk_state [1; 2; 3; 4] 7 9) eq_refl)) 3%nat)).
Defined.

(** C1, as the code has it.  From a freshly seeded GJrand or JSF64, two
    calls of [next_uint32] give first the low and then the high half-word of
    the value one [next_uint64] gives from the same state, and leave the
    words where that call leaves them, with the cache empty again. *)
Theorem next32_twice_low_then_high :
  (forall val,
     let st := GJrand.rng_state (GJrand.__init__ val GJrand.__new__) in
     let x := fst (gjrand.gjrand_next64 st) in
     let r1 := gjrand.gjrand_next32 st in
     let r2 := gjrand.gjrand_next32 (snd r1) in
     fst r1 = low32 x /\ fst r2 = high32 x
     /\ x = fst r1 + 2 ^ 32 * fst r2
     /\ gjrand.s (snd r2) = gjrand.s (snd (gjrand.gjrand_next64 st))
     /\ gjrand.has_uint32 (snd r2) = 0)
  /\ (forall val,
     let st := JSF64.rng_state (JSF64.__init__ val JSF64.__new__) in
     let x := fst (jsf64.jsf64_next64 st) in
     let r1 := jsf64.jsf64_next32 st in
     let r2 := jsf64.jsf64_next32 (snd r1) in
     fst r1 = low32 x /\ fst r2 = high32 x
     /\ x = fst r1 + 2 ^ 32 * fst r2
     /\ jsf64.s (snd r2) = jsf64.s (snd (jsf64.jsf64_next64 st))
     /\ jsf64.has_uint32 (snd r2) = 0).
Proof.
  split; intros val st x r1 r2; subst st x r1 r2.
  - rewrite GJrand_init_state.
    destruct (gjrand_next32_twice
                (Nat.iter 14 gjrand_step [val.[0]; val.[1]; 2000001; 0]) 0)
      as (H1 & H2 & H3 & H4).
    { apply iter_gjrand_step_length. }
    rewrite H1, H2. split; [reflexivity|]. split; [reflexivity|].
    split; [apply low32_high32|]. split; assumption.
  - rewrite JSF64_init_state.
    destruct (jsf64_next32_twice
                (Nat.iter 20 jsf64_step [0xf1ea5eed; val.[0]; val.[1]; val.[2]]) 0)
      as (H1 & H2 & H3 & H4).
    { apply iter_jsf64_step_length. }
    rewrite H1, H2. split; [reflexivity|]. split; [reflexivity|].
    split; [apply low32_high32|]. split; assumption.
Qed.

(** C1, as the design document words it (high half first), fails on both
    engines: seeded from the entropy words 1, 2 (and 3), the first
    [next_uint32] is not the high half-word of what [next_uint64] gives. *)
Lemma next32_twice_high_then_low_fails :
  ~ (fst (gjrand.gjrand_next32
            (GJrand.rng_state (GJrand.__init__ [1; 2] GJrand.__new__))) =
     high32 (fst (gjrand.gjrand_next64
            (GJrand.rng_state (GJrand.__init__ [1; 2] GJrand.__new__))))
     /\ fst (gjrand.gjrand_next32 (snd (gjrand.gjrand_next32
            (GJrand.rng_state (GJrand.__init__ [1; 2] GJrand.__new__))))) =
        low32 (fst (gjrand.gjrand_next64
            (GJrand.rng_state (GJrand.__init__ [1; 2] GJrand.__new__)))))
  /\ ~ (fst (jsf64.jsf64_next32
            (JSF64.rng_state (JSF64.__init__ [1; 2; 3] JSF64.__new__))) =
     high32 (fst (jsf64.jsf64_next64
            (JSF64.rng_state (JSF64.__init__ [1; 2; 3] JSF64.__new__))))
     /\ fst (jsf64.jsf64_next32 (snd (jsf64.jsf64_next32
            (JSF64.rng_state (JSF64.__init__ [1; 2; 3] JSF64.__new__))))) =
        low32 (fst (jsf64.jsf64_next64
            (JSF64.rng_state (JSF64.__init__ [1; 2; 3] JSF64.__new__))))).
Proof.
  split; intros [Hhigh _]; vm_compute in Hhigh; discriminate Hhigh.
Qed.

(** The values behind it. *)
Example gjrand_first_draws :
  fst (gjrand.gjrand_next64
         (GJrand.rng_state (GJrand.__init__ [1; 2] GJrand.__new__))) =
    1998139174070503561
  /\ fst (repeat_draw gjrand.gjrand_next32 2
         (GJrand.rng_state (GJrand.__init__ [1; 2] GJrand.__new__))) =
     [37996681; 465228030]
  /\ low32 1998139174070503561 = 37996681
  /\ high32 1998139174070503561 = 465228030.
Proof. vm_compute. repeat split. Qed.

Example jsf64_first_draws :
  fst (jsf64.jsf64_next64
         (JSF64.rng_state (JSF64.__init__ [1; 2; 3] JSF64.__new__))) =
    17295028156245377668
  /\ fst (repeat_draw jsf64.jsf64_next32 2
         (JSF64.rng_state (JSF64.__init__ [1; 2; 3] JSF64.__new__))) =
     [2707587716; 4026812537]
  /\ low32 17295028156245377668 = 2707587716
  /\ high32 17295028156245377668 = 4026812537.
Proof. vm_compute. repeat split. Qed.

(** ** [next_uint64] and the cache *)

Lemma gjrand_next64_frame st :
  gjrand.has_uint32 (snd (gjrand.gjrand_next64 st)) = gjrand.has_uint32 st
  /\ gjrand.uinteger (snd (gjrand.gjrand_next64 st)) = gjrand.uinteger st.
Proof.
  unfold gjrand.gjrand_next64. by destruct (gjrand.gjrand_next (gjrand.s st)).
Qed.

Lemma jsf64_next64_frame st :
  jsf64.has_uint32 (snd (jsf64.jsf64_next64 st)) = jsf64.has_uint32 st
  /\ jsf64.uinteger (snd (jsf64.jsf64_next64 st)) = jsf64.uinteger st.
Proof.
  unfold jsf64.jsf64_next64. by destruct (jsf64.jsf64_next (jsf64.s st)).
Qed.

Lemma gjrand_repeat_next64_frame n : forall st,
  gjrand.has_uint32 (snd (repeat_draw gjrand.gjrand_next64 n st)) =
    gjrand.has_uint32 st
  /\ gjrand.uinteger (snd (repeat_draw gjrand.gjrand_next64 n st)) =
     gjrand.uinteger st.
Proof.
  induction n as [|n IH]; intros st; cbn [repeat_draw]; [done|].
  destruct (gjrand_next64_frame st) as [Hh Hu].
  destruct (gjrand.gjrand_next64 st) as [r st1]. cbn [snd] in Hh, Hu.
  destruct (IH st1) as [Hh' Hu'].
  destruct (repeat_draw gjrand.gjrand_next64 n st1) as [rs st2].
  cbn [snd] in *. split; congruence.
Qed.

Lemma jsf64_repeat_next64_frame n : forall st,
  jsf64.has_uint32 (snd (repeat_draw jsf64.jsf64_next64 n st)) =
    jsf64.has_uint32 st
  /\ jsf64.uinteger (snd (repeat_draw jsf64.jsf64_next64 n st)) =
     jsf64.uinteger st.
Proof.
  induction n as [|n IH]; intros st; cbn [repeat_draw]; [done|].
  destruct (jsf64_next64_frame st) as [Hh Hu].
  destruct (jsf64.jsf64_next64 st) as [r st1]. cbn [snd] in Hh, Hu.
  destruct (IH st1) as [Hh' Hu'].
  destruct (repeat_draw jsf64.jsf64_next64 n st1) as [rs st2].
  cbn [snd] in *. split; congruence.
Qed.

Lemma gjrand_next32_cached st :
  gjrand.has_uint32 st <> 0 ->
  gjrand.gjrand_next32 st =
  (gjrand.uinteger st, gjrand.mk_state (gjrand.s st) 0 (gjrand.uinteger st)).
Proof.
  intros Hflag. unfold gjrand.gjrand_next32.
  by destruct (Z.eqb_spec (gjrand.has_uint32 st) 0).
Qed.

Lemma jsf64_next32_cached st :
  jsf64.has_uint32 st <> 0 ->
  jsf64.jsf64_next32 st =
  (jsf64.uinteger st, jsf64.mk_state (jsf64.s st) 0 (jsf64.uinteger st)).
Proof.
  intros Hflag. unfold jsf64.jsf64_next32.
  by destruct (Z.eqb_spec (jsf64.has_uint32 st) 0).
Qed.

(** C10.  [next_uint64], which is also the [next_raw] slot of GJrand and
    JSF64, leaves [has_uint32] and [uinteger] as they are and computes its
    value and the new words from the words alone.  A half-word that is
    cached stays through any number of 64-bit draws, and the next
    [next_uint32] returns it without a transition. *)
Theorem next64_leaves_the_cache :
  (forall st,
     gjrand.has_uint32 (snd (gjrand.gjrand_next64 st)) = gjrand.has_uint32 st
     /\ gjrand.uinteger (snd (gjrand.gjrand_next64 st)) = gjrand.uinteger st)
  /\ (forall w h u h' u',
     fst (gjrand.gjrand_next64 (gjrand.mk_state w h u)) =
       fst (gjrand.gjrand_next64 (gjrand.mk_state w h' u'))
     /\ gjrand.s (snd (gjrand.gjrand_next64 (gjrand.mk_state w h u))) =
        gjrand.s (snd (gjrand.gjrand_next64 (gjrand.mk_state w h' u'))))
  /\ (forall st n,
     gjrand.has_uint32 st <> 0 ->
     let st' := snd (repeat_draw gjrand.gjrand_next64 n st) in
     gjrand.gjrand_next32 st' =
     (gjrand.uinteger st, gjrand.mk_state (gjrand.s st') 0 (gjrand.uinteger st)))
  /\ (forall val,
     next_raw (GJrand._bitgen (GJrand.__init__ val GJrand.__new__)) =
       gjrand.gjrand_next64
     /\ next_uint64 (GJrand._bitgen (GJrand.__init__ val GJrand.__new__)) =
        gjrand.gjrand_next64)
  /\ (forall st,
     jsf64.has_uint32 (snd (jsf64.jsf64_next64 st)) = jsf64.has_uint32 st
     /\ jsf64.uinteger (snd (jsf64.jsf64_next64 st)) = jsf64.uinteger st)
  /\ (forall w h u h' u',
     fst (jsf64.jsf64_next64 (jsf64.mk_state w h u)) =
       fst (jsf64.jsf64_next64 (jsf64.mk_state w h' u'))
     /\ jsf64.s (snd (jsf64.jsf64_next64 (jsf64.mk_state w h u))) =
        jsf64.s (snd (jsf64.jsf64_next64 (jsf64.mk_state w h' u'))))
  /\ (forall st n,
     jsf64.has_uint32 st <> 0 ->
     let st' := snd (repeat_draw jsf64.jsf64_next64 n st) in
     jsf64.jsf64_next32 st' =
     (jsf64.uinteger st, jsf64.mk_state (jsf64.s st') 0 (jsf64.uinteger st)))
  /\ (forall val,
     next_raw (JSF64._bitgen (JSF64.__init__ val JSF64.__new__)) =
       jsf64.jsf64_next64
     /\ next_uint64 (JSF64._bitgen (JSF64.__init__ val JSF64.__new__)) =
        jsf64.jsf64_next64).
Proof.
  split; [exact gjrand_next64_frame|]. split.
  { intros w h u h' u'. unfold gjrand.gjrand_next64. cbn [gjrand.s].
    by destruct (gjrand.gjrand_next w). }
  split.
  { intros st n Hflag st'.
    destruct (gjrand_repeat_next64_frame n st) as [Hh Hu]. fold st' in Hh, Hu.
    rewrite gjrand_next32_cached by congruence. by rewrite Hu. }
  split; [intros val; split; reflexivity|].
  split; [exact jsf64_next64_frame|]. split.
  { intros w h u h' u'. unfold jsf64.jsf64_next64. cbn [jsf64.s].
    by destruct (jsf64.jsf64_next w). }
  split.
  { intros st n Hflag st'.
    destruct (jsf64_repeat_next64_frame n st) as [Hh Hu]. fold st' in Hh, Hu.
    rewrite jsf64_next32_cached by congruence. by rewrite Hu. }
  intros val; split; reflexivity.
Qed.

Lemma next64_leaves_the_cache_witness :
  fst (gjrand.gjrand_next32
         (snd (repeat_draw gjrand.gjrand_next64 3
                 (gjrand.mk_state [1; 2; 3; 4] 1 77)))) = 77
  /\ fst (jsf64.jsf64_next32
         (snd (repeat_draw jsf64.jsf64_next64 3
                 (jsf64.mk_state [1; 2; 3; 4] 1 77)))) = 77.
Proof.
  split.
  - exact (f_equal fst
      (proj1 (proj2 (proj2 next64_leaves_the_cache))
         (gjrand.mk_state [1; 2; 3; 4] 1 77) 3%nat ltac:(discriminate))).
  - exact (f_equal fst
      (proj1 (proj2 (proj2 (proj2 (proj2 (proj2 (proj2
         next64_leaves_the_cache))))))
         (jsf64.mk_state [1; 2; 3; 4] 1 77) 3%nat ltac:(discriminate))).
Defined.

(** ** Saving and restoring *)

Lemma for_range_S {A} n (body : nat -> A -> A) (a : A) :
  for_range (S n) body a = body n (for_range n body a).
Proof.
  unfold for_range. rewrite seq_S, foldl_app. reflexivity.
Qed.

Lemma bind_lift_ok {Self A B} (a : A) (f : A -> method Self B) self :
  (lift (Ok a) ≫= f) self = f a self.
Proof. reflexivity. Qed.

Lemma bind_lift_raise {Self A B} e (f : A -> method Self B) self :
  (lift (Raise e) ≫= f) self = (self, Raise e).
Proof. reflexivity. Qed.

Lemma bind_modify {Self B} (g : Self -> Self) (f : unit -> method Self B) self :
  (modify g ≫= f) self = f tt (g self).
Proof. reflexivity. Qed.

Lemma bind_ret {Self A B} (a : A) (f : A -> method Self B) self :
  (mret a ≫= f) self = f a self.
Proof. reflexivity. Qed.

Lemma bind_ok {A B} (a : A) (f : A -> result B) : (Ok a ≫= f) = f a.
Proof. reflexivity. Qed.

Lemma bind_assoc {Self A B C} (m : method Self A) (f : A -> method Self B)
    (g : B -> method Self C) self :
  ((m ≫= f) ≫= g) self = (m ≫= (fun a => f a ≫= g)) self.
Proof.
  unfold mbind, method_bind. by destruct (m self) as [self1 [a|e]].
Qed.

(** Run the leading steps of a method whose outcome is known. *)
Ltac run_method :=
  repeat first
    [ rewrite bind_assoc
    | rewrite bind_lift_ok
    | rewrite bind_modify
    | rewrite bind_ret ].

Lemma as_c_integer_ok lo hi n :
  lo <= n < hi -> as_c_integer lo hi (PyInt n) = Ok n.
Proof. intros Hn. unfold as_c_integer. by rewrite decide_True. Qed.

Lemma as_uint64_ok n : is_uint64 n -> as_uint64 (PyInt n) = Ok n.
Proof. apply as_c_integer_ok. Qed.

Lemma as_uint32_ok n : is_uint32 n -> as_uint32 (PyInt n) = Ok n.
Proof. apply as_c_integer_ok. Qed.

Lemma as_int_ok n : is_int n -> as_int (PyInt n) = Ok n.
Proof. apply as_c_integer_ok. Qed.

Lemma np_uint64_item_ok n : is_uint64 n -> np_uint64_item (PyInt n) = Ok n.
Proof. intros Hn. unfold np_uint64_item. by rewrite decide_True. Qed.

Lemma as_uint64_seq_ok (w : list Z) :
  Forall is_uint64 w -> as_uint64_seq (PyInt <$> w) = Ok w.
Proof.
  induction 1 as [|x w Hx Hw IH]; [reflexivity|].
  cbn [fmap list_fmap as_uint64_seq]. rewrite np_uint64_item_ok by exact Hx.
  cbn [mbind result_bind]. 
  change (list_fmap Z pyobj PyInt w) with (PyInt <$> w). rewrite IH.
  reflexivity.
Qed.

Lemma np_assign_uint64_ok (dst w : list Z) :
  length w = length dst -> Forall is_uint64 w ->
  np_assign_uint64 dst (PyList (PyInt <$> w)) = Ok w.
Proof.
  intros Hlen Hw. unfold np_assign_uint64. rewrite as_uint64_seq_ok by exact Hw.
  cbn [mbind result_bind]. by rewrite decide_True.
Qed.

Lemma GJrand_state_blob self :
  length (gjrand.s (GJrand.rng_state self)) = 4%nat ->
  GJrand.state self =
  (self,
   Ok (words_blob GJrand.__name__ (gjrand.s (GJrand.rng_state self))
         (gjrand.has_uint32 (GJrand.rng_state self))
         (gjrand.uinteger (GJrand.rng_state self)))).
Proof.
  intros (a & b & c & d & Hs)%four_words. unfold GJrand.state.
  unfold gjrand.gjrand_get_state. rewrite Hs. reflexivity.
Qed.

Lemma JSF64_state_blob self :
  length (jsf64.s (JSF64.rng_state self)) = 4%nat ->
  JSF64.state self =
  (self,
   Ok (words_blob JSF64.__name__ (jsf64.s (JSF64.rng_state self))
         (jsf64.has_uint32 (JSF64.rng_state self))
         (jsf64.uinteger (JSF64.rng_state self)))).
Proof.
  intros (a & b & c & d & Hs)%four_words. unfold JSF64.state.
  unfold jsf64.jsf64_get_state. rewrite Hs. reflexivity.
Qed.

Lemma words_blob_parts name w h u :
  isinstance_dict (words_blob name w h u) = true
  /\ dict_get (words_blob name w h u) "bit_generator" (PyStr EmptyString) =
     PyStr name
  /\ getitem (words_blob name w h u) "state" =
     Ok (PyDict {["state" := PyList (PyInt <$> w)]})
  /\ getitem (PyDict {["state" := PyList (PyInt <$> w)]}) "state" =
     Ok (PyList (PyInt <$> w))
  /\ getitem (words_blob name w h u) "has_uint32" = Ok (PyInt h)
  /\ getitem (words_blob name w h u) "uinteger" = Ok (PyInt u).
Proof.
  unfold words_blob, dict_get, getitem. cbn [isinstance_dict].
  repeat split.
Qed.

Lemma ne_str_same name : ne_str (PyStr name) name = false.
Proof. unfold ne_str. by rewrite String.eqb_refl. Qed.

Lemma gjrand_set_state_words st w h u :
  length (gjrand.s st) = 4%nat -> length w = 4%nat ->
  gjrand.gjrand_set_state st w h u = gjrand.mk_state w h u.
Proof.
  intros (a & b & c & d & Hs)%four_words (a' & b' & c' & d' & ->)%four_words.
  unfold gjrand.gjrand_set_state. rewrite Hs. reflexivity.
Qed.

Lemma jsf64_set_state_words st w h u :
  length (jsf64.s st) = 4%nat -> length w = 4%nat ->
  jsf64.jsf64_set_state st w h u = jsf64.mk_state w h u.
Proof.
  intros (a & b & c & d & Hs)%four_words (a' & b' & c' & d' & ->)%four_words.
  unfold jsf64.jsf64_set_state. rewrite Hs. reflexivity.
Qed.

(** Restoring a well-typed blob into any GJrand object. *)
Lemma GJrand_restore w h u self :
  length (gjrand.s (GJrand.rng_state self)) = 4%nat ->
  gjrand_wf (gjrand.mk_state w h u) ->
  GJrand.state_setter (words_blob GJrand.__name__ w h u) self =
  (GJrand.mk (gjrand.mk_state w h u) (GJrand._bitgen self), Ok tt).
Proof.
  intros Hself ([Hlen Hw] & Hh & Hu). cbn [gjrand.s gjrand.has_uint32 gjrand.uinteger] in *.
  destruct (words_blob_parts GJrand.__name__ w h u)
    as (Hdict & Htag & Hst & Hvec & Hhas & Huint).
  unfold GJrand.state_setter.
  rewrite Hdict, Htag, ne_str_same. cbn [negb].
  rewrite Hst, Hhas, Huint, !bind_ok, Hvec, bind_ok.
  rewrite np_assign_uint64_ok, as_int_ok, as_uint32_ok by done.
  rewrite !bind_lift_ok. unfold modify.
  by rewrite gjrand_set_state_words.
Qed.

Lemma JSF64_restore w h u self :
  length (jsf64.s (JSF64.rng_state self)) = 4%nat ->
  jsf64_wf (jsf64.mk_state w h u) ->
  JSF64.state_setter (words_blob JSF64.__name__ w h u) self =
  (JSF64.mk (jsf64.mk_state w h u) (JSF64._bitgen self), Ok tt).
Proof.
  intros Hself ([Hlen Hw] & Hh & Hu). cbn [jsf64.s jsf64.has_uint32 jsf64.uinteger] in *.
  destruct (words_blob_parts JSF64.__name__ w h u)
    as (Hdict & Htag & Hst & Hvec & Hhas & Huint).
  unfold JSF64.state_setter.
  rewrite Hdict, Htag, ne_str_same. cbn [negb].
  rewrite Hst, Hhas, Huint, !bind_ok, Hvec, bind_ok.
  rewrite np_assign_uint64_ok, as_int_ok, as_uint32_ok by done.
  rewrite !bind_lift_ok. unfold modify.
  by rewrite jsf64_set_state_words.
Qed.

Lemma GJrand_setter_atomic value self self' e :
  GJrand.state_setter value self = (self', Raise e) -> self' = self.
Proof.
  unfold GJrand.state_setter.
  destruct (isinstance_dict value); cbn [negb]; [|by intros [= <- _]].
  destruct (ne_str _ _); [by intros [= <- _]|].
  destruct (st ← getitem value "state"; v ← getitem st "state";
            np_assign_uint64 (np_empty 4) v) as [w|e1];
    [rewrite bind_lift_ok|by rewrite bind_lift_raise; intros [= <- _]].
  destruct (v ← getitem value "has_uint32"; as_int v) as [h|e2];
    [rewrite bind_lift_ok|by rewrite bind_lift_raise; intros [= <- _]].
  destruct (v ← getitem value "uinteger"; as_uint32 v) as [u|e3];
    [rewrite bind_lift_ok|by rewrite bind_lift_raise; intros [= <- _]].
  unfold modify. intros [= _]. 
Qed.

Lemma JSF64_setter_atomic value self self' e :
  JSF64.state_setter value self = (self', Raise e) -> self' = self.
Proof.
  unfold JSF64.state_setter.
  destruct (isinstance_dict value); cbn [negb]; [|by intros [= <- _]].
  destruct (ne_str _ _); [by intros [= <- _]|].
  destruct (st ← getitem value "state"; v ← getitem st "state";
            np_assign_uint64 (np_empty 4) v) as [w|e1];
    [rewrite bind_lift_ok|by rewrite bind_lift_raise; intros [= <- _]].
  destruct (v ← getitem value "has_uint32"; as_int v) as [h|e2];
    [rewrite bind_lift_ok|by rewrite bind_lift_raise; intros [= <- _]].
  destruct (v ← getitem value "uinteger"; as_uint32 v) as [u|e3];
    [rewrite bind_lift_ok|by rewrite bind_lift_raise; intros [= <- _]].
  unfold modify. intros [= _].
Qed.

(** PCG32 *)

Lemma PCG32_blob_parts x i :
  isinstance_dict (PCG32_blob x i) = true
  /\ dict_get (PCG32_blob x i) "bit_generator" (PyStr EmptyString) =
     PyStr PCG32.__name__
  /\ getitem (PCG32_blob x i) "state" =
     Ok (PyDict (<["state" := PyInt x]> {["inc" := PyInt i]}))
  /\ getitem (PyDict (<["state" := PyInt x]> {["inc" := PyInt i]})) "state" =
     Ok (PyInt x)
  /\ getitem (PyDict (<["state" := PyInt x]> {["inc" := PyInt i]})) "inc" =
     Ok (PyInt i).
Proof.
  unfold PCG32_blob, dict_get, getitem. cbn [isinstance_dict].
  repeat split.
Qed.

Lemma PCG32_state_blob self :
  PCG32.state self =
  (self,
   Ok (PCG32_blob (pcg32.state (pcg32.pcg_state (PCG32.rng_state self)))
         (pcg32.inc (pcg32.pcg_state (PCG32.rng_state self))))).
Proof. reflexivity. Qed.

(** Restoring a well-typed blob into any PCG32 object. *)
Lemma PCG32_restore x i self :
  is_uint64 x -> is_uint64 i ->
  PCG32.state_setter (PCG32_blob x i) self =
  (PCG32.mk (pcg32.mk_state (pcg32.mk_random x i)) (PCG32._bitgen self),
   Ok tt).
Proof.
  intros Hx Hi.
  destruct (PCG32_blob_parts x i) as (Hdict & Htag & Hst & Hx' & Hi').
  unfold PCG32.state_setter.
  rewrite Hdict, Htag, ne_str_same. cbn [negb].
  rewrite Hst, !bind_ok, Hx', Hi', !bind_ok.
  rewrite !as_uint64_ok by done.
  rewrite bind_lift_ok, bind_modify, bind_lift_ok. reflexivity.
Qed.

(** DSFMT: the loops of the getter *)

Lemma write_loop {A} (f : nat -> A) n (arr : list A) :
  (n <= length arr)%nat ->
  for_range n (fun i a => a.[i <- f i]) arr = (f <$> seq 0 n) ++ drop n arr.
Proof.
  induction n as [|n IH]; intros Hn.
  - by rewrite drop_0.
  - rewrite for_range_S, IH by lia.
    rewrite seq_S, fmap_app. cbn [fmap list_fmap].
    assert (Hlen : length (f <$> seq 0 n) = n)
      by (by rewrite length_fmap, length_seq).
    destruct (lookup_lt_is_Some_2 arr n ltac:(lia)) as [x Hx].
    rewrite (drop_S arr x n Hx).
    rewrite insert_app_r_alt by (rewrite Hlen; lia).
    rewrite Hlen, Nat.sub_diag. cbn [insert list_insert].
    by rewrite <- app_assoc.
Qed.

Lemma write_loop_full {A} (f : nat -> A) (arr : list A) :
  for_range (length arr) (fun i a => a.[i <- f i]) arr = f <$> seq 0 (length arr).
Proof.
  rewrite write_loop by lia. by rewrite drop_all, app_nil_r.
Qed.

Lemma pair_loop {A} (g : nat -> nat -> A) n (arr : list A) :
  for_range n (fun i =>
    for_range 2 (fun j '(a, loc) => (a.[loc <- g i j], S loc))) (arr, 0%nat)
  = (for_range (2 * n) (fun k a => a.[k <- g (k / 2)%nat (k mod 2)%nat]) arr,
     (2 * n)%nat).
Proof.
  induction n as [|n IH]; [reflexivity|].
  rewrite for_range_S, IH.
  replace (2 * S n)%nat with (S (S (2 * n))) by lia.
  rewrite !for_range_S.
  change (for_range 0 _ ?a) with a. cbv beta iota.
  replace (S (2 * n) / 2)%nat with n
    by (apply (Nat.div_unique _ 2 n 1); lia).
  replace (S (2 * n) mod 2)%nat with 1%nat
    by (apply (Nat.mod_unique _ 2 n 1); lia).
  replace ((2 * n) / 2)%nat with n
    by (apply (Nat.div_unique _ 2 n 0); lia).
  replace ((2 * n) mod 2)%nat with 0%nat
    by (apply (Nat.mod_unique _ 2 n 0); lia).
  reflexivity.
Qed.

Lemma DSFMT_state_blob self :
  DSFMT.state self =
  (self,
   Ok (DSFMT_blob (DSFMT_words (DSFMT.rng_state self))
         (dSFMT.idx (dSFMT.state (DSFMT.rng_state self)))
         (dSFMT.buffer_loc (DSFMT.rng_state self))
         (DSFMT_doubles (DSFMT.rng_state self)))).
Proof.
  unfold DSFMT.state.
  rewrite (pair_loop (fun i j =>
    (dSFMT.u (dSFMT.status (dSFMT.state (DSFMT.rng_state self))).[i]).[j])).
  unfold np_empty.
  pose proof (write_loop_full
    (fun k => (dSFMT.u (dSFMT.status (dSFMT.state (DSFMT.rng_state self))).[k / 2]).[k mod 2])
    (replicate (2 * DSFMT.DSFMT_N_PLUS_1) 0)) as Hwords.
  rewrite length_replicate in Hwords. rewrite Hwords.
  pose proof (write_loop_full
    (fun i => (dSFMT.buffered_uniforms (DSFMT.rng_state self)).[i])
    (np_empty_double DSFMT.DSFMT_N64)) as Hbuf.
  unfold np_empty_double at 1 in Hbuf.
  rewrite length_replicate in Hbuf. rewrite Hbuf.
  reflexivity.
Qed.

(** DSFMT: the loops of the setter *)

Lemma for_each_app {Self A} (l1 l2 : list nat)
    (body : nat -> A -> method Self A) : forall acc self,
  for_each (l1 ++ l2) body acc self =
  match for_each l1 body acc self with
  | (self', Ok a) => for_each l2 body a self'
  | (self', Raise e) => (self', Raise e)
  end.
Proof.
  induction l1 as [|i l1 IH]; intros acc self; [reflexivity|].
  cbn [app for_each]. unfold mbind, method_bind.
  destruct (body i acc self) as [self1 [a|e]]; [apply IH|reflexivity].
Qed.

Lemma for_each_one {Self A} i (body : nat -> A -> method Self A) acc self :
  for_each [i] body acc self = body i acc self.
Proof.
  cbn [for_each]. unfold mbind, method_bind.
  by destruct (body i acc self) as [self1 [a|e]].
Qed.

Lemma read_word (words : list Z) k :
  (k < length words)%nat -> Forall is_uint64 words ->
  (v ← getitem_int (PyList (PyInt <$> words)) k; as_uint64 v) = Ok words.[k].
Proof.
  intros Hk Hw. unfold getitem_int.
  destruct (lookup_lt_is_Some_2 words k Hk) as [x Hx].
  rewrite list_lookup_fmap, Hx. cbn [fmap option_fmap option_map].
  rewrite bind_ok, (list_lookup_total_correct _ _ _ Hx).
  apply as_uint64_ok. by eapply Forall_lookup_1.
Qed.

Lemma read_double (buffered : list double) k :
  (k < length buffered)%nat ->
  (v ← getitem_int (PyList (PyFloat <$> buffered)) k; as_double v) =
  Ok buffered.[k].
Proof.
  intros Hk. unfold getitem_int.
  destruct (lookup_lt_is_Some_2 buffered k Hk) as [x Hx].
  rewrite list_lookup_fmap, Hx. cbn [fmap option_fmap option_map].
  by rewrite bind_ok, (list_lookup_total_correct _ _ _ Hx).
Qed.

Lemma status_loop (words : list Z) n : forall self,
  (2 * n <= length words)%nat -> Forall is_uint64 words ->
  for_each (seq 0 n) (fun i =>
    for_each (seq 0 2) (fun j loc =>
      x ← lift (v ← getitem_int (PyList (PyInt <$> words)) loc; as_uint64 v);
      _ ← modify (DSFMT.set_status_u i j x);
      mret (S loc)))
    0%nat self
  = (for_range n (fun i self =>
       DSFMT.set_status_u i 1 words.[2 * i + 1]
         (DSFMT.set_status_u i 0 words.[2 * i] self)) self,
     Ok (2 * n)%nat).
Proof.
  induction n as [|n IH]; intros self Hn Hw; [reflexivity|].
  rewrite seq_S, for_each_app, IH by (done || lia).
  rewrite for_each_one, for_range_S. cbn [Nat.add].
  change (seq 0 2) with [0%nat; 1%nat]. cbn [for_each].
  rewrite read_word by (done || lia). run_method.
  rewrite read_word by (done || lia). run_method.
  replace (2 * n + 1)%nat with (S (2 * n)) by lia.
  replace (2 * S n)%nat with (S (S (2 * n))) by lia.
  reflexivity.
Qed.

Lemma buffer_loop (buffered : list double) n : forall self,
  (n <= length buffered)%nat ->
  for_each (seq 0 n) (fun i (_ : unit) =>
    x ← lift (v ← getitem_int (PyList (PyFloat <$> buffered)) i; as_double v);
    modify (DSFMT.set_buffered_uniform i x))
    tt self
  = (for_range n (fun i self =>
       DSFMT.set_buffered_uniform i buffered.[i] self) self,
     Ok tt).
Proof.
  induction n as [|n IH]; intros self Hn; [reflexivity|].
  rewrite seq_S, for_each_app, IH by lia.
  rewrite for_each_one, for_range_S. cbn [Nat.add].
  rewrite read_double by lia.
  by rewrite bind_lift_ok.
Qed.

Lemma DSFMT_blob_parts words idx loc buffered :
  isinstance_dict (DSFMT_blob words idx loc buffered) = true
  /\ dict_get (DSFMT_blob words idx loc buffered) "bit_generator"
       (PyStr EmptyString) = PyStr DSFMT.__name__
  /\ getitem (DSFMT_blob words idx loc buffered) "state" =
     Ok (PyDict (<["state" := PyList (PyInt <$> words)]>
                 {["idx" := PyInt idx]}))
  /\ getitem (PyDict (<["state" := PyList (PyInt <$> words)]>
                      {["idx" := PyInt idx]})) "state" =
     Ok (PyList (PyInt <$> words))
  /\ getitem (PyDict (<["state" := PyList (PyInt <$> words)]>
                      {["idx" := PyInt idx]})) "idx" = Ok (PyInt idx)
  /\ getitem (DSFMT_blob words idx loc buffered) "buffered_uniforms" =
     Ok (PyList (PyFloat <$> buffered))
  /\ getitem (DSFMT_blob words idx loc buffered) "buffer_loc" =
     Ok (PyInt loc).
Proof.
  unfold DSFMT_blob, dict_get, getitem. cbn [isinstance_dict].
  repeat split.
Qed.

(** Restoring a readable blob into any DSFMT object succeeds and performs
    all the assignments. *)
Lemma DSFMT_setter_ok words idx loc buffered self :
  DSFMT_blob_ok words idx loc buffered ->
  DSFMT.state_setter (DSFMT_blob words idx loc buffered) self =
  (DSFMT_restore words idx loc buffered self, Ok tt).
Proof.
  intros (Hlen & Hw & Hidx & Hloc & Hbuf).
  destruct (DSFMT_blob_parts words idx loc buffered)
    as (Hdict & Htag & Hst & Hwords & Hi & Hb & Hl).
  unfold DSFMT.state_setter.
  rewrite Hdict, Htag, ne_str_same. cbn [negb].
  rewrite Hst, Hb, Hl, !bind_ok, Hwords, Hi, !bind_ok.
  rewrite (as_int_ok idx), (as_int_ok loc) by done.
  rewrite bind_lift_ok.
  unfold mbind at 1, method_bind at 1. rewrite status_loop by done.
  rewrite bind_lift_ok, bind_modify, bind_lift_ok.
  unfold mbind at 1, method_bind at 1. rewrite buffer_loop by done.
  rewrite bind_lift_ok.
  reflexivity.
Qed.

(** DSFMT: restoring what was saved *)

Lemma fmap_seq_at {A} `{Inhabited A} (f : nat -> A) n k :
  (k < n)%nat -> (f <$> seq 0 n).[k] = f k.
Proof.
  intros Hk. apply list_lookup_total_correct.
  rewrite list_lookup_fmap, lookup_seq_lt by exact Hk. reflexivity.
Qed.

Lemma DSFMT_words_at st i j :
  (i < DSFMT.DSFMT_N_PLUS_1)%nat -> (j < 2)%nat ->
  (DSFMT_words st).[2 * i + j] =
  (dSFMT.u (dSFMT.status (dSFMT.state st)).[i]).[j].
Proof.
  intros Hi Hj. unfold DSFMT_words. rewrite fmap_seq_at by lia.
  replace ((2 * i + j) / 2)%nat with i
    by (apply (Nat.div_unique _ 2 i j); lia).
  replace ((2 * i + j) mod 2)%nat with j
    by (apply (Nat.mod_unique _ 2 i j); lia).
  reflexivity.
Qed.

Lemma set_status_u_same self i j :
  (i < length (dSFMT.status (dSFMT.state (DSFMT.rng_state self))))%nat ->
  (j < length (dSFMT.u (dSFMT.status (dSFMT.state (DSFMT.rng_state self))).[i]))%nat ->
  DSFMT.set_status_u i j
    (dSFMT.u (dSFMT.status (dSFMT.state (DSFMT.rng_state self))).[i]).[j] self
  = self.
Proof.
  destruct self as [[[status idx] h u b l] tbl].
  cbn [DSFMT.rng_state dSFMT.state dSFMT.status]. intros Hi Hj.
  unfold DSFMT.set_status_u.
  cbn [DSFMT.rng_state DSFMT._bitgen dSFMT.state dSFMT.status dSFMT.idx
       dSFMT.has_uint32 dSFMT.uinteger dSFMT.buffered_uniforms
       dSFMT.buffer_loc].
  rewrite (list_insert_id (dSFMT.u status.[i]) j)
    by (by apply list_lookup_lookup_total_lt).
  destruct (status.[i]) as [uw] eqn:Hw. cbn [dSFMT.u].
  rewrite list_insert_id; [reflexivity|].
  rewrite <- Hw. by apply list_lookup_lookup_total_lt.
Qed.

Lemma status_restore_same self n :
  dsfmt_wf (DSFMT.rng_state self) -> (n <= DSFMT.DSFMT_N_PLUS_1)%nat ->
  for_range n (fun i self' =>
    DSFMT.set_status_u i 1 (DSFMT_words (DSFMT.rng_state self)).[2 * i + 1]
      (DSFMT.set_status_u i 0 (DSFMT_words (DSFMT.rng_state self)).[2 * i]
         self')) self
  = self.
Proof.
  intros (Hlen & Hst & _) Hn. induction n as [|n IH]; [reflexivity|].
  rewrite for_range_S, IH by lia.
  assert (Hwf : w128_wf (dSFMT.status (dSFMT.state (DSFMT.rng_state self))).[n]).
  { eapply Forall_lookup_1; [exact Hst|].
    apply list_lookup_lookup_total_lt. lia. }
  destruct Hwf as [Hu _].
  replace (2 * n)%nat with (2 * n + 0)%nat at 2 by lia.
  rewrite !DSFMT_words_at by lia.
  rewrite set_status_u_same by lia.
  apply set_status_u_same; lia.
Qed.

Lemma buffer_restore_same (bs : list double) n : forall self,
  dSFMT.buffered_uniforms (DSFMT.rng_state self) = bs ->
  (n <= length bs)%nat ->
  for_range n (fun i self' => DSFMT.set_buffered_uniform i bs.[i] self') self
  = self.
Proof.
  intros self Hbs Hn. induction n as [|n IH]; [reflexivity|].
  rewrite for_range_S, IH by lia.
  destruct self as [[d h u b l] tbl]. cbn [DSFMT.rng_state dSFMT.buffered_uniforms] in Hbs.
  subst b. unfold DSFMT.set_buffered_uniform.
  cbn [DSFMT.rng_state DSFMT._bitgen dSFMT.state dSFMT.has_uint32
       dSFMT.uinteger dSFMT.buffered_uniforms dSFMT.buffer_loc].
  rewrite list_insert_id; [reflexivity|].
  apply list_lookup_lookup_total_lt. lia.
Qed.

Lemma DSFMT_doubles_same st :
  length (dSFMT.buffered_uniforms st) = DSFMT.DSFMT_N64 ->
  DSFMT_doubles st = dSFMT.buffered_uniforms st.
Proof.
  intros Hlen. unfold DSFMT_doubles. rewrite <- Hlen.
  apply list_eq. intros k. rewrite list_lookup_fmap.
  destruct (decide (k < length (dSFMT.buffered_uniforms st))%nat) as [Hk|Hk].
  - rewrite lookup_seq_lt by exact Hk. cbn [fmap option_fmap option_map Nat.add].
    symmetry. by apply list_lookup_lookup_total_lt.
  - rewrite lookup_seq_ge by lia. symmetry. apply lookup_ge_None. lia.
Qed.

Lemma DSFMT_restore_same self idx loc :
  dsfmt_wf (DSFMT.rng_state self) ->
  DSFMT_restore (DSFMT_words (DSFMT.rng_state self)) idx loc
    (DSFMT_doubles (DSFMT.rng_state self)) self
  = DSFMT.set_buffer_loc loc (DSFMT.set_idx idx self).
Proof.
  intros Hwf. unfold DSFMT_restore.
  rewrite status_restore_same by (done || lia).
  destruct Hwf as (_ & _ & _ & Hbuf & _).
  rewrite (DSFMT_doubles_same _ Hbuf).
  rewrite buffer_restore_same; [reflexivity|by destruct self as [[]]|].
  rewrite Hbuf. lia.
Qed.

Lemma DSFMT_words_uint64 st :
  dsfmt_wf st -> Forall is_uint64 (DSFMT_words st).
Proof.
  intros (Hlen & Hst & _). unfold DSFMT_words.
  apply Forall_fmap, Forall_forall. intros k Hk%elem_of_seq. cbn [compose].
  assert (Hk2 : (k / 2 < DSFMT.DSFMT_N_PLUS_1)%nat)
    by (apply Nat.Div0.div_lt_upper_bound; lia).
  assert (Hwf : w128_wf (dSFMT.status (dSFMT.state st)).[k / 2]).
  { eapply Forall_lookup_1; [exact Hst|].
    apply list_lookup_lookup_total_lt. lia. }
  destruct Hwf as [Hu Hr].
  eapply Forall_lookup_1; [exact Hr|].
  apply list_lookup_lookup_total_lt. rewrite Hu.
  apply Nat.mod_upper_bound. lia.
Qed.

Lemma DSFMT_saved_blob_ok st idx loc :
  dsfmt_wf st -> is_int idx -> is_int loc ->
  DSFMT_blob_ok (DSFMT_words st) idx loc (DSFMT_doubles st).
Proof.
  intros Hwf Hidx Hloc. unfold DSFMT_blob_ok.
  split; [unfold DSFMT_words; by rewrite length_fmap, length_seq|].
  split; [by apply DSFMT_words_uint64|].
  split; [exact Hidx|]. split; [exact Hloc|].
  unfold DSFMT_doubles. by rewrite length_fmap, length_seq.
Qed.

(** ** Rejected blobs *)

Lemma set_buffer_loc_same self :
  DSFMT.set_buffer_loc (dSFMT.buffer_loc (DSFMT.rng_state self)) self = self.
Proof. by destruct self as [[]]. Qed.


(** C2, as the design document words it, fails for DSFMT: a blob whose
    index 100000 lies outside the status array is not rejected; the restore
    returns normally and the index of the engine is 100000 afterwards.  It
    fails for malformed blobs of DSFMT and PCG32 too, which are refused but
    not with the state as it was: a DSFMT blob without doubles raises
    [IndexError] with the index already replaced, and a PCG32 blob without
    ['inc'] raises [KeyError] with the LCG value already replaced. *)
Lemma DSFMT_restore_accepts_bad_index :
  snd (DSFMT.state_setter DSFMT_blob_bad_idx DSFMT_sample) = Ok tt
  /\ dSFMT.idx (dSFMT.state (DSFMT.rng_state
       (fst (DSFMT.state_setter DSFMT_blob_bad_idx DSFMT_sample)))) = 100000
  /\ dSFMT.idx (dSFMT.state (DSFMT.rng_state DSFMT_sample)) = 0
  /\ ~ (0 <= 100000 < Z.of_nat DSFMT.DSFMT_N_PLUS_1)
  /\ snd (DSFMT.state_setter DSFMT_blob_short DSFMT_sample) = Raise IndexError
  /\ dSFMT.idx (dSFMT.state (DSFMT.rng_state
       (fst (DSFMT.state_setter DSFMT_blob_short DSFMT_sample)))) = 7
  /\ snd (PCG32.state_setter PCG32_blob_no_inc PCG32.__new__) = Raise KeyError
  /\ pcg32.state (pcg32.pcg_state (PCG32.rng_state
       (fst (PCG32.state_setter PCG32_blob_no_inc PCG32.__new__)))) = 7
  /\ pcg32.state (pcg32.pcg_state (PCG32.rng_state PCG32.__new__)) = 0.
Proof.
  split; [|split; [|split; [|split; [|split; [|split; [|split; [|split]]]]]]].
  - vm_compute. reflexivity.
  - vm_compute. reflexivity.
  - reflexivity.
  - unfold DSFMT.DSFMT_N_PLUS_1. lia.
  - vm_compute. reflexivity.
  - vm_compute. reflexivity.
  - vm_compute. reflexivity.
  - vm_compute. reflexivity.
  - reflexivity.
Qed.

(** A blob whose array of doubles is too short does raise, but only after
    the status words and the index have been assigned. *)
Example DSFMT_restore_short_buffer :
  DSFMT.state_setter DSFMT_blob_short DSFMT_sample =
  (DSFMT.set_idx 7 DSFMT_sample, Raise IndexError).
Proof. vm_compute. reflexivity. Qed.

(** ** Save, restore, resume *)

Lemma GJrand_roundtrip_same self :
  gjrand_wf (GJrand.rng_state self) -> GJrand_roundtrip self = (self, Ok tt).
Proof.
  intros Hwf. unfold GJrand_roundtrip.
  unfold mbind, method_bind. rewrite GJrand_state_blob by apply Hwf.
  destruct self as [[w h u] tbl]. cbn [GJrand.rng_state] in *.
  rewrite GJrand_restore; [reflexivity|apply Hwf|exact Hwf].
Qed.

Lemma JSF64_roundtrip_same self :
  jsf64_wf (JSF64.rng_state self) -> JSF64_roundtrip self = (self, Ok tt).
Proof.
  intros Hwf. unfold JSF64_roundtrip.
  unfold mbind, method_bind. rewrite JSF64_state_blob by apply Hwf.
  destruct self as [[w h u] tbl]. cbn [JSF64.rng_state] in *.
  rewrite JSF64_restore; [reflexivity|apply Hwf|exact Hwf].
Qed.

Lemma PCG32_roundtrip_same self :
  pcg32_wf (PCG32.rng_state self) -> PCG32_roundtrip self = (self, Ok tt).
Proof.
  intros [Hx Hi]. unfold PCG32_roundtrip.
  unfold mbind, method_bind. rewrite PCG32_state_blob.
  rewrite PCG32_restore by done. by destruct self as [[[x i]] tbl].
Qed.

Lemma DSFMT_roundtrip_same self :
  dsfmt_wf (DSFMT.rng_state self) -> DSFMT_roundtrip self = (self, Ok tt).
Proof.
  intros Hwf. unfold DSFMT_roundtrip.
  unfold mbind, method_bind. rewrite DSFMT_state_blob.
  rewrite DSFMT_setter_ok
    by (apply DSFMT_saved_blob_ok; [exact Hwf|apply Hwf|apply Hwf]).
  rewrite DSFMT_restore_same by exact Hwf.
  unfold DSFMT.set_buffer_loc, DSFMT.set_idx. by destruct self as [[[]]].
Qed.

(** C3.  For each of the four engines and every state whose fields have
    their C types, assigning to [state] what [state] has just given
    succeeds and leaves the object as it was, so every later sequence of
    draws through the table of the object gives the values, and reaches the
    state, it gives without the round trip. *)
Theorem state_roundtrip_replays :
  (forall self ops,
     gjrand_wf (GJrand.rng_state self) ->
     GJrand_roundtrip self = (self, Ok tt)
     /\ draws (GJrand._bitgen (fst (GJrand_roundtrip self))) ops
          (GJrand.rng_state (fst (GJrand_roundtrip self))) =
        draws (GJrand._bitgen self) ops (GJrand.rng_state self))
  /\ (forall self ops,
     jsf64_wf (JSF64.rng_state self) ->
     JSF64_roundtrip self = (self, Ok tt)
     /\ draws (JSF64._bitgen (fst (JSF64_roundtrip self))) ops
          (JSF64.rng_state (fst (JSF64_roundtrip self))) =
        draws (JSF64._bitgen self) ops (JSF64.rng_state self))
  /\ (forall self ops,
     pcg32_wf (PCG32.rng_state self) ->
     PCG32_roundtrip self = (self, Ok tt)
     /\ draws (PCG32._bitgen (fst (PCG32_roundtrip self))) ops
          (PCG32.rng_state (fst (PCG32_roundtrip self))) =
        draws (PCG32._bitgen self) ops (PCG32.rng_state self))
  /\ (forall self ops,
     dsfmt_wf (DSFMT.rng_state self) ->
     DSFMT_roundtrip self = (self, Ok tt)
     /\ draws (DSFMT._bitgen (fst (DSFMT_roundtrip self))) ops
          (DSFMT.rng_state (fst (DSFMT_roundtrip self))) =
        draws (DSFMT._bitgen self) ops (DSFMT.rng_state self)).
Proof.
  split; [|split; [|split]]; intros self ops Hwf.
  - pose proof (GJrand_roundtrip_same self Hwf) as Hrt.
    split; [exact Hrt|]. by rewrite Hrt.
  - pose proof (JSF64_roundtrip_same self Hwf) as Hrt.
    split; [exact Hrt|]. by rewrite Hrt.
  - pose proof (PCG32_roundtrip_same self Hwf) as Hrt.
    split; [exact Hrt|]. by rewrite Hrt.
  - pose proof (DSFMT_roundtrip_same self Hwf) as Hrt.
    split; [exact Hrt|]. by rewrite Hrt.
Qed.

Lemma state_roundtrip_replays_witness :
  GJrand_roundtrip (GJrand.__init__ [1; 2] GJrand.__new__) =
    (GJrand.__init__ [1; 2] GJrand.__new__, Ok tt)
  /\ JSF64_roundtrip (JSF64.__init__ [1; 2; 3] JSF64.__new__) =
     (JSF64.__init__ [1; 2; 3] JSF64.__new__, Ok tt)
  /\ PCG32_roundtrip
       (@PCG32.__init__ pcg32_model.header [42; 54] PCG32.__new__) =
     (@PCG32.__init__ pcg32_model.header [42; 54] PCG32.__new__, Ok tt)
  /\ DSFMT_roundtrip DSFMT_sample = (DSFMT_sample, Ok tt).
Proof.
  split; [|split; [|split]].
  - refine (proj1 (proj1 state_roundtrip_replays
              (GJrand.__init__ [1; 2] GJrand.__new__) [Uint32; Uint64] _)).
    apply GJrand_init_wf.
  - refine (proj1 (proj1 (proj2 state_roundtrip_replays)
              (JSF64.__init__ [1; 2; 3] JSF64.__new__) [Uint32; Double] _)).
    apply JSF64_init_wf; [reflexivity|compute_done].
  - refine (proj1 (proj1 (proj2 (proj2 state_roundtrip_replays))
              (@PCG32.__init__ pcg32_model.header [42; 54] PCG32.__new__)
              [Raw; Uint32] _)).
    compute_done.
  - refine (proj1 (proj2 (proj2 (proj2 state_roundtrip_replays))
              DSFMT_sample [Double] _)).
    compute_done.
Defined.

(** ** Jumps *)

Lemma wrap_int_uint64 z : is_uint64 (wrap_int z 64).
Proof. apply to_uint64_range. Qed.

Lemma PCG32_advance_run `{pcg32.extern} delta self :
  PCG32.advance delta self =
  (PCG32.mk (pcg32.pcg32_advance_state (PCG32.rng_state self)
               (to_uint64 delta))
     (PCG32._bitgen self),
   Ok tt).
Proof.
  unfold PCG32.advance.
  rewrite as_uint64_ok by apply wrap_int_uint64.
  by rewrite bind_lift_ok.
Qed.

(** C5.  [jumped] of PCG32 leaves the object it is called on as it was and
    returns a new object whose state is the state of the first advanced by
    0x9e3779b97f4a7c16 times the jump count, reduced modulo [2^64]: what
    [advance] with that product does to the state. *)
Theorem PCG32_jumped_is_advance `{pcg32.extern} self val jumps :
  pcg32_wf (PCG32.rng_state self) ->
  exists bit_generator,
    PCG32.jumped val jumps self = (self, Ok bit_generator)
    /\ PCG32.rng_state bit_generator =
       pcg32.pcg32_advance_state (PCG32.rng_state self)
         (to_uint64 (0x9e3779b97f4a7c16 * jumps))
    /\ PCG32.rng_state bit_generator =
       PCG32.rng_state
         (fst (PCG32.advance (0x9e3779b97f4a7c16 * jumps) self))
    /\ snd (PCG32.advance (0x9e3779b97f4a7c16 * jumps) self) = Ok tt.
Proof.
  intros [Hx Hi]. unfold PCG32.jumped.
  unfold mbind at 1, method_bind at 1. rewrite PCG32_state_blob.
  unfold mbind at 1, method_bind at 1, call at 1.
  rewrite PCG32_restore by done.
  unfold mbind at 1, method_bind at 1, call at 1, PCG32.jump_inplace.
  rewrite !PCG32_advance_run. cbn [PCG32.rng_state PCG32._bitgen fst snd].
  eexists. split; [reflexivity|].
  cbn [PCG32.rng_state].
  by destruct self as [[[x i]] tbl].
Qed.

Lemma PCG32_jumped_is_advance_witness :
  exists bit_generator,
    @PCG32.jumped pcg32_model.header [1; 2] 3
      (@PCG32.__init__ pcg32_model.header [42; 54] PCG32.__new__) =
    (@PCG32.__init__ pcg32_model.header [42; 54] PCG32.__new__,
     Ok bit_generator)
    /\ PCG32.rng_state bit_generator =
       @pcg32.pcg32_advance_state pcg32_model.header
         (PCG32.rng_state
            (@PCG32.__init__ pcg32_model.header [42; 54] PCG32.__new__))
         (to_uint64 (0x9e3779b97f4a7c16 * 3)).
Proof.
  destruct (@PCG32_jumped_is_advance pcg32_model.header
              (@PCG32.__init__ pcg32_model.header [42; 54] PCG32.__new__)
              [1; 2] 3 ltac:(compute_done))
    as (bit_generator & Hjumped & Hstate & _).
  exists bit_generator. split; [exact Hjumped|exact Hstate].
Defined.


(** ** The raw slot *)

(** C9.  The [next_raw] slot of PCG32 is [pcg32_raw]: it draws one 32-bit
    value with [pcg32_next32], as the [next_uint32] slot does, and widens
    it, so its value is that of [next_uint32] from the same state, below
    [2^32], and it reaches the same state.  The [next_raw] slot of GJrand
    and of JSF64 is the function in their [next_uint64] slot. *)
Theorem next_raw_slots `{pcg32.extern} :
  (forall val st,
     let bitgen := PCG32._bitgen (PCG32.__init__ val PCG32.__new__) in
     next_raw bitgen st = next_uint32 bitgen st
     /\ next_uint32 bitgen st = pcg32.pcg32_next32 st
     /\ 0 <= fst (next_raw bitgen st) < 2 ^ 32)
  /\ (forall val,
     let bitgen := GJrand._bitgen (GJrand.__init__ val GJrand.__new__) in
     next_raw bitgen = next_uint64 bitgen
     /\ next_uint64 bitgen = gjrand.gjrand_next64)
  /\ (forall val,
     let bitgen := JSF64._bitgen (JSF64.__init__ val JSF64.__new__) in
     next_raw bitgen = next_uint64 bitgen
     /\ next_uint64 bitgen = jsf64.jsf64_next64).
Proof.
  split; [|split; intros val bitgen; split; reflexivity].
  intros val st bitgen. subst bitgen.
  cbn [PCG32.__init__ PCG32._bitgen next_raw next_uint32].
  unfold PCG32.pcg32_raw, PCG32.pcg32_uint32.
  pose proof (pcg32.pcg32_next32_uint32 st) as Hr.
  destruct (pcg32.pcg32_next32 st) as [r st']. cbn [fst] in *.
  rewrite to_uint64_id by (unfold is_uint64, is_uint32 in *; lia).
  split; [reflexivity|]. split; [reflexivity|exact Hr].
Qed.

Lemma next_raw_slots_witness :
  fst (next_raw (PCG32._bitgen
         (@PCG32.__init__ pcg32_model.header [42; 54] PCG32.__new__))
       (PCG32.rng_state
          (@PCG32.__init__ pcg32_model.header [42; 54] PCG32.__new__)))
  < 2 ^ 32.
Proof.
  exact (proj2 (proj2 (proj2 (proj1 (@next_raw_slots pcg32_model.header)
           [42; 54]
           (PCG32.rng_state
              (@PCG32.__init__ pcg32_model.header [42; 54] PCG32.__new__)))))).
Defined.

(** Three raw draws of the stand-in PCG32, seeded with 42 and 54. *)
Example pcg32_model_raw_draws :
  fst (repeat_draw
         (next_raw (PCG32._bitgen
            (@PCG32.__init__ pcg32_model.header [42; 54] PCG32.__new__))) 3
         (PCG32.rng_state
            (@PCG32.__init__ pcg32_model.header [42; 54] PCG32.__new__)))
  = [210066564; 1160386676; 309281181].
Proof. vm_compute. reflexivity. Qed.

(** * Further properties of the code *)

(** ** [rotl] is a rotation of the 64 bits *)

Lemma uint64_bits_high v k : is_uint64 v -> 64 <= k -> Z.testbit v k = false.
Proof.
  intros [Hv0 Hv] Hk.
  exact (proj1 (below_pow2_bits 64 v ltac:(lia) Hv0) Hv k Hk).
Qed.

Lemma uint64_bits_eq a b :
  is_uint64 a -> is_uint64 b ->
  (forall k, 0 <= k < 64 -> Z.testbit a k = Z.testbit b k) -> a = b.
Proof.
  intros Ha Hb Hbits. apply Z.bits_inj'. intros k Hk.
  destruct (Z_lt_le_dec k 64) as [Hlt|Hge].
  - apply Hbits. lia.
  - by rewrite !uint64_bits_high.
Qed.

Lemma rotl_shift_back r :
  0 <= r < 64 -> Z.land (to_uint32 (- r)) 63 = (- r) mod 64.
Proof.
  intros Hr. unfold to_uint32. change 63 with (Z.ones 6).
  rewrite Z.land_ones by lia.
  apply Z.mod_mod_divide. exists (2 ^ 26). reflexivity.
Qed.

Lemma rotl_testbit v r k :
  is_uint64 v -> 0 <= r < 64 -> 0 <= k < 64 ->
  Z.testbit (gjrand.rotl v r) k = Z.testbit v ((k - r) mod 64).
Proof.
  intros Hv Hr Hk. unfold gjrand.rotl, shl64, shr64, to_uint64.
  rewrite rotl_shift_back by exact Hr.
  rewrite Z.lor_spec, Z.mod_pow2_bits_low by lia.
  rewrite Z.shiftl_spec, Z.shiftr_spec by lia.
  destruct (Z.eq_dec r 0) as [->|Hr0].
  - change ((- 0) mod 64) with 0. rewrite Z.sub_0_r, Z.add_0_r.
    rewrite Z.mod_small by lia. apply orb_diag.
  - replace ((- r) mod 64) with (64 - r)
      by (apply (Z.mod_unique_pos _ 64 (-1)); lia).
    destruct (Z_lt_le_dec k r) as [Hlt|Hge].
    + rewrite Z.testbit_neg_r by lia. cbn [orb].
      f_equal. apply (Z.mod_unique_pos _ 64 (-1)); lia.
    + rewrite (uint64_bits_high v (k + (64 - r))) by (done || lia).
      rewrite orb_false_r. f_equal. symmetry. apply Z.mod_small. lia.
Qed.

Lemma rotl_same : jsf64.rotl = gjrand.rotl.
Proof. reflexivity. Qed.

(** X1.  [rotl], for a rotation count below 64 (zero included), keeps the
    value within 64 bits and moves bit [k - rot], counted modulo 64, to
    bit [k]; the two headers define the same function. *)
Theorem rotl_rotates_bits v r :
  is_uint64 v -> 0 <= r < 64 ->
  is_uint64 (gjrand.rotl v r)
  /\ (forall k, 0 <= k < 64 ->
        Z.testbit (gjrand.rotl v r) k = Z.testbit v ((k - r) mod 64))
  /\ jsf64.rotl v r = gjrand.rotl v r.
Proof.
  intros Hv Hr. split; [by apply rotl_gjrand_uint64|].
  split; [|reflexivity]. intros k Hk. by apply rotl_testbit.
Qed.

Lemma rotl_rotates_bits_witness :
  Z.testbit (gjrand.rotl 1 63) 63 = Z.testbit 1 ((63 - 63) mod 64).
Proof.
  refine (proj1 (proj2 (rotl_rotates_bits 1 63 _ _)) 63 _);
    unfold is_uint64; lia.
Defined.

Lemma rotl_compose v a b :
  is_uint64 v -> 0 <= a < 64 -> 0 <= b < 64 ->
  gjrand.rotl (gjrand.rotl v a) b = gjrand.rotl v ((a + b) mod 64).
Proof.
  intros Hv Ha Hb.
  assert (Hab : 0 <= (a + b) mod 64 < 64) by (apply Z.mod_pos_bound; lia).
  apply uint64_bits_eq; try by repeat apply rotl_gjrand_uint64.
  intros k Hk.
  assert (Hkb : 0 <= (k - b) mod 64 < 64) by (apply Z.mod_pos_bound; lia).
  rewrite !rotl_testbit by (done || by apply rotl_gjrand_uint64).
  f_equal. rewrite Zminus_mod_idemp_l, Zminus_mod_idemp_r.
  f_equal. lia.
Qed.

Lemma rotl_zero v : is_uint64 v -> gjrand.rotl v 0 = v.
Proof.
  intros Hv. apply uint64_bits_eq; [by apply rotl_gjrand_uint64|exact Hv|].
  intros k Hk. rewrite rotl_testbit by (done || lia).
  by rewrite Z.sub_0_r, Z.mod_small.
Qed.

Lemma rotr_rotl v r : is_uint64 v -> 0 <= r < 64 -> rotr (gjrand.rotl v r) r = v.
Proof.
  intros Hv Hr. unfold rotr.
  assert (0 <= (- r) mod 64 < 64) by (apply Z.mod_pos_bound; lia).
  rewrite rotl_compose by done.
  rewrite Zplus_mod_idemp_r, Z.add_opp_diag_r. by apply rotl_zero.
Qed.

Lemma rotl_rotr v r : is_uint64 v -> 0 <= r < 64 -> gjrand.rotl (rotr v r) r = v.
Proof.
  intros Hv Hr. unfold rotr.
  assert (0 <= (- r) mod 64 < 64) by (apply Z.mod_pos_bound; lia).
  rewrite rotl_compose by done.
  rewrite Zplus_mod_idemp_l, Z.add_opp_diag_l. by apply rotl_zero.
Qed.

Lemma rotr_uint64 v r : is_uint64 v -> is_uint64 (rotr v r).
Proof. apply rotl_gjrand_uint64. Qed.

(** X2.  Rotations compose by adding their counts modulo 64: rotating by 0
    changes nothing, and rotating by [r] and then by [64 - r] gives the
    value back. *)
Theorem rotl_composes v a b :
  is_uint64 v -> 0 <= a < 64 -> 0 <= b < 64 ->
  gjrand.rotl (gjrand.rotl v a) b = gjrand.rotl v ((a + b) mod 64)
  /\ gjrand.rotl v 0 = v
  /\ gjrand.rotl (gjrand.rotl v a) ((64 - a) mod 64) = v.
Proof.
  intros Hv Ha Hb. split; [by apply rotl_compose|].
  split; [by apply rotl_zero|].
  assert (0 <= (64 - a) mod 64 < 64) by (apply Z.mod_pos_bound; lia).
  rewrite rotl_compose by done.
  rewrite Zplus_mod_idemp_r.
  replace (a + (64 - a)) with (1 * 64) by lia.
  rewrite Z.mod_mul by lia. by apply rotl_zero.
Qed.

Lemma rotl_composes_witness :
  gjrand.rotl (gjrand.rotl 0x8000000000000001 7) 60 =
  gjrand.rotl 0x8000000000000001 ((7 + 60) mod 64).
Proof.
  refine (proj1 (rotl_composes 0x8000000000000001 7 60 _ _ _));
    unfold is_uint64; lia.
Defined.

(** ** The transitions are permutations of the well-typed words *)

Lemma sub_add64 x y : is_uint64 x -> sub64 (add64 x y) y = x.
Proof.
  intros Hx. unfold sub64, add64, to_uint64.
  rewrite Zminus_mod_idemp_l. replace (x + y - y) with x by lia.
  by apply Z.mod_small.
Qed.

Lemma add_sub64 x y : is_uint64 x -> add64 (sub64 x y) y = x.
Proof.
  intros Hx. unfold sub64, add64, to_uint64.
  rewrite Zplus_mod_idemp_l. replace (x - y + y) with x by lia.
  by apply Z.mod_small.
Qed.

Lemma sub_add64_l x y : is_uint64 y -> sub64 (add64 x y) x = y.
Proof.
  intros Hy. unfold sub64, add64, to_uint64.
  rewrite Zminus_mod_idemp_l. replace (x + y - x) with y by lia.
  by apply Z.mod_small.
Qed.

Lemma add_sub64_l x y : is_uint64 y -> add64 x (sub64 y x) = y.
Proof.
  intros Hy. unfold sub64, add64, to_uint64.
  rewrite Zplus_mod_idemp_r. replace (x + (y - x)) with y by lia.
  by apply Z.mod_small.
Qed.

Lemma xor_xor64 x y : xor64 (xor64 x y) y = x.
Proof.
  unfold xor64. by rewrite Z.lxor_assoc, Z.lxor_nilpotent, Z.lxor_0_r.
Qed.

Lemma xor_xor64_l x y : xor64 x (xor64 x y) = y.
Proof.
  unfold xor64. by rewrite <- Z.lxor_assoc, Z.lxor_nilpotent, Z.lxor_0_l.
Qed.

Lemma sub64_uint64 x y : is_uint64 (sub64 x y).
Proof. apply to_uint64_range. Qed.

Lemma add64_uint64 x y : is_uint64 (add64 x y).
Proof. apply to_uint64_range. Qed.

Lemma words_wf_four w :
  words_wf w ->
  exists a b c d,
    w = [a; b; c; d]
    /\ is_uint64 a /\ is_uint64 b /\ is_uint64 c /\ is_uint64 d.
Proof.
  intros [(a & b & c & d & ->)%four_words Hw].
  exists a, b, c, d. split; [reflexivity|].
  inversion Hw as [|? ? Ha Hw1]; subst.
  inversion Hw1 as [|? ? Hb Hw2]; subst.
  inversion Hw2 as [|? ? Hc Hw3]; subst.
  inversion Hw3 as [|? ? Hd _]; subst. done.
Qed.

Lemma four_words_wf a b c d :
  is_uint64 a -> is_uint64 b -> is_uint64 c -> is_uint64 d ->
  words_wf [a; b; c; d].
Proof.
  intros Ha Hb Hc Hd. split; [reflexivity|].
  repeat apply Forall_cons_2; try apply Forall_nil_2; assumption.
Qed.

Lemma gjrand_unstep_step w : words_wf w -> gjrand_unstep (gjrand_step w) = w.
Proof.
  intros (a & b & c & d & -> & Ha & Hb & Hc & Hd)%words_wf_four.
  unfold gjrand_step. rewrite gjrand_next_words. cbv zeta.
  unfold gjrand_unstep.
  cbn [snd lookup_total list_lookup_total].
  rewrite (sub_add64 d) by exact Hd.
  rewrite (sub_add64 (gjrand.rotl _ 19))
    by (apply rotl_gjrand_uint64, lxor_uint64; apply add64_uint64).
  rewrite (sub_add64 (gjrand.rotl _ 23))
    by (apply rotl_gjrand_uint64, lxor_uint64; [exact Hc|apply add64_uint64]).
  rewrite rotr_rotl by (try lia; apply lxor_uint64; apply add64_uint64).
  rewrite (sub_add64 (add64 _ _)) by apply add64_uint64.
  rewrite xor_xor64.
  rewrite rotr_rotl
    by first [lia | apply lxor_uint64; [exact Hc|apply add64_uint64]].
  rewrite (sub_add64 (gjrand.rotl a 32)) by (by apply rotl_gjrand_uint64).
  rewrite xor_xor64.
  rewrite (sub_add64 b c) by exact Hb.
  rewrite rotr_rotl by (done || lia).
  reflexivity.
Qed.

Lemma jsf64_unstep_step w : words_wf w -> jsf64_unstep (jsf64_step w) = w.
Proof.
  intros (a & b & c & d & -> & Ha & Hb & Hc & Hd)%words_wf_four.
  unfold jsf64_step. rewrite jsf64_next_words. cbv zeta.
  unfold jsf64_unstep.
  cbn [snd lookup_total list_lookup_total].
  rewrite (sub_add64 (sub64 _ _)) by apply sub64_uint64.
  rewrite (sub_add64 d) by exact Hd.
  rewrite (sub_add64 c) by exact Hc.
  rewrite xor_xor64.
  rewrite add_sub64 by exact Ha.
  reflexivity.
Qed.

Ltac solve_uint64 :=
  first
    [ assumption
    | apply add64_uint64
    | apply sub64_uint64
    | apply rotr_uint64; solve_uint64
    | apply rotl_gjrand_uint64; solve_uint64
    | apply lxor_uint64; solve_uint64 ].

Lemma gjrand_step_unstep w : words_wf w -> gjrand_step (gjrand_unstep w) = w.
Proof.
  intros (a & b & c & d & -> & Ha & Hb & Hc & Hd)%words_wf_four.
  unfold gjrand_unstep. cbn [lookup_total list_lookup_total].
  unfold gjrand_step. rewrite gjrand_next_words. cbv zeta. cbn [snd].
  repeat first
    [ rewrite add_sub64 by solve_uint64
    | rewrite xor_xor64
    | rewrite rotl_rotr by first [lia | solve_uint64] ].
  reflexivity.
Qed.

Lemma jsf64_step_unstep w : words_wf w -> jsf64_step (jsf64_unstep w) = w.
Proof.
  intros (a & b & c & d & -> & Ha & Hb & Hc & Hd)%words_wf_four.
  unfold jsf64_unstep. cbn [lookup_total list_lookup_total].
  unfold jsf64_step. rewrite jsf64_next_words. cbv zeta. cbn [snd].
  rewrite sub_add64 by solve_uint64.
  repeat first [ rewrite add_sub64 by solve_uint64 | rewrite xor_xor64 ].
  reflexivity.
Qed.

Lemma gjrand_unstep_wf w : words_wf w -> words_wf (gjrand_unstep w).
Proof.
  intros (a & b & c & d & -> & Ha & Hb & Hc & Hd)%words_wf_four.
  unfold gjrand_unstep. cbn [lookup_total list_lookup_total].
  apply four_words_wf; solve_uint64.
Qed.

Lemma jsf64_unstep_wf w : words_wf w -> words_wf (jsf64_unstep w).
Proof.
  intros (a & b & c & d & -> & Ha & Hb & Hc & Hd)%words_wf_four.
  unfold jsf64_unstep. cbn [lookup_total list_lookup_total].
  apply four_words_wf; first [solve_uint64 | by rewrite rotl_same; solve_uint64].
Qed.

(** X3.  The GJrand transition is a permutation of the well-typed states:
    it keeps the four words within 64 bits, the backward run of its eleven
    statements undoes it and is undone by it, so two different states never
    step to the same state. *)
Theorem gjrand_transition_is_permutation w :
  words_wf w ->
  words_wf (gjrand_step w)
  /\ gjrand_unstep (gjrand_step w) = w
  /\ words_wf (gjrand_unstep w)
  /\ gjrand_step (gjrand_unstep w) = w
  /\ (forall w', words_wf w' -> gjrand_step w = gjrand_step w' -> w = w').
Proof.
  intros Hw. split; [apply gjrand_step_wf, Hw|].
  split; [by apply gjrand_unstep_step|].
  split; [by apply gjrand_unstep_wf|].
  split; [by apply gjrand_step_unstep|].
  intros w' Hw' Heq.
  rewrite <- (gjrand_unstep_step w Hw), <- (gjrand_unstep_step w' Hw').
  by rewrite Heq.
Qed.

Lemma gjrand_transition_is_permutation_witness :
  gjrand_unstep (gjrand_step [1; 2; 3; 4]) = [1; 2; 3; 4].
Proof.
  refine (proj1 (proj2 (gjrand_transition_is_permutation [1; 2; 3; 4] _))).
  compute_done.
Defined.

(** X4.  The JSF64 transition is a permutation of the well-typed states in
    the same sense. *)
Theorem jsf64_transition_is_permutation w :
  words_wf w ->
  words_wf (jsf64_step w)
  /\ jsf64_unstep (jsf64_step w) = w
  /\ words_wf (jsf64_unstep w)
  /\ jsf64_step (jsf64_unstep w) = w
  /\ (forall w', words_wf w' -> jsf64_step w = jsf64_step w' -> w = w').
Proof.
  intros Hw. split; [by apply jsf64_step_wf|].
  split; [by apply jsf64_unstep_step|].
  split; [by apply jsf64_unstep_wf|].
  split; [by apply jsf64_step_unstep|].
  intros w' Hw' Heq.
  rewrite <- (jsf64_unstep_step w Hw), <- (jsf64_unstep_step w' Hw').
  by rewrite Heq.
Qed.

Lemma jsf64_transition_is_permutation_witness :
  jsf64_unstep (jsf64_step [1; 2; 3; 4]) = [1; 2; 3; 4].
Proof.
  refine (proj1 (proj2 (jsf64_transition_is_permutation [1; 2; 3; 4] _))).
  compute_done.
Defined.

Lemma iter_gjrand_step_wf n w :
  words_wf w -> words_wf (Nat.iter n gjrand_step w).
Proof.
  intros Hw. induction n as [|n IH]; [exact Hw|].
  rewrite Nat.iter_succ. apply gjrand_step_wf, IH.
Qed.

Lemma iter_gjrand_step_inj n w w' :
  words_wf w -> words_wf w' ->
  Nat.iter n gjrand_step w = Nat.iter n gjrand_step w' -> w = w'.
Proof.
  intros Hw Hw'. induction n as [|n IH]; [done|].
  rewrite !Nat.iter_succ. intros Heq. apply IH.
  rewrite <- (gjrand_unstep_step _ (iter_gjrand_step_wf n w Hw)).
  rewrite <- (gjrand_unstep_step _ (iter_gjrand_step_wf n w' Hw')).
  by rewrite Heq.
Qed.

Lemma iter_jsf64_step_inj n w w' :
  words_wf w -> words_wf w' ->
  Nat.iter n jsf64_step w = Nat.iter n jsf64_step w' -> w = w'.
Proof.
  intros Hw Hw'. induction n as [|n IH]; [done|].
  rewrite !Nat.iter_succ. intros Heq. apply IH.
  rewrite <- (jsf64_unstep_step _ (iter_jsf64_step_wf n w Hw)).
  rewrite <- (jsf64_unstep_step _ (iter_jsf64_step_wf n w' Hw')).
  by rewrite Heq.
Qed.

(** X5.  Seeding loses nothing of the entropy: two seedings of GJrand that
    leave the same four words were given the same two entropy words, and
    two seedings of JSF64 the same three, whatever the states seeded
    over. *)
Theorem seeding_is_injective :
  (forall st st' seed seed',
     length (gjrand.s st) = 4%nat -> length (gjrand.s st') = 4%nat ->
     is_uint64 seed.[0] -> is_uint64 seed.[1] ->
     is_uint64 seed'.[0] -> is_uint64 seed'.[1] ->
     gjrand.s (gjrand.gjrand_set_seed st seed) =
       gjrand.s (gjrand.gjrand_set_seed st' seed') ->
     seed.[0] = seed'.[0] /\ seed.[1] = seed'.[1])
  /\ (forall st st' seed seed',
     length (jsf64.s st) = 4%nat -> length (jsf64.s st') = 4%nat ->
     is_uint64 seed.[0] -> is_uint64 seed.[1] -> is_uint64 seed.[2] ->
     is_uint64 seed'.[0] -> is_uint64 seed'.[1] -> is_uint64 seed'.[2] ->
     jsf64.s (jsf64.jsf64_set_seed st seed) =
       jsf64.s (jsf64.jsf64_set_seed st' seed') ->
     seed.[0] = seed'.[0] /\ seed.[1] = seed'.[1] /\ seed.[2] = seed'.[2]).
Proof.
  split.
  - intros st st' seed seed' Hlen Hlen' H0 H1 H0' H1'.
    rewrite !gjrand_set_seed_words by done. cbn [gjrand.s].
    intros Heq%iter_gjrand_step_inj.
    + by injection Heq.
    + apply four_words_wf; first [assumption | unfold is_uint64; lia].
    + apply four_words_wf; first [assumption | unfold is_uint64; lia].
  - intros st st' seed seed' Hlen Hlen' H0 H1 H2 H0' H1' H2'.
    rewrite !jsf64_set_seed_words by done. cbn [jsf64.s].
    intros Heq%iter_jsf64_step_inj.
    + by injection Heq.
    + apply four_words_wf; first [assumption | unfold is_uint64; lia].
    + apply four_words_wf; first [assumption | unfold is_uint64; lia].
Qed.

Lemma seeding_is_injective_witness :
  [1; 2].[0] = [1; 2].[0] /\ [1; 2].[1] = [1; 2].[1].
Proof.
  refine (proj1 seeding_is_injective (gjrand.mk_state [0; 0; 0; 0] 0 0)
            (gjrand.mk_state [9; 9; 9; 9] 1 5) [1; 2] [1; 2] eq_refl eq_refl
            _ _ _ _ _); [compute_done..|vm_compute; reflexivity].
Defined.

(** ** The counter of GJrand *)

Lemma odd_constant_coprime : Z.gcd (2 ^ 64) 0x55aa96a5 = 1.
Proof. reflexivity. Qed.

(** X6.  GJrand never returns to a state within [2^64] transitions: from
    any well-typed words, the states reached after [m] and after [n]
    transitions differ whenever [0 < n - m < 2^64], because [s[3]] has moved
    by [n - m] times an odd constant modulo [2^64]. *)
Theorem gjrand_minimum_cycle w (m n : nat) :
  words_wf w -> (m < n)%nat -> Z.of_nat n - Z.of_nat m < 2 ^ 64 ->
  Nat.iter m gjrand_step w <> Nat.iter n gjrand_step w.
Proof.
  intros (a & b & c & d & -> & Ha & Hb & Hc & Hd)%words_wf_four Hmn Hlt Heq.
  destruct (gjrand_counter m a b c d Hd) as (a1 & b1 & c1 & Hm).
  destruct (gjrand_counter n a b c d Hd) as (a2 & b2 & c2 & Hn).
  rewrite Hm, Hn in Heq. injection Heq as _ _ _ Hcount.
  unfold to_uint64 in Hcount.
  assert (Hdiv : (2 ^ 64 | 0x55aa96a5 * (Z.of_nat n - Z.of_nat m))).
  { apply Z.mod_divide; [lia|].
    replace (0x55aa96a5 * (Z.of_nat n - Z.of_nat m))
      with ((d + Z.of_nat n * 0x55aa96a5) - (d + Z.of_nat m * 0x55aa96a5))
      by lia.
    rewrite Zminus_mod, <- Hcount, Z.sub_diag. reflexivity. }
  apply Z.gauss in Hdiv; [|exact odd_constant_coprime].
  apply Z.divide_pos_le in Hdiv; lia.
Qed.

Lemma gjrand_minimum_cycle_witness :
  Nat.iter 0 gjrand_step [1; 2; 3; 4] <> Nat.iter 5 gjrand_step [1; 2; 3; 4].
Proof.
  refine (gjrand_minimum_cycle [1; 2; 3; 4] 0 5 _ _ _);
    [compute_done|lia|lia].
Defined.

(** ** The 32-bit stream is the 64-bit stream cut in halves *)

Lemma splitter_spec_pairs (T : list Z -> Z * list Z) n : forall w,
  repeat_draw (splitter_spec T) (2 * n) (None, w) =
  (x ← fst (repeat_draw T n w); [low32 x; high32 x],
   (None, snd (repeat_draw T n w))).
Proof.
  induction n as [|n IH]; intros w; [reflexivity|].
  replace (2 * S n)%nat with (S (S (2 * n))) by lia.
  cbn [repeat_draw splitter_spec].
  destruct (T w) as [x w1]. cbn [splitter_spec]. rewrite IH.
  by destruct (repeat_draw T n w1) as [rs w2].
Qed.

Lemma gjrand_repeat_next64 n : forall st,
  repeat_draw gjrand.gjrand_next64 n st =
  (fst (repeat_draw gjrand.gjrand_next n (gjrand.s st)),
   gjrand.mk_state (snd (repeat_draw gjrand.gjrand_next n (gjrand.s st)))
     (gjrand.has_uint32 st) (gjrand.uinteger st)).
Proof.
  induction n as [|n IH]; intros [w h u]; [reflexivity|].
  cbn [repeat_draw gjrand.s gjrand.has_uint32 gjrand.uinteger].
  unfold gjrand.gjrand_next64 at 1. cbn [gjrand.s gjrand.has_uint32 gjrand.uinteger].
  destruct (gjrand.gjrand_next w) as [x w1]. rewrite IH.
  cbn [gjrand.s gjrand.has_uint32 gjrand.uinteger].
  by destruct (repeat_draw gjrand.gjrand_next n w1) as [rs w2].
Qed.

Lemma jsf64_repeat_next64 n : forall st,
  repeat_draw jsf64.jsf64_next64 n st =
  (fst (repeat_draw jsf64.jsf64_next n (jsf64.s st)),
   jsf64.mk_state (snd (repeat_draw jsf64.jsf64_next n (jsf64.s st)))
     (jsf64.has_uint32 st) (jsf64.uinteger st)).
Proof.
  induction n as [|n IH]; intros [w h u]; [reflexivity|].
  cbn [repeat_draw jsf64.s jsf64.has_uint32 jsf64.uinteger].
  unfold jsf64.jsf64_next64 at 1. cbn [jsf64.s jsf64.has_uint32 jsf64.uinteger].
  destruct (jsf64.jsf64_next w) as [x w1]. rewrite IH.
  cbn [jsf64.s jsf64.has_uint32 jsf64.uinteger].
  by destruct (repeat_draw jsf64.jsf64_next n w1) as [rs w2].
Qed.

Lemma cache_empty_flag h (u : Z) (w w' : list Z) :
  ((if h =? 0 then None else Some u), w) = (None, w') -> h = 0 /\ w = w'.
Proof.
  destruct (Z.eqb_spec h 0) as [->|Hne]; [by intros [= <-]|discriminate].
Qed.

(** X7.  From an empty cache, [2 * n] calls of [next_uint32] give, in
    order, the low and the high half of each of the [n] values that [n]
    calls of [next_uint64] give from the same state, and they leave the
    same words and the cache empty again. *)
Theorem next32_stream_is_next64_halves :
  (forall st n,
     length (gjrand.s st) = 4%nat -> gjrand.has_uint32 st = 0 ->
     fst (repeat_draw gjrand.gjrand_next32 (2 * n) st) =
       (x ← fst (repeat_draw gjrand.gjrand_next64 n st); [low32 x; high32 x])
     /\ gjrand.s (snd (repeat_draw gjrand.gjrand_next32 (2 * n) st)) =
        gjrand.s (snd (repeat_draw gjrand.gjrand_next64 n st))
     /\ gjrand.has_uint32 (snd (repeat_draw gjrand.gjrand_next32 (2 * n) st)) = 0)
  /\ (forall st n,
     length (jsf64.s st) = 4%nat -> jsf64.has_uint32 st = 0 ->
     fst (repeat_draw jsf64.jsf64_next32 (2 * n) st) =
       (x ← fst (repeat_draw jsf64.jsf64_next64 n st); [low32 x; high32 x])
     /\ jsf64.s (snd (repeat_draw jsf64.jsf64_next32 (2 * n) st)) =
        jsf64.s (snd (repeat_draw jsf64.jsf64_next64 n st))
     /\ jsf64.has_uint32 (snd (repeat_draw jsf64.jsf64_next32 (2 * n) st)) = 0).
Proof.
  split; intros st n Hlen Hflag.
  - destruct (repeat_draw_refines gjrand.gjrand_next32 gjrand_cache
                gjrand.gjrand_next gjrand_next_length gjrand_next32_refines
                (2 * n) st Hlen) as [Hout Hsim].
    assert (Hcache : gjrand_cache st = (None, gjrand.s st))
      by (unfold gjrand_cache; by rewrite Hflag).
    rewrite Hcache, splitter_spec_pairs in Hout, Hsim. cbn [fst snd] in *.
    rewrite gjrand_repeat_next64. cbn [fst snd gjrand.s].
    split; [exact Hout|].
    apply cache_empty_flag in Hsim. destruct Hsim as [Hz Hw]. by split.
  - destruct (repeat_draw_refines jsf64.jsf64_next32 jsf64_cache
                jsf64.jsf64_next jsf64_next_length jsf64_next32_refines
                (2 * n) st Hlen) as [Hout Hsim].
    assert (Hcache : jsf64_cache st = (None, jsf64.s st))
      by (unfold jsf64_cache; by rewrite Hflag).
    rewrite Hcache, splitter_spec_pairs in Hout, Hsim. cbn [fst snd] in *.
    rewrite jsf64_repeat_next64. cbn [fst snd jsf64.s].
    split; [exact Hout|].
    apply cache_empty_flag in Hsim. destruct Hsim as [Hz Hw]. by split.
Qed.

Lemma next32_stream_is_next64_halves_witness :
  fst (repeat_draw gjrand.gjrand_next32 (2 * 3)
         (gjrand.mk_state [1; 2; 3; 4] 0 0)) =
  (x ← fst (repeat_draw gjrand.gjrand_next64 3
              (gjrand.mk_state [1; 2; 3; 4] 0 0)); [low32 x; high32 x]).
Proof.
  exact (proj1 (proj1 next32_stream_is_next64_halves
           (gjrand.mk_state [1; 2; 3; 4] 0 0) 3%nat eq_refl eq_refl)).
Defined.

(** ** Draws keep the C types *)

Lemma gjrand_next64_wf st :
  gjrand_wf st ->
  is_uint64 (fst (gjrand.gjrand_next64 st))
  /\ gjrand_wf (snd (gjrand.gjrand_next64 st)).
Proof.
  intros ([Hlen Hw] & Hh & Hu). unfold gjrand.gjrand_next64.
  pose proof (gjrand_next_uint64 _ Hlen) as Hx.
  pose proof (gjrand_step_wf _ Hlen) as Hw1. unfold gjrand_step in Hw1.
  destruct (gjrand.gjrand_next (gjrand.s st)) as [x w1]. cbn [fst snd] in *.
  split; [exact Hx|]. split; [exact Hw1|]. split; assumption.
Qed.

Lemma gjrand_next32_wf st :
  gjrand_wf st ->
  is_uint32 (fst (gjrand.gjrand_next32 st))
  /\ gjrand_wf (snd (gjrand.gjrand_next32 st)).
Proof.
  intros ([Hlen Hw] & Hh & Hu). unfold gjrand.gjrand_next32.
  destruct (negb (gjrand.has_uint32 st =? 0)).
  - unfold gjrand_wf. cbn [fst snd gjrand.s gjrand.has_uint32 gjrand.uinteger].
    split; [exact Hu|].
    split; [by split|]. split; [unfold is_int; lia|exact Hu].
  - pose proof (gjrand_step_wf _ Hlen) as Hw1. unfold gjrand_step in Hw1.
    destruct (gjrand.gjrand_next (gjrand.s st)) as [x w1]. cbn [fst snd] in *.
    unfold gjrand_wf. cbn [gjrand.s gjrand.has_uint32 gjrand.uinteger].
    split; [apply to_uint32_range|].
    split; [exact Hw1|]. split; [unfold is_int; lia|apply to_uint32_range].
Qed.

Lemma jsf64_next64_wf st :
  jsf64_wf st ->
  is_uint64 (fst (jsf64.jsf64_next64 st))
  /\ jsf64_wf (snd (jsf64.jsf64_next64 st)).
Proof.
  intros (Hw & Hh & Hu). unfold jsf64.jsf64_next64.
  pose proof (jsf64_next_uint64 _ (proj1 Hw)) as Hx.
  pose proof (jsf64_step_wf _ Hw) as Hw1. unfold jsf64_step in Hw1.
  destruct (jsf64.jsf64_next (jsf64.s st)) as [x w1]. cbn [fst snd] in *.
  split; [exact Hx|]. split; [exact Hw1|]. split; assumption.
Qed.

Lemma jsf64_next32_wf st :
  jsf64_wf st ->
  is_uint32 (fst (jsf64.jsf64_next32 st))
  /\ jsf64_wf (snd (jsf64.jsf64_next32 st)).
Proof.
  intros (Hw & Hh & Hu). unfold jsf64.jsf64_next32.
  destruct (negb (jsf64.has_uint32 st =? 0)).
  - unfold jsf64_wf. cbn [fst snd jsf64.s jsf64.has_uint32 jsf64.uinteger].
    split; [exact Hu|].
    split; [exact Hw|]. split; [unfold is_int; lia|exact Hu].
  - pose proof (jsf64_step_wf _ Hw) as Hw1. unfold jsf64_step in Hw1.
    destruct (jsf64.jsf64_next (jsf64.s st)) as [x w1]. cbn [fst snd] in *.
    unfold jsf64_wf. cbn [jsf64.s jsf64.has_uint32 jsf64.uinteger].
    split; [apply to_uint32_range|].
    split; [exact Hw1|]. split; [unfold is_int; lia|apply to_uint32_range].
Qed.

(** X8.  Through the table of a GJrand or JSF64 object, any sequence of
    draws from a well-typed state returns values of the C type of their
    slot (32 bits for [next_uint32], 64 bits for [next_uint64] and
    [next_raw]) and leaves a well-typed state: four 64-bit words, a
    32-bit cached half and a flag that fits an [int]. *)
Theorem draws_keep_types :
  (forall val ops st,
     gjrand_wf st ->
     let bitgen := GJrand._bitgen (GJrand.__init__ val GJrand.__new__) in
     Forall2 drawn_in_range ops (fst (draws bitgen ops st))
     /\ gjrand_wf (snd (draws bitgen ops st)))
  /\ (forall val ops st,
     jsf64_wf st ->
     let bitgen := JSF64._bitgen (JSF64.__init__ val JSF64.__new__) in
     Forall2 drawn_in_range ops (fst (draws bitgen ops st))
     /\ jsf64_wf (snd (draws bitgen ops st))).
Proof.
  split; intros val ops; induction ops as [|op ops IH]; intros st Hwf bitgen;
    try (split; [constructor|exact Hwf]).
  - cbn [draws].
    assert (Hstep : drawn_in_range op (fst (draw1 bitgen op st))
                    /\ gjrand_wf (snd (draw1 bitgen op st))).
    { destruct (gjrand_next64_wf st Hwf) as [H64 Hwf64].
      destruct (gjrand_next32_wf st Hwf) as [H32 Hwf32].
      destruct op; unfold draw1, bitgen;
        cbn [GJrand.__init__ GJrand._reset_state_variables GJrand._bitgen
             next_uint64 next_uint32 next_double next_raw];
        unfold GJrand.gjrand_uint64, GJrand.gjrand_uint32, GJrand.gjrand_double.
      - by destruct (gjrand.gjrand_next64 st).
      - by destruct (gjrand.gjrand_next32 st).
      - by destruct (gjrand.gjrand_next64 st).
      - by destruct (gjrand.gjrand_next64 st). }
    destruct (draw1 bitgen op st) as [r st1]. destruct Hstep as [Hr Hwf1].
    destruct (IH st1 Hwf1) as [Hrs Hwf2]. fold bitgen in Hrs, Hwf2.
    destruct (draws bitgen ops st1) as [rs st2].
    split; [by constructor|exact Hwf2].
  - cbn [draws].
    assert (Hstep : drawn_in_range op (fst (draw1 bitgen op st))
                    /\ jsf64_wf (snd (draw1 bitgen op st))).
    { destruct (jsf64_next64_wf st Hwf) as [H64 Hwf64].
      destruct (jsf64_next32_wf st Hwf) as [H32 Hwf32].
      destruct op; unfold draw1, bitgen;
        cbn [JSF64.__init__ JSF64._reset_state_variables JSF64._bitgen
             next_uint64 next_uint32 next_double next_raw];
        unfold JSF64.jsf64_uint64, JSF64.jsf64_uint32, JSF64.jsf64_double.
      - by destruct (jsf64.jsf64_next64 st).
      - by destruct (jsf64.jsf64_next32 st).
      - by destruct (jsf64.jsf64_next64 st).
      - by destruct (jsf64.jsf64_next64 st). }
    destruct (draw1 bitgen op st) as [r st1]. destruct Hstep as [Hr Hwf1].
    destruct (IH st1 Hwf1) as [Hrs Hwf2]. fold bitgen in Hrs, Hwf2.
    destruct (draws bitgen ops st1) as [rs st2].
    split; [by constructor|exact Hwf2].
Qed.

Lemma draws_keep_types_witness :
  gjrand_wf
    (snd (draws (GJrand._bitgen (GJrand.__init__ [1; 2] GJrand.__new__))
            [Uint32; Uint64; Double; Raw; Uint32]
            (gjrand.mk_state [1; 2; 3; 4] 0 0))).
Proof.
  refine (proj2 (proj1 draws_keep_types [1; 2]
            [Uint32; Uint64; Double; Raw; Uint32]
            (gjrand.mk_state [1; 2; 3; 4] 0 0) _)).
  compute_done.
Defined.

(** ** Restoring into another object *)

(** X9.  For GJrand, JSF64 and PCG32, a blob with well-typed contents
    restored into any object of the class is what reading [state] of that
    object returns afterwards; and the blob read from an object [a],
    restored into an object [b], leaves [b] with the engine state of [a]
    and its own table. *)
Theorem restore_then_state :
  (forall w h u b,
     gjrand_wf (gjrand.mk_state w h u) ->
     length (gjrand.s (GJrand.rng_state b)) = 4%nat ->
     let b' := GJrand.mk (gjrand.mk_state w h u) (GJrand._bitgen b) in
     GJrand.state_setter (words_blob GJrand.__name__ w h u) b = (b', Ok tt)
     /\ GJrand.state b' = (b', Ok (words_blob GJrand.__name__ w h u)))
  /\ (forall a b,
     gjrand_wf (GJrand.rng_state a) ->
     length (gjrand.s (GJrand.rng_state b)) = 4%nat ->
     (value ← GJrand.state; call (GJrand.state_setter value) b) a =
     (a, Ok (GJrand.mk (GJrand.rng_state a) (GJrand._bitgen b), tt)))
  /\ (forall w h u b,
     jsf64_wf (jsf64.mk_state w h u) ->
     length (jsf64.s (JSF64.rng_state b)) = 4%nat ->
     let b' := JSF64.mk (jsf64.mk_state w h u) (JSF64._bitgen b) in
     JSF64.state_setter (words_blob JSF64.__name__ w h u) b = (b', Ok tt)
     /\ JSF64.state b' = (b', Ok (words_blob JSF64.__name__ w h u)))
  /\ (forall a b,
     jsf64_wf (JSF64.rng_state a) ->
     length (jsf64.s (JSF64.rng_state b)) = 4%nat ->
     (value ← JSF64.state; call (JSF64.state_setter value) b) a =
     (a, Ok (JSF64.mk (JSF64.rng_state a) (JSF64._bitgen b), tt)))
  /\ (forall x i b,
     is_uint64 x -> is_uint64 i ->
     let b' :=
       PCG32.mk (pcg32.mk_state (pcg32.mk_random x i)) (PCG32._bitgen b) in
     PCG32.state_setter (PCG32_blob x i) b = (b', Ok tt)
     /\ PCG32.state b' = (b', Ok (PCG32_blob x i)))
  /\ (forall a b,
     pcg32_wf (PCG32.rng_state a) ->
     (value ← PCG32.state; call (PCG32.state_setter value) b) a =
     (a, Ok (PCG32.mk (PCG32.rng_state a) (PCG32._bitgen b), tt))).
Proof.
  split; [|split; [|split; [|split; [|split]]]].
  - intros w h u b Hwf Hb b'. split; [by apply GJrand_restore|].
    rewrite GJrand_state_blob; [reflexivity|apply Hwf].
  - intros a b Hwf Hb. unfold mbind, method_bind, call.
    rewrite GJrand_state_blob by apply Hwf.
    destruct a as [[w h u] tbl]. cbn [GJrand.rng_state] in *.
    by rewrite GJrand_restore.
  - intros w h u b Hwf Hb b'. split; [by apply JSF64_restore|].
    rewrite JSF64_state_blob; [reflexivity|apply Hwf].
  - intros a b Hwf Hb. unfold mbind, method_bind, call.
    rewrite JSF64_state_blob by apply Hwf.
    destruct a as [[w h u] tbl]. cbn [JSF64.rng_state] in *.
    by rewrite JSF64_restore.
  - intros x i b Hx Hi b'. split; [by apply PCG32_restore|reflexivity].
  - intros a b [Hx Hi]. unfold mbind, method_bind, call.
    rewrite PCG32_state_blob, PCG32_restore by done.
    by destruct a as [[[x i]] tbl].
Qed.

Lemma restore_then_state_witness :
  GJrand.state_setter (words_blob GJrand.__name__ [1; 2; 3; 4] 5 6)
    GJrand.__new__ =
  (GJrand.mk (gjrand.mk_state [1; 2; 3; 4] 5 6) null_bitgen, Ok tt).
Proof.
  refine (proj1 (proj1 restore_then_state [1; 2; 3; 4] 5 6 GJrand.__new__
            _ eq_refl)).
  compute_done.
Defined.

(** ** What the DSFMT state property leaves out *)

Lemma keeps_lift {Self A} (P : Self -> Prop) (r : result A) : keeps P (lift r).
Proof. by intros self HP. Qed.

Lemma keeps_raise {Self A} (P : Self -> Prop) e : keeps P (@raise Self A e).
Proof. by intros self HP. Qed.

Lemma keeps_ret {Self A} (P : Self -> Prop) (a : A) :
  keeps P (mret a : method Self A).
Proof. by intros self HP. Qed.

Lemma keeps_modify {Self} (P : Self -> Prop) (f : Self -> Self) :
  (forall self, P self -> P (f self)) -> keeps P (modify f).
Proof. intros Hf self HP. by apply Hf. Qed.

Lemma keeps_bind {Self A B} (P : Self -> Prop) (m : method Self A)
    (f : A -> method Self B) :
  keeps P m -> (forall a, keeps P (f a)) -> keeps P (m ≫= f).
Proof.
  intros Hm Hf self HP. specialize (Hm self HP).
  unfold mbind, method_bind. destruct (m self) as [self1 [a|e]]; [|exact Hm].
  by apply Hf.
Qed.

Lemma keeps_for_each {Self A} (P : Self -> Prop) (l : list nat)
    (body : nat -> A -> method Self A) :
  (forall i acc, keeps P (body i acc)) -> forall acc, keeps P (for_each l body acc).
Proof.
  intros Hbody. induction l as [|i l IH]; intros acc.
  - apply keeps_ret.
  - cbn [for_each]. by apply keeps_bind.
Qed.

Lemma DSFMT_setter_keeps value h u tbl :
  keeps (fun self =>
           dSFMT.has_uint32 (DSFMT.rng_state self) = h
           /\ dSFMT.uinteger (DSFMT.rng_state self) = u
           /\ DSFMT._bitgen self = tbl)
    (DSFMT.state_setter value).
Proof.
  unfold DSFMT.state_setter.
  destruct (negb (isinstance_dict value)); [apply keeps_raise|].
  destruct (ne_str _ _); [apply keeps_raise|].
  apply keeps_bind; [apply keeps_lift|intros state].
  apply keeps_bind.
  { apply keeps_for_each. intros i loc. apply keeps_for_each. intros j loc'.
    apply keeps_bind; [apply keeps_lift|intros x].
    apply keeps_bind; [|intros _; apply keeps_ret].
    apply keeps_modify. by intros [[]]. }
  intros _. apply keeps_bind; [apply keeps_lift|intros x].
  apply keeps_bind; [apply keeps_modify; by intros [[]]|intros _].
  apply keeps_bind; [apply keeps_lift|intros buffered].
  apply keeps_bind.
  { apply keeps_for_each. intros i [].
    apply keeps_bind; [apply keeps_lift|intros y].
    apply keeps_modify. by intros [[]]. }
  intros _. apply keeps_bind; [apply keeps_lift|intros y].
  apply keeps_modify. by intros [[]].
Qed.

(** X10.  The [state] property of DSFMT carries neither [has_uint32] nor
    [uinteger]: the blob read does not depend on them, and assigning to
    [state], whether it returns or raises and whatever the blob, leaves
    both fields and the function table of the object as they were. *)
Theorem DSFMT_state_leaves_out_the_32_bit_cache :
  (forall d h u b l h' u' tbl tbl',
     snd (DSFMT.state (DSFMT.mk (dSFMT.mk_state d h u b l) tbl)) =
     snd (DSFMT.state (DSFMT.mk (dSFMT.mk_state d h' u' b l) tbl')))
  /\ (forall value self,
     dSFMT.has_uint32 (DSFMT.rng_state (fst (DSFMT.state_setter value self)))
       = dSFMT.has_uint32 (DSFMT.rng_state self)
     /\ dSFMT.uinteger (DSFMT.rng_state (fst (DSFMT.state_setter value self)))
        = dSFMT.uinteger (DSFMT.rng_state self)
     /\ DSFMT._bitgen (fst (DSFMT.state_setter value self))
        = DSFMT._bitgen self).
Proof.
  split.
  - intros d h u b l h' u' tbl tbl'. by rewrite !DSFMT_state_blob.
  - intros value self. by apply DSFMT_setter_keeps.
Qed.

(** ** Restores that raise half-way *)

Lemma bind_raise {A B} e (f : A -> result B) : (Raise e ≫= f) = Raise e.
Proof. reflexivity. Qed.

Lemma as_c_integer_overflow lo hi n :
  ~ (lo <= n < hi) -> as_c_integer lo hi (PyInt n) = Raise OverflowError.
Proof. intros Hn. unfold as_c_integer. by rewrite decide_False. Qed.

(** X11.  Assigning to [state] of PCG32 is not all-or-nothing: with the
    right tag and a valid ['state']['state'], the LCG value is assigned
    before ['state']['inc'] is looked at, so a missing ['inc'] raises
    [KeyError] and one outside 64 bits [OverflowError] with the LCG value
    already replaced and the increment as it was.  When ['state']['state']
    itself is missing, nothing is assigned. *)
Theorem PCG32_restore_is_not_atomic (d inner : gmap string pyobj) self :
  d !! "bit_generator" = Some (PyStr PCG32.__name__) ->
  d !! "state" = Some (PyDict inner) ->
  (forall x,
     inner !! "state" = Some (PyInt x) -> is_uint64 x ->
     (inner !! "inc" = None ->
      PCG32.state_setter (PyDict d) self =
        (PCG32.set_state_field x self, Raise KeyError))
     /\ (forall i,
         inner !! "inc" = Some (PyInt i) -> ~ is_uint64 i ->
         PCG32.state_setter (PyDict d) self =
           (PCG32.set_state_field x self, Raise OverflowError)))
  /\ (inner !! "state" = None ->
      PCG32.state_setter (PyDict d) self = (self, Raise KeyError)).
Proof.
  intros Htag Hstate.
  assert (Hhead : forall k : method PCG32.t unit,
    (if negb (isinstance_dict (PyDict d)) then raise TypeError else
     if ne_str (dict_get (PyDict d) "bit_generator" (PyStr EmptyString))
          PCG32.__name__
     then raise ValueError else k) = k).
  { intros k. cbn [isinstance_dict negb dict_get]. rewrite Htag.
    reflexivity. }
  unfold PCG32.state_setter. rewrite Hhead.
  unfold getitem. rewrite Hstate, !bind_ok.
  split.
  - intros x Hx Hrange. rewrite Hx, bind_ok, as_uint64_ok by exact Hrange.
    split.
    + intros ->. rewrite bind_lift_ok, bind_modify.
      cbv iota. by rewrite bind_raise, bind_lift_raise.
    + intros i -> Hi. rewrite bind_lift_ok, bind_modify, bind_ok.
      unfold as_uint64. rewrite as_c_integer_overflow by exact Hi.
      by rewrite bind_lift_raise.
  - intros ->. cbv iota. by rewrite bind_raise, bind_lift_raise.
Qed.

Lemma PCG32_restore_is_not_atomic_witness :
  PCG32.state_setter
    (PyDict (<["bit_generator" := PyStr "PCG32"]>
             {["state" := PyDict {["state" := PyInt 7]}]}))
    PCG32.__new__
  = (PCG32.set_state_field 7 PCG32.__new__, Raise KeyError).
Proof.
  refine (proj1 (proj1 (PCG32_restore_is_not_atomic
            (<["bit_generator" := PyStr "PCG32"]>
             {["state" := PyDict {["state" := PyInt 7]}]})
            {["state" := PyInt 7]} PCG32.__new__ eq_refl eq_refl)
            7 eq_refl _) eq_refl).
  compute_done.
Defined.

Lemma read_word_out_of_range (words : list Z) k :
  (length words <= k)%nat ->
  (v ← getitem_int (PyList (PyInt <$> words)) k; as_uint64 v) = Raise IndexError.
Proof.
  intros Hk. unfold getitem_int.
  rewrite list_lookup_fmap, (lookup_ge_None_2 words k Hk). reflexivity.
Qed.

Lemma read_double_out_of_range (buffered : list double) k :
  (length buffered <= k)%nat ->
  (v ← getitem_int (PyList (PyFloat <$> buffered)) k; as_double v) =
  Raise IndexError.
Proof.
  intros Hk. unfold getitem_int.
  rewrite list_lookup_fmap, (lookup_ge_None_2 buffered k Hk). reflexivity.
Qed.

Lemma seq_split_at n q :
  (q < n)%nat -> seq 0 n = seq 0 q ++ q :: seq (S q) (n - S q).
Proof.
  intros Hq. replace n with (q + S (n - S q))%nat at 1 by lia.
  by rewrite seq_app.
Qed.

Lemma half_double k : ((2 * k) / 2 = k /\ (2 * k) mod 2 = 0
                       /\ S (2 * k) / 2 = k /\ S (2 * k) mod 2 = 1)%nat.
Proof.
  repeat split.
  - symmetry. apply (Nat.div_unique _ 2 k 0); lia.
  - symmetry. apply (Nat.mod_unique _ 2 k 0); lia.
  - symmetry. apply (Nat.div_unique _ 2 k 1); lia.
  - symmetry. apply (Nat.mod_unique _ 2 k 1); lia.
Qed.

Lemma status_pairs_flat (words : list Z) n self :
  for_range n (fun i self =>
    DSFMT.set_status_u i 1 words.[2 * i + 1]
      (DSFMT.set_status_u i 0 words.[2 * i] self)) self
  = for_range (2 * n) (DSFMT_store_word words) self.
Proof.
  induction n as [|n IH]; [reflexivity|].
  replace (2 * S n)%nat with (S (S (2 * n))) by lia.
  rewrite !for_range_S, IH. unfold DSFMT_store_word.
  destruct (half_double n) as (-> & -> & -> & ->).
  by replace (2 * n + 1)%nat with (S (2 * n)) by lia.
Qed.

Lemma status_loop_short (words : list Z) self :
  (length words < 2 * DSFMT.DSFMT_N_PLUS_1)%nat -> Forall is_uint64 words ->
  for_each (seq 0 DSFMT.DSFMT_N_PLUS_1) (fun i =>
    for_each (seq 0 2) (fun j loc =>
      x ← lift (v ← getitem_int (PyList (PyInt <$> words)) loc; as_uint64 v);
      _ ← modify (DSFMT.set_status_u i j x);
      mret (S loc)))
    0%nat self
  = (for_range (length words) (DSFMT_store_word words) self, Raise IndexError).
Proof.
  intros Hlen Hw. set (q := (length words / 2)%nat).
  assert (Hq : (2 * q <= length words < 2 * q + 2)%nat).
  { pose proof (Nat.div_mod_eq (length words) 2).
    pose proof (Nat.mod_upper_bound (length words) 2). subst q. lia. }
  rewrite (seq_split_at DSFMT.DSFMT_N_PLUS_1 q) by lia.
  rewrite for_each_app, status_loop by (done || lia).
  rewrite status_pairs_flat. cbn [for_each].
  change (seq 0 2) with [0%nat; 1%nat]. cbn [for_each].
  destruct (decide (length words = 2 * q)%nat) as [Heven|Hodd].
  - run_method. rewrite read_word_out_of_range by lia.
    rewrite bind_lift_raise. by rewrite Heven.
  - run_method. rewrite read_word by (done || lia). run_method.
    rewrite read_word_out_of_range by lia.
    rewrite bind_lift_raise.
    replace (length words) with (S (2 * q)) by lia.
    rewrite for_range_S. unfold DSFMT_store_word.
    by destruct (half_double q) as (-> & -> & _).
Qed.

Lemma buffer_loop_short (buffered : list double) self :
  (length buffered < DSFMT.DSFMT_N64)%nat ->
  for_each (seq 0 DSFMT.DSFMT_N64) (fun i (_ : unit) =>
    x ← lift (v ← getitem_int (PyList (PyFloat <$> buffered)) i; as_double v);
    modify (DSFMT.set_buffered_uniform i x))
    tt self
  = (for_range (length buffered) (fun i self =>
       DSFMT.set_buffered_uniform i buffered.[i] self) self,
     Raise IndexError).
Proof.
  intros Hlen.
  rewrite (seq_split_at DSFMT.DSFMT_N64 (length buffered)) by lia.
  rewrite for_each_app, buffer_loop by lia. cbn [for_each].
  run_method. rewrite read_double_out_of_range by lia.
  by rewrite bind_lift_raise.
Qed.

(** X12.  The DSFMT setter checks no length before it assigns.  With an
    array of status words shorter than 384 it raises [IndexError] after
    having stored every word the array has; with enough words but fewer
    than 382 doubles it raises [IndexError] after having stored all 384
    words, the index and every double the array has.  [buffer_loc] is not
    yet assigned in either case. *)
Theorem DSFMT_restore_short_arrays words idx loc buffered self :
  Forall is_uint64 words ->
  ((length words < 2 * DSFMT.DSFMT_N_PLUS_1)%nat ->
   DSFMT.state_setter (DSFMT_blob words idx loc buffered) self =
   (for_range (length words) (DSFMT_store_word words) self, Raise IndexError))
  /\ ((2 * DSFMT.DSFMT_N_PLUS_1 <= length words)%nat -> is_int idx ->
      (length buffered < DSFMT.DSFMT_N64)%nat ->
      DSFMT.state_setter (DSFMT_blob words idx loc buffered) self =
      (for_range (length buffered)
         (fun i self => DSFMT.set_buffered_uniform i buffered.[i] self)
         (DSFMT.set_idx idx
            (for_range (2 * DSFMT.DSFMT_N_PLUS_1) (DSFMT_store_word words)
               self)),
       Raise IndexError)).
Proof.
  intros Hw.
  destruct (DSFMT_blob_parts words idx loc buffered)
    as (Hdict & Htag & Hst & Hwords & Hi & Hb & Hl).
  unfold DSFMT.state_setter.
  rewrite Hdict, Htag, ne_str_same. cbn [negb].
  rewrite Hst, Hb, Hl, !bind_ok, Hwords, Hi, !bind_ok, bind_lift_ok.
  split.
  - intros Hlen. unfold mbind at 1, method_bind at 1.
    by rewrite status_loop_short.
  - intros Hlen Hidx Hbuf. unfold mbind at 1, method_bind at 1.
    rewrite status_loop, status_pairs_flat by done.
    rewrite (as_int_ok idx) by done.
    rewrite bind_lift_ok, bind_modify, bind_lift_ok.
    unfold mbind at 1, method_bind at 1. by rewrite buffer_loop_short.
Qed.

Lemma DSFMT_restore_short_arrays_witness :
  DSFMT.state_setter (DSFMT_blob [1; 2; 3] 0 0 []) DSFMT_sample =
  (for_range 3 (DSFMT_store_word [1; 2; 3]) DSFMT_sample, Raise IndexError).
Proof.
  refine (proj1 (DSFMT_restore_short_arrays [1; 2; 3] 0 0 [] DSFMT_sample _) _).
  - compute_done.
  - cbn [length]. unfold DSFMT.DSFMT_N_PLUS_1. lia.
Defined.

(** ** Reading back what was restored into a DSFMT object *)

Lemma fmap_seq_total {A} `{Inhabited A} (l : list A) :
  (fun i => l.[i]) <$> seq 0 (length l) = l.
Proof.
  apply list_eq. intros k. rewrite list_lookup_fmap.
  destruct (decide (k < length l)%nat) as [Hk|Hk].
  - rewrite lookup_seq_lt by exact Hk. cbn [fmap option_fmap option_map Nat.add].
    symmetry. by apply list_lookup_lookup_total_lt.
  - rewrite lookup_seq_ge by lia. symmetry. apply lookup_ge_None. lia.
Qed.

Lemma fmap_seq_ext {A} (f g : nat -> A) n :
  (forall k, (k < n)%nat -> f k = g k) -> f <$> seq 0 n = g <$> seq 0 n.
Proof.
  intros Hfg. apply list_fmap_ext. intros i k Hk.
  apply lookup_seq in Hk. apply Hfg. lia.
Qed.

(** What [n] stores have done to an object whose status array has [L]
    blocks of two words. *)
Lemma store_words_invariant (words : list Z) self n :
  let L := length (dSFMT.status (dSFMT.state (DSFMT.rng_state self))) in
  (forall i, (i < L)%nat ->
     length (dSFMT.u (dSFMT.status (dSFMT.state (DSFMT.rng_state self))).[i])
     = 2%nat) ->
  (n <= 2 * L)%nat ->
  let self' := for_range n (DSFMT_store_word words) self in
  let status' := dSFMT.status (dSFMT.state (DSFMT.rng_state self')) in
  length status' = L
  /\ (forall i, (i < L)%nat -> length (dSFMT.u status'.[i]) = 2%nat)
  /\ (forall k, (k < n)%nat -> (dSFMT.u status'.[k / 2]).[k mod 2] = words.[k])
  /\ dSFMT.idx (dSFMT.state (DSFMT.rng_state self')) =
     dSFMT.idx (dSFMT.state (DSFMT.rng_state self))
  /\ dSFMT.buffered_uniforms (DSFMT.rng_state self') =
     dSFMT.buffered_uniforms (DSFMT.rng_state self)
  /\ dSFMT.buffer_loc (DSFMT.rng_state self') =
     dSFMT.buffer_loc (DSFMT.rng_state self).
Proof.
  intros L Hshape. induction n as [|n IH]; intros Hn.
  - cbn zeta. change (for_range 0 _ self) with self.
    repeat split; try done. intros k Hk. lia.
  - cbn zeta. rewrite for_range_S.
    destruct (IH ltac:(lia)) as (Hlen & Hu & Hw & Hidx & Hbuf & Hloc).
    set (self1 := for_range n (DSFMT_store_word words) self) in *.
    cbv zeta in Hlen, Hu, Hw.
    assert (Hn2 : (n / 2 < L)%nat) by (apply Nat.Div0.div_lt_upper_bound; lia).
    assert (Hm2 : (n mod 2 < 2)%nat) by (apply Nat.mod_upper_bound; lia).
    unfold DSFMT_store_word at 1 2 3 4 5 6, DSFMT.set_status_u.
    cbn [DSFMT.rng_state dSFMT.state dSFMT.status dSFMT.idx
         dSFMT.buffered_uniforms dSFMT.buffer_loc].
    split; [by rewrite length_insert|].
    split; [|split; [|done]].
    + intros i Hi. destruct (decide (i = n / 2)%nat) as [->|Hne].
      * rewrite list_lookup_total_insert_eq by lia. cbn [dSFMT.u].
        rewrite length_insert. by apply Hu.
      * rewrite list_lookup_total_insert_ne by done. by apply Hu.
    + intros k Hk. destruct (decide (k / 2 = n / 2)%nat) as [Heq|Hne].
      * rewrite Heq, list_lookup_total_insert_eq by lia. cbn [dSFMT.u].
        destruct (decide (k = n)) as [->|Hkn].
        -- apply list_lookup_total_insert_eq. rewrite Hu by lia. lia.
        -- assert (k mod 2 <> n mod 2)%nat.
           { pose proof (Nat.div_mod_eq k 2). pose proof (Nat.div_mod_eq n 2).
             lia. }
           rewrite list_lookup_total_insert_ne by done.
           rewrite <- Heq. apply Hw. lia.
      * rewrite list_lookup_total_insert_ne by done. apply Hw.
        destruct (decide (k = n)) as [->|]; [done|lia].
Qed.

Lemma fmap_seq_take {A} `{Inhabited A} (l : list A) n :
  (n <= length l)%nat -> (fun i => l.[i]) <$> seq 0 n = take n l.
Proof.
  intros Hn. rewrite <- (fmap_seq_total (take n l)).
  rewrite length_take, Nat.min_l by exact Hn.
  apply fmap_seq_ext. intros k Hk. by rewrite lookup_total_take_lt.
Qed.

Lemma buffer_loop_fields (f : nat -> double) n self :
  for_range n (fun i self => DSFMT.set_buffered_uniform i (f i) self) self
  = DSFMT.mk
      (dSFMT.mk_state (dSFMT.state (DSFMT.rng_state self))
         (dSFMT.has_uint32 (DSFMT.rng_state self))
         (dSFMT.uinteger (DSFMT.rng_state self))
         (for_range n (fun i a => a.[i <- f i])
            (dSFMT.buffered_uniforms (DSFMT.rng_state self)))
         (dSFMT.buffer_loc (DSFMT.rng_state self)))
      (DSFMT._bitgen self).
Proof.
  induction n as [|n IH]; [by destruct self as [[]]|].
  rewrite !for_range_S, IH. reflexivity.
Qed.

Lemma two_words (l : list Z) :
  length l = 2%nat -> l = [l.[0]; l.[1]].
Proof. by destruct l as [|a [|b [|c l]]]. Qed.

Lemma restore_fields (L M : nat) words idx loc buffered self :
  length (dSFMT.status (dSFMT.state (DSFMT.rng_state self))) = L ->
  Forall (fun w => length (dSFMT.u w) = 2%nat)
    (dSFMT.status (dSFMT.state (DSFMT.rng_state self))) ->
  length (dSFMT.buffered_uniforms (DSFMT.rng_state self)) = M ->
  (2 * L <= length words)%nat ->
  Forall is_uint64 words ->
  (M <= length buffered)%nat ->
  let st' :=
    DSFMT.rng_state
      (DSFMT.set_buffer_loc loc
         (for_range M (fun i self =>
            DSFMT.set_buffered_uniform i buffered.[i] self)
            (DSFMT.set_idx idx
               (for_range L (fun i self =>
                  DSFMT.set_status_u i 1 words.[2 * i + 1]
                    (DSFMT.set_status_u i 0 words.[2 * i] self)) self)))) in
  (fun k => (dSFMT.u (dSFMT.status (dSFMT.state st')).[k / 2]).[k mod 2])
    <$> seq 0 (2 * L) = take (2 * L) words
  /\ (fun i => (dSFMT.buffered_uniforms st').[i]) <$> seq 0 M = take M buffered
  /\ dSFMT.idx (dSFMT.state st') = idx
  /\ dSFMT.buffer_loc st' = loc
  /\ length (dSFMT.status (dSFMT.state st')) = L
  /\ Forall w128_wf (dSFMT.status (dSFMT.state st'))
  /\ length (dSFMT.buffered_uniforms st') = M.
Proof.
  intros Hlen Hblocks Hbuflen Hwords Huint Hbuffered.
  assert (Hshape : forall i,
    (i < length (dSFMT.status (dSFMT.state (DSFMT.rng_state self))))%nat ->
    length (dSFMT.u (dSFMT.status (dSFMT.state (DSFMT.rng_state self))).[i])
    = 2%nat).
  { intros i Hi.
    apply (Forall_lookup_1 _ _ i _ Hblocks).
    by apply list_lookup_lookup_total_lt. }
  pose proof (store_words_invariant words self (2 * L)
                Hshape ltac:(rewrite Hlen; lia)) as Hinv.
  cbv zeta in Hinv. rewrite Hlen in Hinv.
  destruct Hinv as (Hlen' & Hu & Hw & _ & Hbuf & _).
  cbv zeta. rewrite status_pairs_flat.
  set (self1 := for_range (2 * L) (DSFMT_store_word words) self) in *.
  rewrite buffer_loop_fields.
  unfold DSFMT.set_buffer_loc, DSFMT.set_idx.
  cbn [DSFMT.rng_state DSFMT._bitgen dSFMT.state dSFMT.status dSFMT.idx
       dSFMT.has_uint32 dSFMT.uinteger dSFMT.buffered_uniforms
       dSFMT.buffer_loc].
  assert (Hnew :
    for_range M (fun i a => a.[i <- buffered.[i]])
      (dSFMT.buffered_uniforms (DSFMT.rng_state self1))
    = take M buffered).
  { rewrite Hbuf. subst M. rewrite write_loop_full.
    by apply fmap_seq_take. }
  rewrite Hnew.
  split.
  { rewrite <- (fmap_seq_take words) by exact Hwords.
    apply fmap_seq_ext. exact Hw. }
  split.
  { rewrite (fmap_seq_take (take M buffered)) by (rewrite length_take; lia).
    by rewrite take_take, Nat.min_id. }
  split; [reflexivity|]. split; [reflexivity|].
  split; [exact Hlen'|].
  split; [|rewrite length_take; lia].
  apply Forall_lookup_2. intros i w Hi.
  assert (Hi' : (i < L)%nat).
  { rewrite <- Hlen'. by eapply lookup_lt_Some. }
  apply list_lookup_total_correct in Hi. subst w.
  split; [by apply Hu|].
  rewrite (two_words _ (Hu i Hi')).
  pose proof (Hw (2 * i)%nat ltac:(lia)) as H0.
  pose proof (Hw (2 * i + 1)%nat ltac:(lia)) as H1.
  destruct (half_double i) as (E0 & E1 & E2 & E3).
  replace (2 * i + 1)%nat with (S (2 * i)) in H1 by lia.
  rewrite E0, E1 in H0. rewrite E2, E3 in H1.
  rewrite H0, H1.
  assert (Hat : forall k, (k < length words)%nat -> is_uint64 words.[k]).
  { intros k Hk. apply (Forall_lookup_1 _ _ k _ Huint).
    by apply list_lookup_lookup_total_lt. }
  repeat constructor; apply Hat; lia.
Qed.

Lemma DSFMT_restore_fields words idx loc buffered self :
  DSFMT_shaped (DSFMT.rng_state self) ->
  (2 * DSFMT.DSFMT_N_PLUS_1 <= length words)%nat ->
  Forall is_uint64 words ->
  (DSFMT.DSFMT_N64 <= length buffered)%nat ->
  let st' := DSFMT.rng_state (DSFMT_restore words idx loc buffered self) in
  DSFMT_words st' = take (2 * DSFMT.DSFMT_N_PLUS_1) words
  /\ DSFMT_doubles st' = take DSFMT.DSFMT_N64 buffered
  /\ dSFMT.idx (dSFMT.state st') = idx
  /\ dSFMT.buffer_loc st' = loc
  /\ length (dSFMT.status (dSFMT.state st')) = DSFMT.DSFMT_N_PLUS_1
  /\ Forall w128_wf (dSFMT.status (dSFMT.state st'))
  /\ length (dSFMT.buffered_uniforms st') = DSFMT.DSFMT_N64.
Proof.
  intros (Hlen & Hblocks & Hbuflen) Hwords Huint Hbuffered.
  exact (restore_fields DSFMT.DSFMT_N_PLUS_1 DSFMT.DSFMT_N64 words idx loc
           buffered self Hlen Hblocks Hbuflen Hwords Huint Hbuffered).
Qed.

(** X13. Restoring a readable blob into a DSFMT object whose arrays have
    the sizes of the C struct succeeds, and the [state] property of the
    restored object returns the blob again, with the word array cut to its
    first 384 entries and the array of doubles to its first 382, whatever
    the object held before.  With arrays of exactly these sizes the blob
    comes back unchanged.  The restored state is well typed. *)
Theorem DSFMT_restore_then_state words idx loc buffered self :
  DSFMT_shaped (DSFMT.rng_state self) ->
  DSFMT_blob_ok words idx loc buffered ->
  let r := DSFMT.state_setter (DSFMT_blob words idx loc buffered) self in
  snd r = Ok tt
  /\ DSFMT.state (fst r) =
     (fst r,
      Ok (DSFMT_blob (take (2 * DSFMT.DSFMT_N_PLUS_1) words) idx loc
            (take DSFMT.DSFMT_N64 buffered)))
  /\ (length words = (2 * DSFMT.DSFMT_N_PLUS_1)%nat ->
      length buffered = DSFMT.DSFMT_N64 ->
      DSFMT.state (fst r) = (fst r, Ok (DSFMT_blob words idx loc buffered)))
  /\ dsfmt_wf (DSFMT.rng_state (fst r)).
Proof.
  intros Hshape Hok. cbv zeta.
  rewrite (DSFMT_setter_ok _ _ _ _ self Hok). cbn [fst snd].
  destruct Hok as (Hwords & Huint & Hidx & Hloc & Hbuffered).
  destruct (DSFMT_restore_fields words idx loc buffered self
              Hshape Hwords Huint Hbuffered)
    as (Hw & Hd & Hi & Hl & Hlen & Hwf & Hblen).
  cbv zeta in Hw, Hd, Hi, Hl, Hlen, Hwf, Hblen.
  assert (Hstate :
    DSFMT.state (DSFMT_restore words idx loc buffered self) =
    (DSFMT_restore words idx loc buffered self,
     Ok (DSFMT_blob (take (2 * DSFMT.DSFMT_N_PLUS_1) words) idx loc
           (take DSFMT.DSFMT_N64 buffered)))).
  { by rewrite DSFMT_state_blob, Hw, Hd, Hi, Hl. }
  split; [reflexivity|]. split; [exact Hstate|].
  split.
  - intros Hwl Hbl. rewrite Hstate.
    rewrite <- Hwl, <- Hbl at 1. by rewrite !firstn_all.
  - unfold dsfmt_wf. rewrite Hi, Hl. auto.
Qed.

Lemma DSFMT_restore_then_state_witness :
  let r := DSFMT.state_setter
             (DSFMT_blob (Z.of_nat <$> seq 0 390) 7 3
                (replicate 382 0.5%float)) DSFMT_sample in
  snd r = Ok tt
  /\ DSFMT.state (fst r) =
     (fst r,
      Ok (DSFMT_blob (take (2 * DSFMT.DSFMT_N_PLUS_1) (Z.of_nat <$> seq 0 390))
            7 3 (take DSFMT.DSFMT_N64 (replicate 382 0.5%float))))
  /\ (length (Z.of_nat <$> seq 0 390) = (2 * DSFMT.DSFMT_N_PLUS_1)%nat ->
      length (replicate 382 0.5%float) = DSFMT.DSFMT_N64 ->
      DSFMT.state (fst r) =
      (fst r,
       Ok (DSFMT_blob (Z.of_nat <$> seq 0 390) 7 3 (replicate 382 0.5%float))))
  /\ dsfmt_wf (DSFMT.rng_state (fst r)).
Proof.
  apply (DSFMT_restore_then_state (Z.of_nat <$> seq 0 390) 7 3
           (replicate 382 0.5%float) DSFMT_sample).
  - compute_done.
  - compute_done.
Defined.

(** ** The restored flag *)

(** X14. The setters of GJrand and JSF64 take any C [int] as [has_uint32],
    and [next32] tests the flag against zero only: after a blob with a flag
    other than 0 (negative ones too) is restored, the next 32-bit draw
    returns the blob's [uinteger] without a transition, leaves the four
    words as they are and sets the flag to 0, so that the state read
    afterwards is the blob with the flag 0. *)
Theorem restored_flag_is_tested_against_zero :
  (forall w h u b,
     gjrand_wf (gjrand.mk_state w h u) ->
     length (gjrand.s (GJrand.rng_state b)) = 4%nat ->
     h <> 0 ->
     let b' := fst (GJrand.state_setter (words_blob GJrand.__name__ w h u) b) in
     let r := gjrand.gjrand_next32 (GJrand.rng_state b') in
     r = (u, gjrand.mk_state w 0 u)
     /\ snd (GJrand.state (GJrand.mk (snd r) (GJrand._bitgen b'))) =
        Ok (words_blob GJrand.__name__ w 0 u))
  /\ (forall w h u b,
     jsf64_wf (jsf64.mk_state w h u) ->
     length (jsf64.s (JSF64.rng_state b)) = 4%nat ->
     h <> 0 ->
     let b' := fst (JSF64.state_setter (words_blob JSF64.__name__ w h u) b) in
     let r := jsf64.jsf64_next32 (JSF64.rng_state b') in
     r = (u, jsf64.mk_state w 0 u)
     /\ snd (JSF64.state (JSF64.mk (snd r) (JSF64._bitgen b'))) =
        Ok (words_blob JSF64.__name__ w 0 u)).
Proof.
  split.
  - intros w h u b Hwf Hb Hh. cbv zeta.
    rewrite GJrand_restore by done. cbn [fst GJrand.rng_state GJrand._bitgen].
    unfold gjrand.gjrand_next32.
    cbn [gjrand.has_uint32 gjrand.uinteger gjrand.s].
    destruct (Z.eqb_spec h 0) as [->|_]; [done|]. cbn [negb snd].
    split; [reflexivity|].
    rewrite GJrand_state_blob; [reflexivity|apply Hwf].
  - intros w h u b Hwf Hb Hh. cbv zeta.
    rewrite JSF64_restore by done. cbn [fst JSF64.rng_state JSF64._bitgen].
    unfold jsf64.jsf64_next32.
    cbn [jsf64.has_uint32 jsf64.uinteger jsf64.s].
    destruct (Z.eqb_spec h 0) as [->|_]; [done|]. cbn [negb snd].
    split; [reflexivity|].
    rewrite JSF64_state_blob; [reflexivity|apply Hwf].
Qed.

Lemma restored_flag_is_tested_against_zero_witness :
  let b' := fst (GJrand.state_setter
                   (words_blob GJrand.__name__ [1; 2; 3; 4] (-7) 6)
                   GJrand.__new__) in
  let r := gjrand.gjrand_next32 (GJrand.rng_state b') in
  r = (6, gjrand.mk_state [1; 2; 3; 4] 0 6)
  /\ snd (GJrand.state (GJrand.mk (snd r) (GJrand._bitgen b'))) =
     Ok (words_blob GJrand.__name__ [1; 2; 3; 4] 0 6).
Proof.
  refine (proj1 restored_flag_is_tested_against_zero [1; 2; 3; 4] (-7) 6
            GJrand.__new__ _ eq_refl _).
  - compute_done.
  - lia.
Defined.

(** ** The fixed point of JSF64 *)

Lemma iter_jsf64_step_zero n :
  Nat.iter n jsf64_step [0; 0; 0; 0] = [0; 0; 0; 0].
Proof.
  induction n as [|n IH]; [reflexivity|].
  rewrite Nat.iter_succ, IH. reflexivity.
Qed.

Lemma zero_words_wf : words_wf [0; 0; 0; 0].
Proof. split; [reflexivity|]. repeat constructor; unfold is_uint64; lia. Qed.

Lemma iter_jsf64_step_nonzero n w :
  words_wf w -> w <> [0; 0; 0; 0] -> Nat.iter n jsf64_step w <> [0; 0; 0; 0].
Proof.
  intros Hw Hne Heq. apply Hne.
  apply (iter_jsf64_step_inj n w [0; 0; 0; 0] Hw zero_words_wf).
  by rewrite iter_jsf64_step_zero.
Qed.

(** X15. The JSF64 transition has the all-zero words as a fixed point, with
    output 0; no other well-typed state ever steps into it, and seeding,
    which stores the constant 0xf1ea5eed in [s[0]] before its twenty
    transitions, never leaves it nor a state that reaches it. *)
Theorem jsf64_zero_fixed_point :
  jsf64.jsf64_next [0; 0; 0; 0] = (0, [0; 0; 0; 0])
  /\ (forall w n,
        words_wf w -> w <> [0; 0; 0; 0] ->
        Nat.iter n jsf64_step w <> [0; 0; 0; 0])
  /\ (forall st seed n,
        length (jsf64.s st) = 4%nat ->
        is_uint64 seed.[0] -> is_uint64 seed.[1] -> is_uint64 seed.[2] ->
        Nat.iter n jsf64_step (jsf64.s (jsf64.jsf64_set_seed st seed))
        <> [0; 0; 0; 0]).
Proof.
  split; [reflexivity|].
  split; [intros w n; apply iter_jsf64_step_nonzero|].
  intros st seed n Hlen H0 H1 H2.
  rewrite jsf64_set_seed_words by exact Hlen. cbn [jsf64.s].
  rewrite <- Nat.iter_add.
  apply iter_jsf64_step_nonzero; [|discriminate].
  split; [reflexivity|].
  apply Forall_cons_2; [unfold is_uint64; lia|].
  apply Forall_cons_2; [exact H0|].
  apply Forall_cons_2; [exact H1|].
  apply Forall_cons_2; [exact H2|apply Forall_nil_2].
Qed.

Lemma jsf64_zero_fixed_point_witness :
  Nat.iter 5 jsf64_step (jsf64.s (jsf64.jsf64_set_seed
                                    (jsf64.mk_state [0; 0; 0; 0] 0 0) [0; 0; 0]))
  <> [0; 0; 0; 0].
Proof.
  refine (proj2 (proj2 jsf64_zero_fixed_point)
            (jsf64.mk_state [0; 0; 0; 0] 0 0) [0; 0; 0] 5%nat eq_refl _ _ _);
    compute_done.
Defined.

(** ** Jumps of DSFMT *)

Lemma as_npy_intp_ok n : is_npy_intp n -> as_npy_intp (PyInt n) = Ok n.
Proof. apply as_c_integer_ok. Qed.

Lemma as_npy_intp_overflow n :
  ~ is_npy_intp n -> as_npy_intp (PyInt n) = Raise OverflowError.
Proof. apply as_c_integer_overflow. Qed.

Lemma as_c_integer_range lo hi value n :
  as_c_integer lo hi value = Ok n -> lo <= n < hi.
Proof.
  destruct value as [|m|d|?|?|?]; try discriminate; cbn [as_c_integer].
  - destruct (decide _); [by intros [= <-]|discriminate].
  - destruct (py_int_of_float d) as [m|]; [|discriminate].
    cbn [mbind result_bind].
    destruct (decide _); [by intros [= <-]|discriminate].
Qed.

Lemma DSFMT_jump_inplace_run `{dSFMT.extern} iter n self :
  as_npy_intp iter = Ok n ->
  DSFMT.jump_inplace iter self =
  (DSFMT._reset_state_variables
     (Nat.iter (Z.to_nat n)
        (fun self => DSFMT.mk (dSFMT.dsfmt_jump (DSFMT.rng_state self))
                       (DSFMT._bitgen self))
        self),
   Ok tt).
Proof.
  intros Hiter. unfold DSFMT.jump_inplace. rewrite Hiter, bind_lift_ok.
  unfold modify.
  by rewrite (for_range_iter
    (fun self => DSFMT.mk (dSFMT.dsfmt_jump (DSFMT.rng_state self))
                   (DSFMT._bitgen self))).
Qed.

Lemma DSFMT_jump_inplace_raise `{dSFMT.extern} iter e self :
  as_npy_intp iter = Raise e ->
  DSFMT.jump_inplace iter self = (self, Raise e).
Proof.
  intros Hiter. unfold DSFMT.jump_inplace. by rewrite Hiter, bind_lift_raise.
Qed.

Lemma DSFMT_reset_buffer_loc self :
  dSFMT.buffer_loc (DSFMT.rng_state (DSFMT._reset_state_variables self)) = 382.
Proof. reflexivity. Qed.

Lemma DSFMT_jumped_run `{dSFMT.extern} mem val jumps self :
  dsfmt_wf (DSFMT.rng_state self) -> is_npy_intp jumps ->
  DSFMT.jumped mem val (PyInt jumps) self =
  (self,
   Ok (DSFMT._reset_state_variables
         (Nat.iter (Z.to_nat jumps)
            (fun self => DSFMT.mk (dSFMT.dsfmt_jump (DSFMT.rng_state self))
                           (DSFMT._bitgen self))
            (DSFMT_restore (DSFMT_words (DSFMT.rng_state self))
               (dSFMT.idx (dSFMT.state (DSFMT.rng_state self)))
               (dSFMT.buffer_loc (DSFMT.rng_state self))
               (DSFMT_doubles (DSFMT.rng_state self))
               (DSFMT.__init__ mem val DSFMT.__new__))))).
Proof.
  intros Hwf Hjumps. unfold DSFMT.jumped.
  rewrite as_npy_intp_ok, bind_lift_ok by exact Hjumps.
  unfold mbind at 1, method_bind at 1. rewrite DSFMT_state_blob.
  unfold mbind at 1, method_bind at 1, call at 1.
  rewrite DSFMT_setter_ok
    by (apply DSFMT_saved_blob_ok; [exact Hwf|apply Hwf|apply Hwf]).
  unfold mbind at 1, method_bind at 1, call at 1.
  rewrite (DSFMT_jump_inplace_run _ jumps) by (by apply as_npy_intp_ok).
  reflexivity.
Qed.

Lemma DSFMT_jumped_raise `{dSFMT.extern} mem val jumps e self :
  as_npy_intp jumps = Raise e ->
  DSFMT.jumped mem val jumps self = (self, Raise e).
Proof.
  intros Hjumps. unfold DSFMT.jumped. by rewrite Hjumps, bind_lift_raise.
Qed.

Lemma restore_cache (L M : nat) (words : list Z) idx loc
    (buffered : list double) self :
  let stored :=
    DSFMT.set_idx idx
      (for_range L (fun i self =>
         DSFMT.set_status_u i 1 words.[2 * i + 1]
           (DSFMT.set_status_u i 0 words.[2 * i] self)) self) in
  DSFMT.set_buffer_loc loc
    (for_range M (fun i self =>
       DSFMT.set_buffered_uniform i buffered.[i] self) stored) =
  DSFMT_with_cache
    (for_range M (fun i a => a.[i <- buffered.[i]])
       (dSFMT.buffered_uniforms (DSFMT.rng_state stored)))
    loc stored.
Proof.
  cbv zeta. rewrite buffer_loop_fields. reflexivity.
Qed.

Lemma DSFMT_restore_cache words idx loc buffered self :
  let stored :=
    DSFMT.set_idx idx
      (for_range DSFMT.DSFMT_N_PLUS_1 (fun i self =>
         DSFMT.set_status_u i 1 words.[2 * i + 1]
           (DSFMT.set_status_u i 0 words.[2 * i] self)) self) in
  DSFMT_restore words idx loc buffered self =
  DSFMT_with_cache
    (for_range DSFMT.DSFMT_N64 (fun i a => a.[i <- buffered.[i]])
       (dSFMT.buffered_uniforms (DSFMT.rng_state stored)))
    loc stored.
Proof.
  exact (restore_cache DSFMT.DSFMT_N_PLUS_1 DSFMT.DSFMT_N64 words idx loc
           buffered self).
Qed.

Section draws_of_the_model.
Context (fill : dSFMT.dsfmt_t -> dSFMT.dsfmt_t * list double).
Context (jump : dSFMT.dsfmt_t -> dSFMT.dsfmt_t).
Context (init_gen_rand : Z -> dSFMT.dsfmt_t).
Context (init_by_array : list Z -> dSFMT.dsfmt_t).
Context (bits : double -> Z).

Local Abbreviation header :=
  (dSFMT_model.header fill jump init_gen_rand init_by_array bits).

Lemma model_jumps n self :
  DSFMT.rng_state
    (Nat.iter n
       (fun self => DSFMT.mk (@dSFMT.dsfmt_jump header (DSFMT.rng_state self))
                      (DSFMT._bitgen self))
       self)
  = dSFMT.mk_state (Nat.iter n jump (dSFMT.state (DSFMT.rng_state self)))
      (dSFMT.has_uint32 (DSFMT.rng_state self))
      (dSFMT.uinteger (DSFMT.rng_state self))
      (dSFMT.buffered_uniforms (DSFMT.rng_state self))
      (dSFMT.buffer_loc (DSFMT.rng_state self)).
Proof.
  induction n as [|n IH]; [by destruct self as [[]]|].
  rewrite !Nat.iter_succ. cbn [DSFMT.rng_state]. rewrite IH. reflexivity.
Qed.

Lemma model_after_jumps_self n self :
  DSFMT.rng_state
    (DSFMT._reset_state_variables
       (Nat.iter n
          (fun self =>
             DSFMT.mk (@dSFMT.dsfmt_jump header (DSFMT.rng_state self))
               (DSFMT._bitgen self))
          self))
  = dSFMT.mk_state (Nat.iter n jump (dSFMT.state (DSFMT.rng_state self)))
      (dSFMT.has_uint32 (DSFMT.rng_state self))
      (dSFMT.uinteger (DSFMT.rng_state self))
      (dSFMT.buffered_uniforms (DSFMT.rng_state self)) 382.
Proof.
  unfold DSFMT._reset_state_variables, DSFMT.set_buffer_loc.
  cbn [DSFMT.rng_state]. rewrite model_jumps. reflexivity.
Qed.

Lemma model_after_jumps n cache cursor self :
  DSFMT.rng_state
    (DSFMT._reset_state_variables
       (Nat.iter n
          (fun self =>
             DSFMT.mk (@dSFMT.dsfmt_jump header (DSFMT.rng_state self))
               (DSFMT._bitgen self))
          (DSFMT_with_cache cache cursor self)))
  = dSFMT.mk_state (Nat.iter n jump (dSFMT.state (DSFMT.rng_state self)))
      (dSFMT.has_uint32 (DSFMT.rng_state self))
      (dSFMT.uinteger (DSFMT.rng_state self))
      cache 382.
Proof.
  unfold DSFMT._reset_state_variables, DSFMT.set_buffer_loc.
  cbn [DSFMT.rng_state]. rewrite model_jumps. reflexivity.
Qed.

Lemma model_next_buffer_empty d h u cache :
  dSFMT_model.next_buffer fill (dSFMT.mk_state d h u cache 382) =
  ((snd (fill d)).[0], dSFMT.mk_state (fst (fill d)) h u (snd (fill d)) 1).
Proof.
  unfold dSFMT_model.next_buffer. cbn [dSFMT.buffer_loc dSFMT.state
    dSFMT.has_uint32 dSFMT.uinteger].
  change (382 <? Z.of_nat DSFMT.DSFMT_N64) with false. cbv iota.
  by destruct (fill d).
Qed.

(** From an empty cache the first draw of any kind refills: its value and
    the state it leaves do not depend on the doubles the cache held. *)
Lemma model_draw1_empty mem val op d h u cache cache' :
  let bitgen :=
    DSFMT._bitgen (@DSFMT.__init__ header mem val DSFMT.__new__) in
  draw1 bitgen op (dSFMT.mk_state d h u cache 382) =
  draw1 bitgen op (dSFMT.mk_state d h u cache' 382).
Proof.
  cbv zeta.
  destruct op; cbn [draw1 DSFMT._bitgen DSFMT.__init__
    DSFMT._reset_state_variables DSFMT.set_buffer_loc
    next_uint64 next_uint32 next_double next_raw];
    unfold DSFMT.dsfmt_uint64, DSFMT.dsfmt_uint32, DSFMT.dsfmt_double,
      DSFMT.dsfmt_raw;
    cbn [dSFMT.dsfmt_next64 dSFMT.dsfmt_next32 dSFMT.dsfmt_next_double
         dSFMT.dsfmt_next_raw dSFMT_model.header];
    unfold dSFMT_model.next64, dSFMT_model.next32, dSFMT_model.next_raw;
    by rewrite !model_next_buffer_empty.
Qed.

Lemma model_draws_empty mem val ops d h u cache cache' :
  let bitgen :=
    DSFMT._bitgen (@DSFMT.__init__ header mem val DSFMT.__new__) in
  fst (draws bitgen ops (dSFMT.mk_state d h u cache 382)) =
  fst (draws bitgen ops (dSFMT.mk_state d h u cache' 382)).
Proof.
  cbv zeta. destruct ops as [|op ops]; [reflexivity|].
  cbn [draws]. by rewrite (model_draw1_empty mem val op d h u cache cache').
Qed.

End draws_of_the_model.

Lemma jumps_bitgen `{dSFMT.extern} n self :
  DSFMT._bitgen
    (DSFMT._reset_state_variables
       (Nat.iter n
          (fun self => DSFMT.mk (dSFMT.dsfmt_jump (DSFMT.rng_state self))
                         (DSFMT._bitgen self))
          self))
  = DSFMT._bitgen self.
Proof.
  unfold DSFMT._reset_state_variables, DSFMT.set_buffer_loc.
  cbn [DSFMT._bitgen].
  induction n as [|n IH]; [reflexivity|].
  rewrite Nat.iter_succ. cbn [DSFMT._bitgen]. exact IH.
Qed.

Lemma status_pairs_bitgen (L : nat) (words : list Z) idx self :
  DSFMT._bitgen
    (DSFMT.set_idx idx
       (for_range L (fun i self =>
          DSFMT.set_status_u i 1 words.[2 * i + 1]
            (DSFMT.set_status_u i 0 words.[2 * i] self)) self))
  = DSFMT._bitgen self.
Proof.
  unfold DSFMT.set_idx. cbn [DSFMT._bitgen].
  induction L as [|L IH]; [reflexivity|].
  rewrite for_range_S. unfold DSFMT.set_status_u at 1 2.
  cbn [DSFMT._bitgen]. exact IH.
Qed.

(** C8.  [jump_inplace] converts its count, runs [dsfmt_jump] once per
    count and then sets [buffer_loc] to [DSFMT_N64 = 382], whatever
    [dsfmt_jump] does; [jumped] does so on a new object and leaves the one
    it is called on as it was; a count outside [np.npy_intp] is refused
    with [OverflowError] when the call is entered.  382 is the value
    [__init__] gives the cursor over the cache it has just allocated.  With
    the draw path of the design document, every sequence of draws after a
    jump returns the same values whatever doubles the cache held and
    wherever its cursor stood before the jump, and the first double drawn
    is the first one of a refill computed from the jumped status: no double
    cached before the jump is returned. *)
Theorem DSFMT_jump_resets_buffer_loc `{dSFMT.extern} :
  (forall self iter n,
     as_npy_intp iter = Ok n ->
     DSFMT.jump_inplace iter self =
       (DSFMT._reset_state_variables
          (Nat.iter (Z.to_nat n)
             (fun self => DSFMT.mk (dSFMT.dsfmt_jump (DSFMT.rng_state self))
                            (DSFMT._bitgen self))
             self),
        Ok tt)
     /\ dSFMT.buffer_loc
          (DSFMT.rng_state (fst (DSFMT.jump_inplace iter self))) = 382)
  /\ (forall self mem val jumps,
     dsfmt_wf (DSFMT.rng_state self) -> is_npy_intp jumps ->
     exists bit_generator,
       DSFMT.jumped mem val (PyInt jumps) self = (self, Ok bit_generator)
       /\ dSFMT.buffer_loc (DSFMT.rng_state bit_generator) = 382)
  /\ (forall self mem val jumps,
     ~ is_npy_intp jumps ->
     DSFMT.jumped mem val (PyInt jumps) self = (self, Raise OverflowError))
  /\ (forall mem val,
     dSFMT.buffer_loc
       (DSFMT.rng_state (DSFMT.__init__ mem val DSFMT.__new__)) = 382)
  /\ Z.of_nat DSFMT.DSFMT_N64 = 382
  /\ (forall fill jump init_gen_rand init_by_array bits,
      let header :=
        dSFMT_model.header fill jump init_gen_rand init_by_array bits in
      (forall self cache cursor iter n ops mem val,
         as_npy_intp iter = Ok n ->
         let bitgen :=
           DSFMT._bitgen (@DSFMT.__init__ header mem val DSFMT.__new__) in
         let st :=
           DSFMT.rng_state (fst (@DSFMT.jump_inplace header iter self)) in
         let st' :=
           DSFMT.rng_state
             (fst (@DSFMT.jump_inplace header iter
                     (DSFMT_with_cache cache cursor self))) in
         fst (draws bitgen ops st) = fst (draws bitgen ops st')
         /\ @dSFMT.dsfmt_next_double header st =
            ((snd (fill (dSFMT.state st))).[0],
             dSFMT.mk_state (fst (fill (dSFMT.state st)))
               (dSFMT.has_uint32 st) (dSFMT.uinteger st)
               (snd (fill (dSFMT.state st))) 1))
      /\ (forall self cache cursor mem val jumps,
         dsfmt_wf (DSFMT.rng_state self) ->
         length cache = DSFMT.DSFMT_N64 -> is_int cursor ->
         is_npy_intp jumps ->
         exists bit_generator bit_generator',
           @DSFMT.jumped header mem val (PyInt jumps) self =
             (self, Ok bit_generator)
           /\ @DSFMT.jumped header mem val (PyInt jumps)
                (DSFMT_with_cache cache cursor self) =
              (DSFMT_with_cache cache cursor self, Ok bit_generator')
           /\ forall ops,
                fst (draws (DSFMT._bitgen bit_generator) ops
                       (DSFMT.rng_state bit_generator)) =
                fst (draws (DSFMT._bitgen bit_generator') ops
                       (DSFMT.rng_state bit_generator')))).
Proof.
  split.
  { intros self iter n Hiter.
    rewrite (DSFMT_jump_inplace_run iter n) by exact Hiter. by split. }
  split.
  { intros self mem val jumps Hwf Hjumps.
    rewrite DSFMT_jumped_run by done.
    eexists. split; [reflexivity|]. apply DSFMT_reset_buffer_loc. }
  split.
  { intros self mem val jumps Hjumps.
    apply DSFMT_jumped_raise. by apply as_npy_intp_overflow. }
  split; [reflexivity|]. split; [reflexivity|].
  intros fill jump init_gen_rand init_by_array bits header. split.
  - intros self cache cursor iter n ops mem val Hiter bitgen st st'.
    subst st st'.
    rewrite !(DSFMT_jump_inplace_run iter n) by exact Hiter. cbn [fst].
    unfold header. rewrite model_after_jumps, !model_after_jumps_self.
    split; [apply model_draws_empty|].
    cbn [dSFMT.dsfmt_next_double dSFMT_model.header dSFMT.state
         dSFMT.has_uint32 dSFMT.uinteger].
    apply model_next_buffer_empty.
  - intros self cache cursor mem val jumps Hwf Hcache Hcursor Hjumps.
    assert (Hwf' : dsfmt_wf (DSFMT.rng_state (DSFMT_with_cache cache cursor self))).
    { destruct Hwf as (H1 & H2 & H3 & _ & _).
      unfold dsfmt_wf, DSFMT_with_cache.
      cbn [DSFMT.rng_state dSFMT.state dSFMT.buffered_uniforms
           dSFMT.buffer_loc].
      auto. }
    rewrite !DSFMT_jumped_run by done.
    eexists. eexists. split; [reflexivity|]. split; [reflexivity|].
    intros ops.
    change (DSFMT_words (DSFMT.rng_state (DSFMT_with_cache cache cursor self)))
      with (DSFMT_words (DSFMT.rng_state self)).
    change (dSFMT.idx (dSFMT.state
              (DSFMT.rng_state (DSFMT_with_cache cache cursor self))))
      with (dSFMT.idx (dSFMT.state (DSFMT.rng_state self))).
    rewrite !DSFMT_restore_cache. cbv zeta.
    rewrite !jumps_bitgen. unfold header. rewrite !model_after_jumps.
    unfold DSFMT_with_cache at 1 2. cbn [DSFMT._bitgen].
    rewrite status_pairs_bitgen.
    apply model_draws_empty.
Qed.

Lemma DSFMT_jump_resets_buffer_loc_witness :
  (exists bit_generator,
     @DSFMT.jumped dSFMT_model.still dSFMT_model.zero_status [] (PyInt 2)
       DSFMT_sample
     = (DSFMT_sample, Ok bit_generator)
     /\ dSFMT.buffer_loc (DSFMT.rng_state bit_generator) = 382)
  /\ @DSFMT.jumped dSFMT_model.still dSFMT_model.zero_status []
       (PyInt (2 ^ 70)) DSFMT_sample
     = (DSFMT_sample, Raise OverflowError)
  /\ (exists bit_generator bit_generator',
        @DSFMT.jumped dSFMT_model.still dSFMT_model.zero_status [] (PyInt 2)
          DSFMT_sample
        = (DSFMT_sample, Ok bit_generator)
        /\ @DSFMT.jumped dSFMT_model.still dSFMT_model.zero_status []
             (PyInt 2)
             (DSFMT_with_cache (replicate 382 0.75%float) 9 DSFMT_sample)
           = (DSFMT_with_cache (replicate 382 0.75%float) 9 DSFMT_sample,
              Ok bit_generator')
        /\ forall ops,
             fst (draws (DSFMT._bitgen bit_generator) ops
                    (DSFMT.rng_state bit_generator)) =
             fst (draws (DSFMT._bitgen bit_generator') ops
                    (DSFMT.rng_state bit_generator'))).
Proof.
  split; [|split].
  - refine (proj1 (proj2 (@DSFMT_jump_resets_buffer_loc dSFMT_model.still))
              DSFMT_sample dSFMT_model.zero_status [] 2 _ _); compute_done.
  - refine (proj1 (proj2 (proj2
              (@DSFMT_jump_resets_buffer_loc dSFMT_model.still)))
              DSFMT_sample dSFMT_model.zero_status [] (2 ^ 70) _).
    unfold is_npy_intp. lia.
  - refine (proj2 (proj2 (proj2 (proj2 (proj2 (proj2
              (@DSFMT_jump_resets_buffer_loc dSFMT_model.still)))))
              (fun d => (d, replicate DSFMT.DSFMT_N64 0.5%float))
              (fun d => d) (fun _ => dSFMT_model.zero_status)
              (fun _ => dSFMT_model.zero_status) (fun _ => 0))
              DSFMT_sample (replicate 382 0.75%float) 9
              dSFMT_model.zero_status [] 2 _ _ _ _); compute_done.
Defined.

(** ** Rejected blobs, case by case *)

Lemma getitem_some (d : gmap string pyobj) key v :
  d !! key = Some v -> getitem (PyDict d) key = Ok v.
Proof. intros Hv. unfold getitem. by rewrite Hv. Qed.

Lemma getitem_none (d : gmap string pyobj) key :
  d !! key = None -> getitem (PyDict d) key = Raise KeyError.
Proof. intros Hv. unfold getitem. by rewrite Hv. Qed.

Lemma np_assign_uint64_length (dst ws : list Z) :
  Forall is_uint64 ws -> length ws <> length dst -> length ws <> 1%nat ->
  np_assign_uint64 dst (PyList (PyInt <$> ws)) = Raise ValueError.
Proof.
  intros Hws Hlen Hone. unfold np_assign_uint64.
  rewrite as_uint64_seq_ok by exact Hws. cbn [mbind result_bind].
  by rewrite !decide_False.
Qed.

Lemma tagged_dict (d : gmap string pyobj) name :
  d !! "bit_generator" = Some (PyStr name) ->
  negb (isinstance_dict (PyDict d)) = false
  /\ ne_str (dict_get (PyDict d) "bit_generator" (PyStr EmptyString)) name
     = false.
Proof.
  intros Htag. split; [reflexivity|].
  cbn [dict_get]. rewrite Htag. apply ne_str_same.
Qed.

Ltac reject_words setter :=
  let Htag := fresh "Htag" in
  intros d inner self Htag;
  destruct (tagged_dict d _ Htag) as [Hdict Hname];
  unfold setter; rewrite Hdict, Hname;
  split;
  [ intros Hst; by rewrite (getitem_none d "state" Hst), bind_raise,
      bind_lift_raise
  | intros Hst; rewrite (getitem_some d "state" _ Hst), bind_ok;
    split;
    [ intros Hin; by rewrite (getitem_none inner "state" Hin), bind_raise,
        bind_lift_raise
    | intros ws Hin Hws;
      rewrite (getitem_some inner "state" _ Hin), bind_ok;
      split;
      [ intros Hlen Hone;
        by rewrite np_assign_uint64_length, bind_lift_raise
      | intros Hlen;
        rewrite np_assign_uint64_ok, bind_lift_ok by done;
        split;
        [ intros Hh; by rewrite (getitem_none d "has_uint32" Hh),
            bind_raise, bind_lift_raise
        | intros h Hh;
          rewrite (getitem_some d "has_uint32" _ Hh), bind_ok;
          split;
          [ intros Hrange; unfold as_int;
            by rewrite as_c_integer_overflow, bind_lift_raise
          | intros Hrange; rewrite as_int_ok, bind_lift_ok by exact Hrange;
            split;
            [ intros Hu; by rewrite (getitem_none d "uinteger" Hu),
                bind_raise, bind_lift_raise
            | intros u Hu Hurange;
              rewrite (getitem_some d "uinteger" _ Hu), bind_ok;
              unfold as_uint32;
              by rewrite as_c_integer_overflow, bind_lift_raise ] ] ] ] ] ].

Lemma GJrand_rejects :
  rejects_malformed_words GJrand.__name__ GJrand.state_setter.
Proof. reject_words GJrand.state_setter. Qed.

Lemma JSF64_rejects :
  rejects_malformed_words JSF64.__name__ JSF64.state_setter.
Proof. reject_words JSF64.state_setter. Qed.

Lemma PCG32_rejects (d inner : gmap string pyobj) self :
  d !! "bit_generator" = Some (PyStr PCG32.__name__) ->
  (d !! "state" = None ->
   PCG32.state_setter (PyDict d) self = (self, Raise KeyError))
  /\ (d !! "state" = Some (PyDict inner) ->
      (inner !! "state" = None ->
       PCG32.state_setter (PyDict d) self = (self, Raise KeyError))
      /\ (forall x,
          inner !! "state" = Some (PyInt x) ->
          (~ is_uint64 x ->
           PCG32.state_setter (PyDict d) self = (self, Raise OverflowError))
          /\ (is_uint64 x ->
              (inner !! "inc" = None ->
               PCG32.state_setter (PyDict d) self =
               (PCG32.set_state_field x self, Raise KeyError))
              /\ (forall i,
                  inner !! "inc" = Some (PyInt i) -> ~ is_uint64 i ->
                  PCG32.state_setter (PyDict d) self =
                  (PCG32.set_state_field x self, Raise OverflowError))))).
Proof.
  intros Htag. destruct (tagged_dict d _ Htag) as [Hdict Hname].
  unfold PCG32.state_setter. rewrite Hdict, Hname.
  split.
  { intros Hst.
    by rewrite (getitem_none d "state" Hst), !bind_raise, bind_lift_raise. }
  intros Hst. rewrite (getitem_some d "state" _ Hst), !bind_ok.
  split.
  { intros Hin.
    by rewrite (getitem_none inner "state" Hin), bind_raise, bind_lift_raise. }
  intros x Hin. rewrite (getitem_some inner "state" _ Hin), bind_ok.
  split.
  { intros Hx. unfold as_uint64.
    by rewrite as_c_integer_overflow, bind_lift_raise. }
  intros Hx. rewrite as_uint64_ok, bind_lift_ok, bind_modify by exact Hx.
  split.
  - intros Hinc.
    by rewrite (getitem_none inner "inc" Hinc), bind_raise, bind_lift_raise.
  - intros i Hinc Hi. rewrite (getitem_some inner "inc" _ Hinc), bind_ok.
    unfold as_uint64. by rewrite as_c_integer_overflow, bind_lift_raise.
Qed.

Lemma DSFMT_restore_idx_loc words idx loc buffered self :
  dSFMT.idx (dSFMT.state
    (DSFMT.rng_state (DSFMT_restore words idx loc buffered self))) = idx
  /\ dSFMT.buffer_loc
       (DSFMT.rng_state (DSFMT_restore words idx loc buffered self)) = loc.
Proof. rewrite DSFMT_restore_cache. by split. Qed.

Lemma DSFMT_setter_short words idx loc buffered self :
  Forall is_uint64 words ->
  ((length words < 2 * DSFMT.DSFMT_N_PLUS_1)%nat ->
   DSFMT.state_setter (DSFMT_blob words idx loc buffered) self =
   (for_range (length words) (DSFMT_store_word words) self, Raise IndexError))
  /\ ((2 * DSFMT.DSFMT_N_PLUS_1 <= length words)%nat -> is_int idx ->
      (length buffered < DSFMT.DSFMT_N64)%nat ->
      DSFMT.state_setter (DSFMT_blob words idx loc buffered) self =
      (for_range (length buffered)
         (fun i self => DSFMT.set_buffered_uniform i buffered.[i] self)
         (DSFMT.set_idx idx
            (for_range (2 * DSFMT.DSFMT_N_PLUS_1) (DSFMT_store_word words)
               self)),
       Raise IndexError)).
Proof.
  intros Hw.
  destruct (DSFMT_blob_parts words idx loc buffered)
    as (Hdict & Htag & Hst & Hwords & Hi & Hb & Hl).
  unfold DSFMT.state_setter.
  rewrite Hdict, Htag, ne_str_same. cbn [negb].
  rewrite Hst, Hb, Hl, !bind_ok, Hwords, Hi, !bind_ok, bind_lift_ok.
  split.
  - intros Hlen. unfold mbind at 1, method_bind at 1.
    by rewrite status_loop_short.
  - intros Hlen Hidx Hbuf. unfold mbind at 1, method_bind at 1.
    rewrite status_loop, status_pairs_flat by done.
    rewrite (as_int_ok idx) by done.
    rewrite bind_lift_ok, bind_modify, bind_lift_ok.
    unfold mbind at 1, method_bind at 1. by rewrite buffer_loop_short.
Qed.

(** C2, as the code has it.  Every engine refuses a blob that is not a dict
    with [TypeError] and a blob whose algorithm tag is not its own with
    [ValueError], in the call itself and with the object as it was.  GJrand
    and JSF64 refuse a malformed blob in the same way (a missing entry
    with [KeyError], a state array of 64-bit integers whose length is
    neither 4 nor 1 with [ValueError], a flag outside a C [int] or a
    cached half outside 32 bits with [OverflowError]) and are as they were
    after any restore that raises.  PCG32 reports a missing or out-of-range
    entry too; an invalid ['inc'] is reported after ['state'] has been
    assigned.  DSFMT checks neither the range of the index nor the lengths
    of the arrays: with at least 384 words within 64 bits and at least 382
    doubles, any [idx] and [buffer_loc] that fit a C [int] are stored as
    given; with fewer words or doubles it raises [IndexError], after the
    entries present, and for a short array of doubles all the words and
    the index, have been stored. *)
Theorem restore_rejections :
  (forall value, isinstance_dict value = false ->
     (forall self, GJrand.state_setter value self = (self, Raise TypeError))
     /\ (forall self, JSF64.state_setter value self = (self, Raise TypeError))
     /\ (forall self, PCG32.state_setter value self = (self, Raise TypeError))
     /\ (forall self, DSFMT.state_setter value self = (self, Raise TypeError)))
  /\ (forall value name,
     isinstance_dict value = true ->
     ne_str (dict_get value "bit_generator" (PyStr EmptyString)) name = true ->
     (name = GJrand.__name__ ->
        forall self, GJrand.state_setter value self = (self, Raise ValueError))
     /\ (name = JSF64.__name__ ->
        forall self, JSF64.state_setter value self = (self, Raise ValueError))
     /\ (name = PCG32.__name__ ->
        forall self, PCG32.state_setter value self = (self, Raise ValueError))
     /\ (name = DSFMT.__name__ ->
        forall self, DSFMT.state_setter value self = (self, Raise ValueError)))
  /\ (forall value self self' e,
     GJrand.state_setter value self = (self', Raise e) -> self' = self)
  /\ (forall value self self' e,
     JSF64.state_setter value self = (self', Raise e) -> self' = self)
  /\ rejects_malformed_words GJrand.__name__ GJrand.state_setter
  /\ rejects_malformed_words JSF64.__name__ JSF64.state_setter
  /\ (forall (d inner : gmap string pyobj) self,
     d !! "bit_generator" = Some (PyStr PCG32.__name__) ->
     (d !! "state" = None ->
      PCG32.state_setter (PyDict d) self = (self, Raise KeyError))
     /\ (d !! "state" = Some (PyDict inner) ->
         (inner !! "state" = None ->
          PCG32.state_setter (PyDict d) self = (self, Raise KeyError))
         /\ (forall x,
             inner !! "state" = Some (PyInt x) ->
             (~ is_uint64 x ->
              PCG32.state_setter (PyDict d) self =
              (self, Raise OverflowError))
             /\ (is_uint64 x ->
                 (inner !! "inc" = None ->
                  PCG32.state_setter (PyDict d) self =
                  (PCG32.set_state_field x self, Raise KeyError))
                 /\ (forall i,
                     inner !! "inc" = Some (PyInt i) -> ~ is_uint64 i ->
                     PCG32.state_setter (PyDict d) self =
                     (PCG32.set_state_field x self, Raise OverflowError))))))
  /\ (forall words idx loc buffered self,
     DSFMT_blob_ok words idx loc buffered ->
     let r := DSFMT.state_setter (DSFMT_blob words idx loc buffered) self in
     snd r = Ok tt
     /\ dSFMT.idx (dSFMT.state (DSFMT.rng_state (fst r))) = idx
     /\ dSFMT.buffer_loc (DSFMT.rng_state (fst r)) = loc)
  /\ (forall words idx loc buffered self,
     Forall is_uint64 words ->
     ((length words < 2 * DSFMT.DSFMT_N_PLUS_1)%nat ->
      DSFMT.state_setter (DSFMT_blob words idx loc buffered) self =
      (for_range (length words) (DSFMT_store_word words) self,
       Raise IndexError))
     /\ ((2 * DSFMT.DSFMT_N_PLUS_1 <= length words)%nat -> is_int idx ->
         (length buffered < DSFMT.DSFMT_N64)%nat ->
         DSFMT.state_setter (DSFMT_blob words idx loc buffered) self =
         (for_range (length buffered)
            (fun i self => DSFMT.set_buffered_uniform i buffered.[i] self)
            (DSFMT.set_idx idx
               (for_range (2 * DSFMT.DSFMT_N_PLUS_1) (DSFMT_store_word words)
                  self)),
          Raise IndexError))).
Proof.
  split.
  { intros value Hdict.
    unfold GJrand.state_setter, JSF64.state_setter, PCG32.state_setter,
      DSFMT.state_setter.
    rewrite Hdict. by repeat split. }
  split.
  { intros value name Hdict Htag.
    unfold GJrand.state_setter, JSF64.state_setter, PCG32.state_setter,
      DSFMT.state_setter.
    rewrite Hdict. cbn [negb].
    repeat split; intros <-; rewrite Htag; reflexivity. }
  split; [exact GJrand_setter_atomic|].
  split; [exact JSF64_setter_atomic|].
  split; [exact GJrand_rejects|].
  split; [exact JSF64_rejects|].
  split; [exact PCG32_rejects|].
  split; [|exact DSFMT_setter_short].
  intros words idx loc buffered self Hok. cbv zeta.
  rewrite DSFMT_setter_ok by exact Hok. cbn [fst snd].
  split; [reflexivity|]. apply DSFMT_restore_idx_loc.
Qed.

Lemma restore_rejections_witness :
  GJrand.state_setter PyNone GJrand.__new__ = (GJrand.__new__, Raise TypeError)
  /\ JSF64.state_setter (words_blob "GJrand" [1; 2; 3; 4] 0 0) JSF64.__new__
     = (JSF64.__new__, Raise ValueError)
  /\ GJrand.state_setter (words_blob "GJrand" [1; 2; 3] 0 0) GJrand.__new__
     = (GJrand.__new__, Raise ValueError)
  /\ dSFMT.idx (dSFMT.state (DSFMT.rng_state
       (fst (DSFMT.state_setter DSFMT_blob_bad_idx DSFMT_sample)))) = 100000.
Proof.
  split; [|split; [|split]].
  - exact (proj1 (proj1 restore_rejections PyNone eq_refl) GJrand.__new__).
  - exact (proj1 (proj2 (proj1 (proj2 restore_rejections)
             (words_blob "GJrand" [1; 2; 3; 4] 0 0) JSF64.__name__
             eq_refl eq_refl)) eq_refl JSF64.__new__).
  - refine (proj1 (proj2 (proj2
             (proj1 (proj2 (proj2 (proj2 (proj2 restore_rejections))))
                (<["bit_generator" := PyStr "GJrand"]>
                 (<["state" := PyDict {["state" := PyList (PyInt <$> [1; 2; 3])]}]>
                 (<["has_uint32" := PyInt 0]>
                 (<["uinteger" := PyInt 0]> ∅))))
                {["state" := PyList (PyInt <$> [1; 2; 3])]}
                GJrand.__new__ eq_refl) eq_refl)
             [1; 2; 3] eq_refl _) _ _).
    + compute_done.
    + cbn [length]. lia.
    + cbn [length]. lia.
  - refine (proj1 (proj2 (proj1 (proj2 (proj2 (proj2 (proj2 (proj2
             (proj2 (proj2 restore_rejections)))))))
             (DSFMT_words (DSFMT.rng_state DSFMT_sample)) 100000 5
             (DSFMT_doubles (DSFMT.rng_state DSFMT_sample)) DSFMT_sample _))).
    compute_done.
Defined.
